(** * Join Server: the join procedure and the session key look-ups

    A shallow embedding of [pkg/joinserver] ([HandleJoin], [checkMIC],
    [GetAppSKey], [GetNwkSKeys]) of the LoRaWAN stack.  Go's pointers
    become [option], fixed-width integers are [Z] with the wrap-around
    written out, the device registry and the calls whose order matters
    (MIC computations, encryption, [Store], the error log) are threaded
    through an explicit world. *)

From Stdlib Require Import ZArith Lia List Sorted.
From Stdlib.Strings Require Import Byte.
From stdpp Require Import base decidable option list strings.
Import ListNotations.

Local Open Scope string_scope.
Local Open Scope list_scope.
Local Open Scope Z_scope.

(** ** Machine integers and bytes *)

Definition byte := Byte.byte.

#[global] Instance byte_eq_dec : EqDecision byte := Byte.byte_eq_dec.

Definition byte_to_Z (b : byte) : Z := Z.of_N (Byte.to_N b).

(** Go's [byte(x)] conversion: the low eight bits. *)
Definition Z_to_byte (z : Z) : byte :=
  match Byte.of_N (Z.to_N (z mod 256)) with
  | Some b => b
  | None => x00
  end.

Definition MaxUint32 : Z := 4294967295.

Definition uint16 (z : Z) : Z := z mod 65536.
Definition uint32 (z : Z) : Z := z mod 4294967296.

(** ** [pkg/types] *)

(** [types.EUI64] is [[8]byte]; it is kept as the 64-bit integer the eight
    bytes spell in big-endian order. *)
Definition EUI64 := Z.
Definition DevAddr := Z.
Definition NetID := Z.
Definition AES128Key := list byte.
Definition DevNonce := (byte * byte)%type.
Definition JoinNonce := (byte * byte * byte)%type.
Definition MIC4 := (byte * byte * byte * byte)%type.

Definition EUI64_IsZero (e : EUI64) : bool := bool_decide (e = 0).

Definition AES128Key_IsZero (k : AES128Key) : bool :=
  forallb (fun b => bool_decide (b = x00)) k.

Definition mic_bytes (m : MIC4) : list byte :=
  let '(a, b, c, d) := m in [a; b; c; d].

(** [binary.LittleEndian.Uint16(pld.DevNonce[:])] *)
Definition LittleEndian_Uint16 (n : DevNonce) : Z :=
  Z.lor (byte_to_Z (fst n)) (Z.shiftl (byte_to_Z (snd n)) 8).

(** [binary.LittleEndian.PutUint32(nb, v)] *)
Definition LittleEndian_PutUint32 (v : Z) : list byte :=
  [ Z_to_byte v; Z_to_byte (Z.shiftr v 8);
    Z_to_byte (Z.shiftr v 16); Z_to_byte (Z.shiftr v 24) ].

(** [copy(jn[:], nb)]: the first three of the four bytes. *)
Definition copy_JoinNonce (nb : list byte) : JoinNonce :=
  (nth 0 nb x00, nth 1 nb x00, nth 2 nb x00).

(** Modelled from the spec: [types.EUI64Prefix] and its [Matches] are not
    under src/.  A prefix is a value and a number of leading bits;
    [Matches] holds when the top [Length] bits of the two agree. *)
Record EUI64Prefix := {
  PrefixEUI64 : EUI64;
  PrefixLength : Z;
}.

Definition EUI64Prefix_Matches (p : EUI64Prefix) (e : EUI64) : bool :=
  bool_decide (Z.shiftr e (64 - PrefixLength p)
               = Z.shiftr (PrefixEUI64 p) (64 - PrefixLength p)).

(** ** [pkg/ttnpb]: the messages of lorawan.proto *)

Inductive MType :=
| JOIN_REQUEST | JOIN_ACCEPT | UNCONFIRMED_UP | UNCONFIRMED_DOWN
| CONFIRMED_UP | CONFIRMED_DOWN | REJOIN_REQUEST | PROPRIETARY.

(** [Major] is an open protobuf enum whose only named value is
    [LORAWAN_R1 = 0]. *)
Definition Major := Z.
Definition LORAWAN_R1 : Major := 0.

Inductive MACVersion :=
| MAC_UNKNOWN | MAC_V1_0 | MAC_V1_0_1 | MAC_V1_0_2 | MAC_V1_1 | MAC_V1_0_3.

#[global] Instance MType_eq_dec : EqDecision MType.
Proof. solve_decision. Defined.

#[global] Instance MACVersion_eq_dec : EqDecision MACVersion.
Proof. solve_decision. Defined.

(** Modelled from the spec: [MACVersion.Compare] is not under src/.  The
    versions are ordered as releases (1.0 < 1.0.1 < 1.0.2 < 1.0.3 < 1.1);
    the result is -1, 0 or 1. *)
Definition MACVersion_rank (v : MACVersion) : Z :=
  match v with
  | MAC_UNKNOWN => 0
  | MAC_V1_0 => 1
  | MAC_V1_0_1 => 2
  | MAC_V1_0_2 => 3
  | MAC_V1_0_3 => 4
  | MAC_V1_1 => 5
  end.

Definition MACVersion_Compare (v o : MACVersion) : Z :=
  if MACVersion_rank v <? MACVersion_rank o then -1
  else if MACVersion_rank v =? MACVersion_rank o then 0
  else 1.

Record MHDR := {
  MHDR_MType : MType;
  MHDR_Major : Major;
}.

Record JoinRequestPayload := {
  JRP_JoinEUI : EUI64;
  JRP_DevEUI : EUI64;
  JRP_DevNonce : DevNonce;
}.

Record DLSettings := {
  Rx1DROffset : Z;
  Rx2DR : Z;
  OptNeg : bool;
}.

Inductive CFListType := FREQUENCIES | CHANNEL_MASKS.

Record CFList := {
  CFList_Type : CFListType;
  CFList_Freq : list Z;
  CFList_ChMasks : list bool;
}.

(** [RxDelay] is the enum [RX_DELAY_0 .. RX_DELAY_15], kept by its number. *)
Definition RxDelay := Z.

Record JoinAcceptPayload := {
  JAP_NetID : NetID;
  JAP_JoinNonce : JoinNonce;
  JAP_CFList : option CFList;
  JAP_DevAddr : DevAddr;
  JAP_DLSettings : DLSettings;
  JAP_RxDelay : RxDelay;
}.

(** The [oneof Payload] of [Message]; the MAC and rejoin payloads are not
    looked into by the Join Server. *)
Inductive Message_Payload :=
| Message_MACPayload
| Message_JoinRequestPayload (p : JoinRequestPayload)
| Message_JoinAcceptPayload (p : JoinAcceptPayload)
| Message_RejoinRequestPayload.

Record Message := {
  Message_MHDR : MHDR;
  Message_MIC : list byte;
  Message_Payload_ : option Message_Payload;
}.

Definition GetMajor (m : Message) : Major := MHDR_Major (Message_MHDR m).
Definition GetMType (m : Message) : MType := MHDR_MType (Message_MHDR m).

Definition GetJoinRequestPayload (m : Message) : option JoinRequestPayload :=
  match Message_Payload_ m with
  | Some (Message_JoinRequestPayload p) => Some p
  | _ => None
  end.

Record KeyEnvelope := {
  Key : option AES128Key;
  KEKLabel : string;
}.

Record SessionKeys := {
  SessionKeyID : string;
  FNwkSIntKey : option KeyEnvelope;
  SNwkSIntKey : option KeyEnvelope;
  NwkSEncKey : option KeyEnvelope;
  AppSKey : option KeyEnvelope;
}.

Definition Time := Z.

Record Session := {
  StartedAt : Time;
  Session_DevAddr : DevAddr;
  Session_Keys : SessionKeys;
}.

Record RootKeys := {
  AppKey : option KeyEnvelope;
  NwkKey : option KeyEnvelope;
}.

Record EndDeviceIdentifiers := {
  DeviceID : string;
  ApplicationID : string;
  DevEUI : option EUI64;
  JoinEUI : option EUI64;
  Ids_DevAddr : option DevAddr;
}.

Record EndDevice := {
  Ids : EndDeviceIdentifiers;
  LoRaWANVersion : MACVersion;
  NetworkServerAddress : string;
  ApplicationServerAddress : string;
  RootKeys_ : option RootKeys;
  NextDevNonce : Z;
  UsedDevNonces : list Z;
  NextJoinNonce : Z;
  DisableJoinNonceCheck : bool;
  Session_ : option Session;
  SessionFallback : option Session;
}.

Record JoinRequest := {
  RawPayload : option (list byte);
  Payload : Message;
  Req_Ids : EndDeviceIdentifiers;
  SelectedMacVersion : MACVersion;
  Req_NetID : NetID;
  DownlinkSettings : DLSettings;
  Req_RxDelay : RxDelay;
  Req_CFList : option CFList;
}.

Record JoinResponse := {
  Resp_RawPayload : list byte;
  Resp_SessionKeys : SessionKeys;
  Lifetime : option Z;
}.

Record SessionKeyRequest := {
  SKR_SessionKeyID : string;
  SKR_DevEUI : EUI64;
}.

(** ** Errors *)

Inductive Error :=
| ErrUnsupportedLoRaWANMACVersion (version : MACVersion)
| ErrMissingDevAddr
| ErrMissingPayload
| ErrUnmarshalPayloadFailed (cause : Error)
| ErrUnsupportedLoRaWANVersion (version : Major)
| ErrWrongPayloadType (type : MType)
| ErrMissingJoinRequest
| ErrMissingDevEUI
| ErrMissingJoinEUI
| ErrMissingSessionKeyID
| ErrDeviceNotFound
| ErrTooManyDevices
| ErrAddressMismatch (component : string)
| ErrUnknownAppEUI
| ErrForwardJoinRequest (cause : Error)
| ErrMACVersionMismatch (registered selected : MACVersion)
| ErrCorruptRegistry (cause : Error)
| ErrAppKeyEnvelopeNotFound
| ErrAppKeyNotFound
| ErrNwkKeyEnvelopeNotFound
| ErrNwkKeyNotFound
| ErrDevNonceTooSmall
| ErrDevNonceTooHigh
| ErrDevNonceReused
| ErrMICCheckFailed (cause : Error)
| ErrMICComputeFailed
| ErrMICMismatch
| ErrRawPayloadLength (n : nat)
| ErrComputeMIC (cause : Error)
| ErrEncryptPayloadFailed (cause : Error)
| ErrNoSession
| ErrSessionKeyIDMismatch
| ErrAppSKeyEnvelopeNotFound
| ErrNwkSEncKeyEnvelopeNotFound
| ErrFNwkSIntKeyEnvelopeNotFound
| ErrSNwkSIntKeyEnvelopeNotFound
| ErrExternal (msg : string).

(** A call returns a value, returns an error, or panics. *)
Inductive Outcome (A : Type) :=
| Ok (a : A)
| Err (e : Error)
| Panic (msg : string).

Arguments Ok {A} a.
Arguments Err {A} e.
Arguments Panic {A} msg.

Definition obind {A B} (o : Outcome A) (k : A -> Outcome B) : Outcome B :=
  match o with
  | Ok a => k a
  | Err e => Err e
  | Panic m => Panic m
  end.

Definition is_Ok {A} (o : Outcome A) : bool :=
  match o with Ok _ => true | _ => false end.

(** ** The world a call runs in

    The registry holds the persisted records; the trace lists, in order,
    the calls into the crypto package, the [Store] calls and the error log
    entries. *)

Inductive Event :=
| EvComputeJoinRequestMIC (key : AES128Key) (data : list byte)
| EvComputeJoinAcceptMIC (key : AES128Key) (data : list byte)
| EvComputeLegacyJoinAcceptMIC (key : AES128Key) (data : list byte)
| EvEncryptJoinAccept (key : AES128Key) (data : list byte)
| EvStore (index : nat) (dev : EndDevice)
| EvLogError (msg : string) (err : Error).

Definition Registry := list EndDevice.

Record World := {
  registry : Registry;
  trace : list Event;
}.

Definition M (A : Type) := World -> Outcome A * World.

Definition ret {A} (a : A) : M A := fun w => (Ok a, w).

Definition bind {A B} (m : M A) (k : A -> M B) : M B :=
  fun w =>
    match m w with
    | (Ok a, w') => k a w'
    | (Err e, w') => (Err e, w')
    | (Panic s, w') => (Panic s, w')
    end.

Definition lift {A} (o : Outcome A) : M A := fun w => (o, w).

Definition emit (ev : Event) : M unit :=
  fun w => (Ok tt, {| registry := registry w; trace := trace w ++ [ev] |}).

Definition getRegistry : M Registry := fun w => (Ok (registry w), w).

Notation "'let!' x ':=' o 'in' k" := (obind o (fun x => k))
  (at level 10, x pattern, o at level 100, k at level 200).

Notation "x <- c ;; k" := (bind c (fun x => k))
  (at level 100, c at next level, right associativity).

(** ** The collaborators of the Join Server

    [pkg/crypto] is a dependency: its functions are taken as they are
    typed in Go ([error] results become a sum, a [[4]byte] MIC is a
    four-byte tuple). *)

Record Crypto := {
  ComputeJoinRequestMIC : AES128Key -> list byte -> Error + MIC4;
  ComputeJoinAcceptMIC :
    AES128Key -> byte -> EUI64 -> DevNonce -> list byte -> Error + MIC4;
  ComputeLegacyJoinAcceptMIC : AES128Key -> list byte -> Error + MIC4;
  EncryptJoinAccept : AES128Key -> list byte -> Error + list byte;
  DeriveJSIntKey : AES128Key -> EUI64 -> AES128Key;
  DeriveFNwkSIntKey : AES128Key -> JoinNonce -> EUI64 -> DevNonce -> AES128Key;
  DeriveSNwkSIntKey : AES128Key -> JoinNonce -> EUI64 -> DevNonce -> AES128Key;
  DeriveNwkSEncKey : AES128Key -> JoinNonce -> EUI64 -> DevNonce -> AES128Key;
  DeriveAppSKey : AES128Key -> JoinNonce -> EUI64 -> DevNonce -> AES128Key;
  DeriveLegacyNwkSKey : AES128Key -> JoinNonce -> NetID -> DevNonce -> AES128Key;
  DeriveLegacyAppSKey : AES128Key -> JoinNonce -> NetID -> DevNonce -> AES128Key;
}.

(** The LoRaWAN wire codec of [pkg/ttnpb], as the methods [HandleJoin]
    calls. *)
Record Codec := {
  UnmarshalLoRaWAN : list byte -> Error + Message;
  MarshalLoRaWAN : Message -> Error + list byte;
  MHDR_AppendLoRaWAN : MHDR -> list byte -> Error + list byte;
  JoinAcceptPayload_AppendLoRaWAN :
    JoinAcceptPayload -> list byte -> Error + list byte;
}.

(** Modelled from the spec: the codec and [crypto.EncryptJoinAccept] are
    not under src/.  The Join-Accept plaintext is
    MHDR(1) || JoinNonce(3) || NetID(3) || DevAddr(4) || DLSettings(1) ||
    RxDelay(1) || [CFList(16)], and the encryption is one block-cipher pass
    over its input, which keeps the length. *)
Record WireLengths (crypto : Crypto) (codec : Codec) : Prop := {
  MHDR_length : forall h dst b,
    MHDR_AppendLoRaWAN codec h dst = inr b ->
    length b = (length dst + 1)%nat;
  JoinAcceptPayload_length : forall p dst b,
    JoinAcceptPayload_AppendLoRaWAN codec p dst = inr b ->
    length b = (length dst + match JAP_CFList p with
                             | None => 12
                             | Some _ => 28
                             end)%nat;
  EncryptJoinAccept_length : forall k p c,
    EncryptJoinAccept crypto k p = inr c -> length c = length p;
}.

(** Modelled from the spec: [pkg/deviceregistry] is not under src/.  A
    device matches a filter when it agrees with it on every identifier the
    filter sets. *)
Definition matchesField {A} `{EqDecision A} (want have : option A) : bool :=
  match want with
  | None => true
  | Some _ => bool_decide (have = want)
  end.

Definition matchesName (want have : string) : bool :=
  bool_decide (want = "") || bool_decide (have = want).

Definition matchesIdentifiers (want have : EndDeviceIdentifiers) : bool :=
  matchesName (DeviceID want) (DeviceID have)
  && matchesName (ApplicationID want) (ApplicationID have)
  && matchesField (DevEUI want) (DevEUI have)
  && matchesField (JoinEUI want) (JoinEUI have)
  && matchesField (Ids_DevAddr want) (Ids_DevAddr have).

Fixpoint findFrom (i : nat) (want : EndDeviceIdentifiers) (r : Registry)
  : list (nat * EndDevice) :=
  match r with
  | [] => []
  | d :: r' =>
      if matchesIdentifiers want (Ids d)
      then (i, d) :: findFrom (S i) want r'
      else findFrom (S i) want r'
  end.

(** Modelled from the spec: [deviceregistry.FindByIdentifiers] is not under
    src/.  It looks a device up by the identifiers set in the filter and
    wants exactly one match; the device it returns is a copy that reaches
    the registry again only through [Store].  The slot is returned with it
    so that [Store] knows which record to replace. *)
Definition FindByIdentifiers (r : Registry) (want : EndDeviceIdentifiers)
  : Outcome (nat * EndDevice) :=
  match findFrom 0 want r with
  | [] => Err ErrDeviceNotFound
  | [found] => Ok found
  | _ => Err ErrTooManyDevices
  end.

(** What the registry answers to one [Store] and what the clock reads
    during the call. *)
Record Oracle := {
  storeError : option Error;
  now : Time;
}.

(** Modelled from the spec: [Device.Store] is not under src/.  The call is
    recorded; the record in the device's slot is replaced unless the
    registry refuses (a conflict or a backend error), and then the registry
    is left as it was. *)
Definition Store (ora : Oracle) (i : nat) (dev : EndDevice) : M (option Error) :=
  fun w =>
    match storeError ora with
    | Some e =>
        (Ok (Some e),
         {| registry := registry w; trace := trace w ++ [EvStore i dev] |})
    | None =>
        (Ok None,
         {| registry := <[i := dev]> (registry w);
            trace := trace w ++ [EvStore i dev] |})
    end.

(** [rpcmetadata.FromIncomingContext(ctx)] *)
Record Context := {
  NetAddress : string;
}.

Record JoinServer := {
  euiPrefixes : list EUI64Prefix;
}.

Definition supportedMACVersions : list MACVersion :=
  [MAC_V1_0; MAC_V1_0_1; MAC_V1_0_2; MAC_V1_1].

Definition keyPointer (key : AES128Key) : option AES128Key := Some key.

Record AppSKeyResponse := {
  AppSKeyResponse_AppSKey : KeyEnvelope;
}.

Record NwkSKeysResponse := {
  NwkSKeysResponse_NwkSEncKey : KeyEnvelope;
  NwkSKeysResponse_FNwkSIntKey : KeyEnvelope;
  NwkSKeysResponse_SNwkSIntKey : KeyEnvelope;
}.

Definition GetAppKey (rk : option RootKeys) : option KeyEnvelope :=
  match rk with Some k => AppKey k | None => None end.

Definition GetNwkKey (rk : option RootKeys) : option KeyEnvelope :=
  match rk with Some k => NwkKey k | None => None end.

(** The device [dev] after [dev.NextDevNonce = n]. *)
Definition with_NextDevNonce (dev : EndDevice) (n : Z) : EndDevice :=
  {| Ids := Ids dev;
     LoRaWANVersion := LoRaWANVersion dev;
     NetworkServerAddress := NetworkServerAddress dev;
     ApplicationServerAddress := ApplicationServerAddress dev;
     RootKeys_ := RootKeys_ dev;
     NextDevNonce := n;
     UsedDevNonces := UsedDevNonces dev;
     NextJoinNonce := NextJoinNonce dev;
     DisableJoinNonceCheck := DisableJoinNonceCheck dev;
     Session_ := Session_ dev;
     SessionFallback := SessionFallback dev |}.

(** The device after the three assignments that precede [Store]
    (lines 344-350). *)
Definition with_join (dev : EndDevice) (dn : Z) (s : Session) : EndDevice :=
  {| Ids := Ids dev;
     LoRaWANVersion := LoRaWANVersion dev;
     NetworkServerAddress := NetworkServerAddress dev;
     ApplicationServerAddress := ApplicationServerAddress dev;
     RootKeys_ := RootKeys_ dev;
     NextDevNonce := NextDevNonce dev;
     UsedDevNonces := UsedDevNonces dev ++ [dn];
     NextJoinNonce := uint32 (NextJoinNonce dev + 1);
     DisableJoinNonceCheck := DisableJoinNonceCheck dev;
     Session_ := Some s;
     SessionFallback := SessionFallback dev |}.

Section JoinServer.

Context (crypto : Crypto) (codec : Codec).

(** [checkMIC] (lines 83-97); the result is Go's [error], [None] for nil. *)
Definition checkMIC (key : AES128Key) (rawPayload : list byte) : M (option Error) :=
  let n := length rawPayload in
  if negb (n =? 23)%nat then ret (Some (ErrRawPayloadLength n))
  else
    _ <- emit (EvComputeJoinRequestMIC key (take 19 rawPayload)) ;;
    match ComputeJoinRequestMIC crypto key (take 19 rawPayload) with
    | inl _ => ret (Some ErrMICComputeFailed)
    | inr computed =>
        if forallb
             (fun i => bool_decide
                         (mic_bytes computed !! i = rawPayload !! (19 + i)%nat))
             (seq 0 4)
        then ret None
        else ret (Some ErrMICMismatch)
    end.

(** [HandleJoin], lines 103-162: the checks on the request alone.  The
    result is the selected version, the DevAddr, the message, its
    join-request payload and the raw payload the MIC is checked on. *)
Definition parseRequest (req : JoinRequest)
  : Outcome (MACVersion * DevAddr * Message * JoinRequestPayload * list byte) :=
  let ver := SelectedMacVersion req in
  let supported := existsb (fun v => bool_decide (v = ver)) supportedMACVersions in
  if negb supported then Err (ErrUnsupportedLoRaWANMACVersion ver)
  else
    match Ids_DevAddr (Req_Ids req) with
    | None => Err ErrMissingDevAddr
    | Some devAddr =>
        let rawPayload := RawPayload req in
        let! msg :=
          match Message_Payload_ (Payload req) with
          | None =>
              match rawPayload with
              | None => Err ErrMissingPayload
              | Some raw =>
                  match UnmarshalLoRaWAN codec raw with
                  | inl err => Err (ErrUnmarshalPayloadFailed err)
                  | inr m => Ok m
                  end
              end
          | Some _ => Ok (Payload req)
          end in
        if negb (bool_decide (GetMajor msg = LORAWAN_R1))
        then Err (ErrUnsupportedLoRaWANVersion (GetMajor msg))
        else if negb (bool_decide (GetMType msg = JOIN_REQUEST))
        then Err (ErrWrongPayloadType (GetMType msg))
        else
          match GetJoinRequestPayload msg with
          | None => Err ErrMissingJoinRequest
          | Some pld =>
              if EUI64_IsZero (JRP_DevEUI pld) then Err ErrMissingDevEUI
              else if EUI64_IsZero (JRP_JoinEUI pld) then Err ErrMissingJoinEUI
              else
                let! raw :=
                  match rawPayload with
                  | Some raw => Ok raw
                  | None =>
                      match MarshalLoRaWAN codec msg with
                      | inl _ => Panic "Failed to marshal join request payload"
                      | inr raw => Ok raw
                      end
                  end in
                Ok (ver, devAddr, msg, pld, raw)
          end
    end.

(** The identifiers [HandleJoin] looks the device up by (lines 164-167). *)
Definition joinIdentifiers (pld : JoinRequestPayload) : EndDeviceIdentifiers :=
  {| DeviceID := ""; ApplicationID := "";
     DevEUI := Some (JRP_DevEUI pld);
     JoinEUI := Some (JRP_JoinEUI pld);
     Ids_DevAddr := None |}.

(** Lines 172-209: the caller, the JoinEUI prefix, the registered version
    and the AppKey. *)
Definition authorize (js : JoinServer) (ctx : Context) (ver : MACVersion)
    (pld : JoinRequestPayload) (dev : EndDevice) : Outcome AES128Key :=
  if negb (bool_decide (NetAddress ctx = NetworkServerAddress dev))
  then Err (ErrAddressMismatch "Network Server")
  else
    let match_ :=
      existsb (fun p => EUI64Prefix_Matches p (JRP_JoinEUI pld)) (euiPrefixes js) in
    if negb match_ && bool_decide (LoRaWANVersion dev = MAC_V1_0)
    then Err ErrUnknownAppEUI
    else if negb match_
    then Err (ErrForwardJoinRequest ErrDeviceNotFound)
    else if bool_decide (MACVersion_Compare (LoRaWANVersion dev) ver = -1)
    then Err (ErrMACVersionMismatch (LoRaWANVersion dev) ver)
    else
      match GetAppKey (RootKeys_ dev) with
      | None => Err (ErrCorruptRegistry ErrAppKeyEnvelopeNotFound)
      | Some ke =>
          match Key ke with
          | None => Err (ErrCorruptRegistry ErrAppKeyNotFound)
          | Some k =>
              if AES128Key_IsZero k
              then Err (ErrCorruptRegistry ErrAppKeyNotFound)
              else Ok k
          end
      end.

(** Lines 211-241: the Join-Accept plaintext [b] and the JoinNonce. *)
Definition buildJoinAccept (req : JoinRequest) (msg : Message)
    (devAddr : DevAddr) (dev : EndDevice) : Outcome (JoinNonce * list byte) :=
  let b : list byte := [] in
  match MHDR_AppendLoRaWAN codec
          {| MHDR_MType := JOIN_ACCEPT; MHDR_Major := GetMajor msg |} b with
  | inl _ => Panic "Failed to encode join accept MHDR"
  | inr b =>
      let nb := LittleEndian_PutUint32 (NextJoinNonce dev) in
      let jn := copy_JoinNonce nb in
      match JoinAcceptPayload_AppendLoRaWAN codec
              {| JAP_NetID := Req_NetID req;
                 JAP_JoinNonce := jn;
                 JAP_CFList := Req_CFList req;
                 JAP_DevAddr := devAddr;
                 JAP_DLSettings := DownlinkSettings req;
                 JAP_RxDelay := Req_RxDelay req |} b with
      | inl _ => Panic "Failed to encode join accept MAC payload"
      | inr b => Ok (jn, b)
      end
  end.

(** Lines 243-263: the replay check.  [dn] is a [uint16]; [dn + 1] is
    computed in sixteen bits before it is widened. *)
Definition checkDevNonce (ver : MACVersion) (dn : Z) (dev : EndDevice)
  : Outcome EndDevice :=
  if negb (DisableJoinNonceCheck dev) then
    match ver with
    | MAC_V1_1 =>
        if dn <? NextDevNonce dev then Err ErrDevNonceTooSmall
        else if NextDevNonce dev =? MaxUint32 then Err ErrDevNonceTooHigh
        else Ok (with_NextDevNonce dev (uint16 (dn + 1)))
    | MAC_V1_0 | MAC_V1_0_1 | MAC_V1_0_2 =>
        if existsb (fun used => dn =? uint16 used) (UsedDevNonces dev)
        then Err ErrDevNonceReused
        else Ok dev
    | _ => Panic "This statement is unreachable. Fix version check."
    end
  else Ok dev.

Definition clearEnvelope (k : AES128Key) : option KeyEnvelope :=
  Some {| Key := keyPointer k; KEKLabel := "" |}.

(** [append(b[:1], enc...)] after [enc] was made from
    [append(b[1:], mic[:]...)]; slicing an empty [b] panics. *)
Definition encryptJoinAccept (key : AES128Key) (b : list byte) (mic : MIC4)
  : M (list byte) :=
  match b with
  | [] => lift (Panic "slice bounds out of range")
  | _ :: _ =>
      let plain := drop 1 b ++ mic_bytes mic in
      _ <- emit (EvEncryptJoinAccept key plain) ;;
      match EncryptJoinAccept crypto key plain with
      | inl err => lift (Err (ErrEncryptPayloadFailed err))
      | inr enc => ret (take 1 b ++ enc)
      end
  end.

(** Lines 265-342: the MIC check, the Join-Accept MIC, the encryption and
    the session keys, by selected version. *)
Definition issue (ver : MACVersion) (req : JoinRequest) (dev : EndDevice)
    (appKey : AES128Key) (pld : JoinRequestPayload) (rawPayload : list byte)
    (jn : JoinNonce) (b : list byte) : M JoinResponse :=
  match ver with
  | MAC_V1_1 =>
      match GetNwkKey (RootKeys_ dev) with
      | None => lift (Err (ErrCorruptRegistry ErrNwkKeyEnvelopeNotFound))
      | Some ke =>
          match Key ke with
          | None => lift (Err (ErrCorruptRegistry ErrNwkKeyNotFound))
          | Some nwkKey =>
              if AES128Key_IsZero nwkKey
              then lift (Err (ErrCorruptRegistry ErrNwkKeyNotFound))
              else
                err <- checkMIC nwkKey rawPayload ;;
                match err with
                | Some e => lift (Err (ErrMICCheckFailed e))
                | None =>
                    let jsIntKey := DeriveJSIntKey crypto nwkKey (JRP_DevEUI pld) in
                    _ <- emit (EvComputeJoinAcceptMIC jsIntKey b) ;;
                    match ComputeJoinAcceptMIC crypto jsIntKey xff
                            (JRP_JoinEUI pld) (JRP_DevNonce pld) b with
                    | inl e => lift (Err (ErrComputeMIC e))
                    | inr mic =>
                        raw <- encryptJoinAccept nwkKey b mic ;;
                        ret {| Resp_RawPayload := raw;
                               Resp_SessionKeys :=
                                 {| SessionKeyID := "";
                                    FNwkSIntKey := clearEnvelope
                                      (DeriveFNwkSIntKey crypto nwkKey jn
                                         (JRP_JoinEUI pld) (JRP_DevNonce pld));
                                    SNwkSIntKey := clearEnvelope
                                      (DeriveSNwkSIntKey crypto nwkKey jn
                                         (JRP_JoinEUI pld) (JRP_DevNonce pld));
                                    NwkSEncKey := clearEnvelope
                                      (DeriveNwkSEncKey crypto nwkKey jn
                                         (JRP_JoinEUI pld) (JRP_DevNonce pld));
                                    AppSKey := clearEnvelope
                                      (DeriveAppSKey crypto appKey jn
                                         (JRP_JoinEUI pld) (JRP_DevNonce pld)) |};
                               Lifetime := None |}
                    end
                end
          end
      end
  | MAC_V1_0 | MAC_V1_0_1 | MAC_V1_0_2 =>
      err <- checkMIC appKey rawPayload ;;
      match err with
      | Some e => lift (Err (ErrMICCheckFailed e))
      | None =>
          _ <- emit (EvComputeLegacyJoinAcceptMIC appKey b) ;;
          match ComputeLegacyJoinAcceptMIC crypto appKey b with
          | inl e => lift (Err (ErrComputeMIC e))
          | inr mic =>
              raw <- encryptJoinAccept appKey b mic ;;
              ret {| Resp_RawPayload := raw;
                     Resp_SessionKeys :=
                       {| SessionKeyID := "";
                          FNwkSIntKey := clearEnvelope
                            (DeriveLegacyNwkSKey crypto appKey jn
                               (Req_NetID req) (JRP_DevNonce pld));
                          SNwkSIntKey := None;
                          NwkSEncKey := None;
                          AppSKey := clearEnvelope
                            (DeriveLegacyAppSKey crypto appKey jn
                               (Req_NetID req) (JRP_DevNonce pld)) |};
                     Lifetime := None |}
          end
      end
  | _ => lift (Panic "This statement is unreachable. Fix version check.")
  end.

(** The session [HandleJoin] installs (lines 346-350). *)
Definition newSession (ora : Oracle) (devAddr : DevAddr) (resp : JoinResponse)
  : Session :=
  {| StartedAt := now ora;
     Session_DevAddr := devAddr;
     Session_Keys := Resp_SessionKeys resp |}.

(** Lines 344-359: the update of the record, [Store], and the log entry
    when [Store] fails. *)
Definition commit (ora : Oracle) (i : nat) (dev : EndDevice) (dn : Z)
    (devAddr : DevAddr) (resp : JoinResponse) : M JoinResponse :=
  let dev' := with_join dev dn (newSession ora devAddr resp) in
  err <- Store ora i dev' ;;
  match err with
  | Some e =>
      _ <- emit (EvLogError "Failed to update device" e) ;;
      ret resp
  | None => ret resp
  end.

(** [HandleJoin] is called by the Network Server to join a device. *)
Definition HandleJoin (js : JoinServer) (ctx : Context) (ora : Oracle)
    (req : JoinRequest) : M JoinResponse :=
  parsed <- lift (parseRequest req) ;;
  let '(ver, devAddr, msg, pld, rawPayload) := parsed in
  reg <- getRegistry ;;
  found <- lift (FindByIdentifiers reg (joinIdentifiers pld)) ;;
  let '(i, dev) := found in
  appKey <- lift (authorize js ctx ver pld dev) ;;
  built <- lift (buildJoinAccept req msg devAddr dev) ;;
  let '(jn, b) := built in
  let dn := LittleEndian_Uint16 (JRP_DevNonce pld) in
  dev <- lift (checkDevNonce ver dn dev) ;;
  resp <- issue ver req dev appKey pld rawPayload jn b ;;
  commit ora i dev dn devAddr resp.

(** The session a key request selects (lines 384-393 and 427-436). *)
Definition selectSession (dev : EndDevice) (id : string) : Outcome Session :=
  match Session_ dev with
  | None => Err ErrNoSession
  | Some s =>
      if negb (bool_decide (SessionKeyID (Session_Keys s) = id)) then
        match SessionFallback dev with
        | None => Err ErrSessionKeyIDMismatch
        | Some s =>
            if negb (bool_decide (SessionKeyID (Session_Keys s) = id))
            then Err ErrSessionKeyIDMismatch
            else Ok s
        end
      else Ok s
  end.

Definition sessionKeyIdentifiers (req : SessionKeyRequest) : EndDeviceIdentifiers :=
  {| DeviceID := ""; ApplicationID := "";
     DevEUI := Some (SKR_DevEUI req);
     JoinEUI := None;
     Ids_DevAddr := None |}.

(** [GetAppSKey] returns the AppSKey associated with the device specified
    by the supplied request. *)
Definition GetAppSKey (ctx : Context) (req : SessionKeyRequest) : M AppSKeyResponse :=
  if EUI64_IsZero (SKR_DevEUI req) then lift (Err ErrMissingDevEUI)
  else if bool_decide (SKR_SessionKeyID req = "") then lift (Err ErrMissingSessionKeyID)
  else
    reg <- getRegistry ;;
    found <- lift (FindByIdentifiers reg (sessionKeyIdentifiers req)) ;;
    let dev := snd found in
    if negb (bool_decide (NetAddress ctx = ApplicationServerAddress dev))
    then lift (Err (ErrAddressMismatch "Application Server"))
    else
      s <- lift (selectSession dev (SKR_SessionKeyID req)) ;;
      match AppSKey (Session_Keys s) with
      | None => lift (Err ErrAppSKeyEnvelopeNotFound)
      | Some appSKey => ret {| AppSKeyResponse_AppSKey := appSKey |}
      end.

(** [GetNwkSKeys] returns the NwkSKeys associated with the device specified
    by the supplied request. *)
Definition GetNwkSKeys (ctx : Context) (req : SessionKeyRequest) : M NwkSKeysResponse :=
  if EUI64_IsZero (SKR_DevEUI req) then lift (Err ErrMissingDevEUI)
  else if bool_decide (SKR_SessionKeyID req = "") then lift (Err ErrMissingSessionKeyID)
  else
    reg <- getRegistry ;;
    found <- lift (FindByIdentifiers reg (sessionKeyIdentifiers req)) ;;
    let dev := snd found in
    if negb (bool_decide (NetAddress ctx = NetworkServerAddress dev))
    then lift (Err (ErrAddressMismatch "Network Server"))
    else
      s <- lift (selectSession dev (SKR_SessionKeyID req)) ;;
      match NwkSEncKey (Session_Keys s) with
      | None => lift (Err ErrNwkSEncKeyEnvelopeNotFound)
      | Some nwkSEncKey =>
          match FNwkSIntKey (Session_Keys s) with
          | None => lift (Err ErrFNwkSIntKeyEnvelopeNotFound)
          | Some fNwkSIntKey =>
              match SNwkSIntKey (Session_Keys s) with
              | None => lift (Err ErrSNwkSIntKeyEnvelopeNotFound)
              | Some sNwkSIntKey =>
                  ret {| NwkSKeysResponse_NwkSEncKey := nwkSEncKey;
                         NwkSKeysResponse_FNwkSIntKey := fNwkSIntKey;
                         NwkSKeysResponse_SNwkSIntKey := sNwkSIntKey |}
              end
          end
      end.

End JoinServer.

(** ** Sequences of joins

    A call is what one [HandleJoin] invocation gets from outside: the
    caller's context, the request, and what the registry and the clock do
    during it. *)

Record Call := {
  call_ctx : Context;
  call_oracle : Oracle;
  call_req : JoinRequest;
}.

Definition isLegacy (v : MACVersion) : bool :=
  match v with
  | MAC_V1_0 | MAC_V1_0_1 | MAC_V1_0_2 => true
  | _ => false
  end.

Section Runs.

Context (crypto : Crypto) (codec : Codec) (js : JoinServer).

Definition runCall (c : Call) (w : World) : Outcome JoinResponse * World :=
  HandleJoin crypto codec js (call_ctx c) (call_oracle c) (call_req c) w.

Fixpoint runCalls (w : World) (calls : list Call) : World :=
  match calls with
  | [] => w
  | c :: cs => runCalls (snd (runCall c w)) cs
  end.

(** The registry slot a request addresses and the DevNonce it carries. *)
Definition joinTarget (reg : Registry) (req : JoinRequest) : option (nat * Z) :=
  match parseRequest codec req with
  | Ok (_, _, _, pld, _) =>
      match FindByIdentifiers reg (joinIdentifiers pld) with
      | Ok (i, _) => Some (i, LittleEndian_Uint16 (JRP_DevNonce pld))
      | _ => None
      end
  | _ => None
  end.

(** The DevNonce a call got accepted for the device in slot [i] with
    selected version 1.1, if it did. *)
Definition acceptedBy (i : nat) (c : Call) (w : World) : list Z :=
  match fst (runCall c w), joinTarget (registry w) (call_req c) with
  | Ok _, Some (j, dn) =>
      if bool_decide (j = i)
         && bool_decide (SelectedMacVersion (call_req c) = MAC_V1_1)
      then [dn] else []
  | _, _ => []
  end.

(** The DevNonces accepted for slot [i] over a sequence of calls, in
    order. *)
Fixpoint acceptedDevNonces (i : nat) (w : World) (calls : list Call) : list Z :=
  match calls with
  | [] => []
  | c :: cs => acceptedBy i c w ++ acceptedDevNonces i (snd (runCall c w)) cs
  end.

(** The same for the 1.0, 1.0.1 and 1.0.2 path. *)
Definition acceptedLegacyBy (i : nat) (c : Call) (w : World) : list Z :=
  match fst (runCall c w), joinTarget (registry w) (call_req c) with
  | Ok _, Some (j, dn) =>
      if bool_decide (j = i) && isLegacy (SelectedMacVersion (call_req c))
      then [dn] else []
  | _, _ => []
  end.

Fixpoint acceptedLegacyDevNonces (i : nat) (w : World) (calls : list Call)
  : list Z :=
  match calls with
  | [] => []
  | c :: cs =>
      acceptedLegacyBy i c w ++ acceptedLegacyDevNonces i (snd (runCall c w)) cs
  end.

End Runs.

(** The events a call added to the trace. *)
Definition newEvents (w w' : World) : list Event :=
  drop (length (trace w)) (trace w').

Definition isStore (ev : Event) : bool :=
  match ev with EvStore _ _ => true | _ => false end.

Definition isMICComputation (ev : Event) : bool :=
  match ev with
  | EvComputeJoinRequestMIC _ _
  | EvComputeJoinAcceptMIC _ _
  | EvComputeLegacyJoinAcceptMIC _ _ => true
  | _ => false
  end.

(** [w'] is [w] with more events, all of them satisfying [P], and the same
    registry. *)
Definition logsOnly (P : Event -> bool) (w w' : World) : Prop :=
  registry w' = registry w /\
  exists evs, trace w' = trace w ++ evs /\ forallb P evs = true.

Definition notStore (ev : Event) : bool := negb (isStore ev).

Definition notMICComputation (ev : Event) : bool := negb (isMICComputation ev).

(** The session a key request with identifier [id] is answered from: the
    current one when its identifier is [id], else the fallback when its
    identifier is. *)
Definition answersFrom (dev : EndDevice) (id : string) (s : Session) : Prop :=
  (Session_ dev = Some s /\ SessionKeyID (Session_Keys s) = id)
  \/ (exists cur, Session_ dev = Some cur
                 /\ SessionKeyID (Session_Keys cur) <> id
                 /\ SessionFallback dev = Some s
                 /\ SessionKeyID (Session_Keys s) = id).

(** The three errors of the replay check (lines 247-258). *)
Definition isReplayError (e : Error) : bool :=
  match e with
  | ErrDevNonceTooSmall | ErrDevNonceTooHigh | ErrDevNonceReused => true
  | _ => false
  end.

(** The root key the Join-Request MIC is checked with: NwkKey for selected
    version 1.1 (line 276), AppKey for 1.0, 1.0.1 and 1.0.2 (line 313). *)
Definition micKey (ver : MACVersion) (dev : EndDevice) : option AES128Key :=
  match ver with
  | MAC_V1_1 =>
      match GetNwkKey (RootKeys_ dev) with Some ke => Key ke | None => None end
  | _ =>
      match GetAppKey (RootKeys_ dev) with Some ke => Key ke | None => None end
  end.

(** The fields of a record that [HandleJoin] reads but never assigns. *)
Definition sameProvisioning (dev dev' : EndDevice) : Prop :=
  Ids dev' = Ids dev
  /\ LoRaWANVersion dev' = LoRaWANVersion dev
  /\ NetworkServerAddress dev' = NetworkServerAddress dev
  /\ ApplicationServerAddress dev' = ApplicationServerAddress dev
  /\ RootKeys_ dev' = RootKeys_ dev
  /\ DisableJoinNonceCheck dev' = DisableJoinNonceCheck dev
  /\ SessionFallback dev' = SessionFallback dev.

(** The number a JoinNonce spells, least significant byte first. *)
Definition JoinNonce_value (jn : JoinNonce) : Z :=
  let '(j0, j1, j2) := jn in
  byte_to_Z j0 + 256 * byte_to_Z j1 + 65536 * byte_to_Z j2.

(** The raw payload the MIC of a request is checked on: the one the caller
    sent, or the structured payload marshalled when there is none
    (lines 123 and 157-162). *)
Definition micPayload (codec : Codec) (req : JoinRequest) (raw : list byte) : Prop :=
  RawPayload req = Some raw
  \/ (RawPayload req = None /\ MarshalLoRaWAN codec (Payload req) = inr raw).

(** A stage that did not return a value decided the result of the call. *)
Definition failed {A B} (o : Outcome A) (r : Outcome B) : Prop :=
  match o, r with
  | Err e, Err e' => e = e'
  | Panic m, Panic m' => m = m'
  | _, _ => False
  end.

(** The message a request is read from: the structured payload when it
    has one, else the raw payload unmarshalled (lines 123-133). *)
Definition requestMessage (codec : Codec) (req : JoinRequest) (msg : Message) : Prop :=
  (Message_Payload_ (Payload req) <> None /\ msg = Payload req)
  \/ (Message_Payload_ (Payload req) = None
      /\ exists raw, RawPayload req = Some raw
                     /\ UnmarshalLoRaWAN codec raw = inr msg).

(** The four key envelopes of a set of session keys. *)
Definition envelopes (k : SessionKeys) : list (option KeyEnvelope) :=
  [FNwkSIntKey k; SNwkSIntKey k; NwkSEncKey k; AppSKey k].

(** The Join-Accept MIC of the selected version (lines 280 and 317). *)
Definition joinAcceptMIC (crypto : Crypto) (ver : MACVersion) (key : AES128Key)
    (pld : JoinRequestPayload) (b : list byte) : Error + MIC4 :=
  match ver with
  | MAC_V1_1 =>
      ComputeJoinAcceptMIC crypto (DeriveJSIntKey crypto key (JRP_DevEUI pld)) xff
        (JRP_JoinEUI pld) (JRP_DevNonce pld) b
  | _ => ComputeLegacyJoinAcceptMIC crypto key b
  end.

(** The session keys of a response, by selected version (lines 291-309 and
    328-337): [nwkKey] is used on the 1.1 path only. *)
Definition issuedSessionKeys (crypto : Crypto) (ver : MACVersion)
    (nwkKey appKey : AES128Key) (jn : JoinNonce) (req : JoinRequest)
    (pld : JoinRequestPayload) : SessionKeys :=
  match ver with
  | MAC_V1_1 =>
      {| SessionKeyID := "";
         FNwkSIntKey := clearEnvelope
           (DeriveFNwkSIntKey crypto nwkKey jn (JRP_JoinEUI pld) (JRP_DevNonce pld));
         SNwkSIntKey := clearEnvelope
           (DeriveSNwkSIntKey crypto nwkKey jn (JRP_JoinEUI pld) (JRP_DevNonce pld));
         NwkSEncKey := clearEnvelope
           (DeriveNwkSEncKey crypto nwkKey jn (JRP_JoinEUI pld) (JRP_DevNonce pld));
         AppSKey := clearEnvelope
           (DeriveAppSKey crypto appKey jn (JRP_JoinEUI pld) (JRP_DevNonce pld)) |}
  | _ =>
      {| SessionKeyID := "";
         FNwkSIntKey := clearEnvelope
           (DeriveLegacyNwkSKey crypto appKey jn (Req_NetID req) (JRP_DevNonce pld));
         SNwkSIntKey := None;
         NwkSEncKey := None;
         AppSKey := clearEnvelope
           (DeriveLegacyAppSKey crypto appKey jn (Req_NetID req) (JRP_DevNonce pld)) |}
  end.

(** The Join-Accept payload [HandleJoin] hands to the codec (lines
    231-238), for a given JoinNonce. *)
Definition joinAcceptPayload (req : JoinRequest) (devAddr : DevAddr)
    (jn : JoinNonce) : JoinAcceptPayload :=
  {| JAP_NetID := Req_NetID req;
     JAP_JoinNonce := jn;
     JAP_CFList := Req_CFList req;
     JAP_DevAddr := devAddr;
     JAP_DLSettings := DownlinkSettings req;
     JAP_RxDelay := Req_RxDelay req |}.

(** ** A small instance to run the model on

    A stand-in for the codec and the crypto package with the shapes of the
    real ones: the Join-Request is MHDR(1) || JoinEUI(8) || DevEUI(8) ||
    DevNonce(2) || MIC(4), little-endian, the Join-Accept is laid out as in
    [WireLengths], MICs are four bytes taken from the key and the data, and
    the cipher works on whole 16-byte blocks. *)
Module Test.

Fixpoint le_bytes (n : nat) (v : Z) : list byte :=
  match n with
  | O => []
  | S n' => Z_to_byte v :: le_bytes n' (Z.shiftr v 8)
  end.

Fixpoint le_value (bs : list byte) : Z :=
  match bs with
  | [] => 0
  | b :: bs' => byte_to_Z b + 256 * le_value bs'
  end.

Definition mtype_number (t : MType) : Z :=
  match t with
  | JOIN_REQUEST => 0 | JOIN_ACCEPT => 1 | UNCONFIRMED_UP => 2
  | UNCONFIRMED_DOWN => 3 | CONFIRMED_UP => 4 | CONFIRMED_DOWN => 5
  | REJOIN_REQUEST => 6 | PROPRIETARY => 7
  end.

Definition mtype_of_number (n : Z) : MType :=
  if n =? 0 then JOIN_REQUEST else if n =? 1 then JOIN_ACCEPT
  else if n =? 2 then UNCONFIRMED_UP else if n =? 3 then UNCONFIRMED_DOWN
  else if n =? 4 then CONFIRMED_UP else if n =? 5 then CONFIRMED_DOWN
  else if n =? 6 then REJOIN_REQUEST else PROPRIETARY.

Definition mhdr_byte (h : MHDR) : byte :=
  Z_to_byte (Z.lor (Z.shiftl (mtype_number (MHDR_MType h)) 5)
                   (Z.land (MHDR_Major h) 3)).

Definition unmarshal (raw : list byte) : Error + Message :=
  match raw with
  | h :: rest =>
      if negb (length rest =? 22)%nat
      then inl (ErrExternal "expected a 23-byte join-request")
      else
        inr {| Message_MHDR :=
                 {| MHDR_MType := mtype_of_number (Z.shiftr (byte_to_Z h) 5);
                    MHDR_Major := Z.land (byte_to_Z h) 3 |};
               Message_MIC := drop 18 rest;
               Message_Payload_ :=
                 Some (Message_JoinRequestPayload
                         {| JRP_JoinEUI := le_value (take 8 rest);
                            JRP_DevEUI := le_value (take 8 (drop 8 rest));
                            JRP_DevNonce :=
                              (nth 16 rest x00, nth 17 rest x00) |}) |}
  | [] => inl (ErrExternal "empty payload")
  end.

Definition marshal (m : Message) : Error + list byte :=
  match Message_Payload_ m with
  | Some (Message_JoinRequestPayload p) =>
      inr (mhdr_byte (Message_MHDR m)
           :: le_bytes 8 (JRP_JoinEUI p) ++ le_bytes 8 (JRP_DevEUI p)
           ++ [fst (JRP_DevNonce p); snd (JRP_DevNonce p)]
           ++ take 4 (Message_MIC m ++ [x00; x00; x00; x00]))
  | _ => inl (ErrExternal "not a join-request")
  end.

Definition cflist_bytes (c : CFList) : list byte :=
  take 15 (flat_map (le_bytes 3) (CFList_Freq c) ++ repeat x00 15)
  ++ [match CFList_Type c with FREQUENCIES => x00 | CHANNEL_MASKS => x01 end].

Definition dlsettings_byte (d : DLSettings) : byte :=
  Z_to_byte (Z.lor (Z.lor (if OptNeg d then 128 else 0)
                          (Z.shiftl (Z.land (Rx1DROffset d) 7) 4))
                   (Z.land (Rx2DR d) 15)).

Definition append_join_accept (p : JoinAcceptPayload) (dst : list byte)
  : Error + list byte :=
  let '(j0, j1, j2) := JAP_JoinNonce p in
  inr (dst ++ [j0; j1; j2] ++ le_bytes 3 (JAP_NetID p)
       ++ le_bytes 4 (JAP_DevAddr p)
       ++ [dlsettings_byte (JAP_DLSettings p); Z_to_byte (JAP_RxDelay p)]
       ++ match JAP_CFList p with
          | None => []
          | Some c => cflist_bytes c
          end).

Definition codec : Codec :=
  {| UnmarshalLoRaWAN := unmarshal;
     MarshalLoRaWAN := marshal;
     MHDR_AppendLoRaWAN := fun h dst => inr (dst ++ [mhdr_byte h]);
     JoinAcceptPayload_AppendLoRaWAN := append_join_accept |}.

Definition xor_byte (a b : byte) : byte :=
  Z_to_byte (Z.lxor (byte_to_Z a) (byte_to_Z b)).

Definition tag (key : AES128Key) (data : list byte) : MIC4 :=
  (nth 0 key x00, nth 1 key x00,
   Z_to_byte (Z.of_nat (length data)), fold_right xor_byte x00 data).

Fixpoint xor_key (key p : list byte) : list byte :=
  match p, key with
  | [], _ => []
  | b :: p', [] => b :: xor_key [] p'
  | b :: p', k :: key' => xor_byte b k :: xor_key key' p'
  end.

Definition encrypt (key : AES128Key) (p : list byte) : Error + list byte :=
  if (length p =? 16)%nat || (length p =? 32)%nat
  then inr (xor_key (key ++ key) p)
  else inl (ErrExternal "payload must be 16 or 32 bytes").

Definition derive (label : byte) (key : AES128Key) (dn : DevNonce) : AES128Key :=
  label :: fst dn :: snd dn :: drop 3 key.

Definition crypto : Crypto :=
  {| ComputeJoinRequestMIC := fun key data => inr (tag key data);
     ComputeJoinAcceptMIC := fun key _ _ _ data => inr (tag key data);
     ComputeLegacyJoinAcceptMIC := fun key data => inr (tag key data);
     EncryptJoinAccept := encrypt;
     DeriveJSIntKey := fun key _ => derive x06 key (x00, x00);
     DeriveFNwkSIntKey := fun key _ _ dn => derive x01 key dn;
     DeriveSNwkSIntKey := fun key _ _ dn => derive x03 key dn;
     DeriveNwkSEncKey := fun key _ _ dn => derive x04 key dn;
     DeriveAppSKey := fun key _ _ dn => derive x02 key dn;
     DeriveLegacyNwkSKey := fun key _ _ dn => derive x01 key dn;
     DeriveLegacyAppSKey := fun key _ _ dn => derive x02 key dn |}.

Definition key16 (b : byte) : AES128Key := repeat b 16.

Definition js : JoinServer :=
  {| euiPrefixes := [ {| PrefixEUI64 := 0x42FFFFFFFFFFFFFF; PrefixLength := 8 |} ] |}.

Definition joinEUI : EUI64 := 0x42FFFFFFFFFFFFFF.
Definition devEUI : EUI64 := 0x4242FFFFFFFFFFFF.

(** A registered device with both root keys. *)
Definition deviceWith (ver : MACVersion) (nextDevNonce : Z) (used : list Z)
    (disableCheck : bool) (session fallback : option Session) : EndDevice :=
  {| Ids := {| DeviceID := "dev"; ApplicationID := "app";
               DevEUI := Some devEUI; JoinEUI := Some joinEUI;
               Ids_DevAddr := None |};
     LoRaWANVersion := ver;
     NetworkServerAddress := "ns.example";
     ApplicationServerAddress := "as.example";
     RootKeys_ := Some {| AppKey := Some {| Key := Some (key16 x0a); KEKLabel := "" |};
                          NwkKey := Some {| Key := Some (key16 x0b); KEKLabel := "" |} |};
     NextDevNonce := nextDevNonce;
     UsedDevNonces := used;
     NextJoinNonce := 1;
     DisableJoinNonceCheck := disableCheck;
     Session_ := session;
     SessionFallback := fallback |}.

(** A fresh device: no nonce seen, no session yet. *)
Definition device (ver : MACVersion) : EndDevice :=
  deviceWith ver 0 [] false None None.

Definition session (id : string) (t : Time) (appSKey : option KeyEnvelope) : Session :=
  {| StartedAt := t;
     Session_DevAddr := 0x01020304;
     Session_Keys := {| SessionKeyID := id;
                        FNwkSIntKey := None; SNwkSIntKey := None;
                        NwkSEncKey := None; AppSKey := appSKey |} |}.

Definition joinRequestMessage (dn : DevNonce) : Message :=
  {| Message_MHDR := {| MHDR_MType := JOIN_REQUEST; MHDR_Major := LORAWAN_R1 |};
     Message_MIC := [];
     Message_Payload_ :=
       Some (Message_JoinRequestPayload
               {| JRP_JoinEUI := joinEUI; JRP_DevEUI := devEUI;
                  JRP_DevNonce := dn |}) |}.

(** The 23 raw bytes of a Join-Request of the device, signed with [key]. *)
Definition rawJoinRequest (key : AES128Key) (dn : DevNonce) : list byte :=
  let body := take 19 (match marshal (joinRequestMessage dn) with
                       | inr raw => raw
                       | inl _ => []
                       end) in
  body ++ mic_bytes (tag key body).

(** A request that carries the raw payload only. *)
Definition request (ver : MACVersion) (key : AES128Key) (dn : DevNonce)
    (cflist : option CFList) : JoinRequest :=
  {| RawPayload := Some (rawJoinRequest key dn);
     Payload := {| Message_MHDR := {| MHDR_MType := JOIN_REQUEST;
                                      MHDR_Major := LORAWAN_R1 |};
                   Message_MIC := [];
                   Message_Payload_ := None |};
     Req_Ids := {| DeviceID := ""; ApplicationID := "";
                   DevEUI := None; JoinEUI := None;
                   Ids_DevAddr := Some 0x01020304 |};
     SelectedMacVersion := ver;
     Req_NetID := 1;
     DownlinkSettings := {| Rx1DROffset := 0; Rx2DR := 0; OptNeg := true |};
     Req_RxDelay := 1;
     Req_CFList := cflist |}.

Definition ns : Context := {| NetAddress := "ns.example" |}.

Definition storing (t : Time) : Oracle := {| storeError := None; now := t |}.
Definition failing (t : Time) : Oracle :=
  {| storeError := Some (ErrExternal "conflict"); now := t |}.

Definition world (devs : list EndDevice) : World :=
  {| registry := devs; trace := [] |}.

Definition handleJoin := HandleJoin crypto codec js.

Definition call (ora : Oracle) (req : JoinRequest) : Call :=
  {| call_ctx := ns; call_oracle := ora; call_req := req |}.

(** Join-Requests of the device for the 1.1 and the 1.0.2 path. *)
Definition join11 (dn : DevNonce) : JoinRequest :=
  request MAC_V1_1 (key16 x0b) dn None.

Definition join102 (dn : DevNonce) : JoinRequest :=
  request MAC_V1_0_2 (key16 x0a) dn None.

Definition cflist : CFList :=
  {| CFList_Type := FREQUENCIES;
     CFList_Freq := [8671000; 8673000; 8675000];
     CFList_ChMasks := [] |}.

Definition as_ : Context := {| NetAddress := "as.example" |}.
Definition stranger : Context := {| NetAddress := "elsewhere.example" |}.

Definition envelope (b : byte) : KeyEnvelope :=
  {| Key := Some (key16 b); KEKLabel := "" |}.

(** A device that joined twice: the first session is the fallback. *)
Definition rejoined : EndDevice :=
  deviceWith MAC_V1_1 2 [0; 1] false
    (Some (session "second" 20 (Some (envelope x22))))
    (Some (session "first" 10 (Some (envelope x11)))).

(** A device in its first session. *)
Definition joined : EndDevice :=
  deviceWith MAC_V1_1 1 [0] false
    (Some (session "first" 10 (Some (envelope x11)))) None.

Definition keyRequest (id : string) : SessionKeyRequest :=
  {| SKR_SessionKeyID := id; SKR_DevEUI := devEUI |}.

(** A Join Server that serves another JoinEUI prefix, and one that serves
    none. *)
Definition elsewhere : JoinServer :=
  {| euiPrefixes := [ {| PrefixEUI64 := 0x7000000000000000; PrefixLength := 8 |} ] |}.

Definition unconfigured : JoinServer := {| euiPrefixes := [] |}.

(** A request with the structured payload and a raw payload cut to 22
    bytes. *)
Definition truncated : JoinRequest :=
  {| RawPayload := Some (take 22 (rawJoinRequest (key16 x0b) (x05, x00)));
     Payload := joinRequestMessage (x05, x00);
     Req_Ids := Req_Ids (join11 (x05, x00));
     SelectedMacVersion := MAC_V1_1;
     Req_NetID := 1;
     DownlinkSettings := {| Rx1DROffset := 0; Rx2DR := 0; OptNeg := true |};
     Req_RxDelay := 1;
     Req_CFList := None |}.

(** A device whose JoinNonce counter is past 2^24. *)
Definition veteran : EndDevice :=
  {| Ids := Ids (device MAC_V1_1);
     LoRaWANVersion := MAC_V1_1;
     NetworkServerAddress := "ns.example";
     ApplicationServerAddress := "as.example";
     RootKeys_ := RootKeys_ (device MAC_V1_1);
     NextDevNonce := 0;
     UsedDevNonces := [];
     NextJoinNonce := 16777221;
     DisableJoinNonceCheck := false;
     Session_ := None;
     SessionFallback := None |}.

End Test.

(** * Properties *)

(** ** Bytes and nonces *)

Lemma byte_to_Z_range (b : byte) : 0 <= byte_to_Z b < 256.
Proof.
  unfold byte_to_Z. pose proof (Byte.to_N_bounded b) as H.
  lia.
Qed.

Lemma lor_below (n a b : Z) :
  0 <= n -> 0 <= a < 2 ^ n -> 0 <= b < 2 ^ n -> 0 <= Z.lor a b < 2 ^ n.
Proof.
  intros Hn Ha Hb. split; [apply Z.lor_nonneg; lia |].
  destruct (Z.eq_dec (Z.lor a b) 0) as [-> | Hnz]; [lia |].
  assert (0 < n).
  { destruct (Z.eq_dec n 0) as [-> | ?]; [| lia].
    assert (a = 0) as -> by (change (2 ^ 0) with 1 in Ha; lia).
    assert (b = 0) as -> by (change (2 ^ 0) with 1 in Hb; lia).
    now contradiction Hnz. }
  apply Z.log2_lt_pow2; [pose proof (proj2 (Z.lor_nonneg a b)); lia |].
  rewrite Z.log2_lor by lia.
  apply Z.max_lub_lt.
  - destruct (Z.eq_dec a 0) as [-> | ?]; [simpl; lia |].
    apply Z.log2_lt_pow2; lia.
  - destruct (Z.eq_dec b 0) as [-> | ?]; [simpl; lia |].
    apply Z.log2_lt_pow2; lia.
Qed.

(** A DevNonce read as [uint16] is below 2^16. *)
Lemma LittleEndian_Uint16_range (n : DevNonce) :
  0 <= LittleEndian_Uint16 n < 65536.
Proof.
  unfold LittleEndian_Uint16.
  pose proof (byte_to_Z_range (fst n)) as H0.
  pose proof (byte_to_Z_range (snd n)) as H1.
  change 65536 with (2 ^ 16). apply lor_below; [lia | lia |].
  rewrite Z.shiftl_mul_pow2 by lia. change (2 ^ 8) with 256. lia.
Qed.

(** ** The registry *)

Lemma findFrom_lookup want r : forall k j d,
  In (j, d) (findFrom k want r) -> (k <= j)%nat /\ r !! (j - k)%nat = Some d.
Proof.
  induction r as [| x r IH]; intros k j d Hin; simpl in Hin; [contradiction |].
  assert (Hrest : In (j, d) (findFrom (S k) want r) ->
                  (k <= j)%nat /\ (x :: r) !! (j - k)%nat = Some d).
  { intros H. apply IH in H as [Hle Hl]. split; [lia |].
    replace (j - k)%nat with (S (j - S k)) by lia. exact Hl. }
  destruct (matchesIdentifiers want (Ids x)); [| auto].
  destruct Hin as [Heq | Hin]; [| auto].
  inversion Heq; subst. split; [lia |].
  replace (j - j)%nat with 0%nat by lia. reflexivity.
Qed.

(** The device [FindByIdentifiers] returns is the one in the slot it names. *)
Lemma FindByIdentifiers_lookup r want i d :
  FindByIdentifiers r want = Ok (i, d) -> r !! i = Some d.
Proof.
  unfold FindByIdentifiers. intros H.
  destruct (findFrom 0 want r) as [| [j x] [| ? ?]] eqn:Hf; try discriminate.
  inversion H; subst.
  destruct (findFrom_lookup want r 0 i d) as [_ Hl]; [rewrite Hf; left; reflexivity |].
  replace (i - 0)%nat with i in Hl by lia. exact Hl.
Qed.

(** ** What one call does to the world *)

Lemma logsOnly_refl P w : logsOnly P w w.
Proof. split; [reflexivity |]. exists []. rewrite app_nil_r. auto. Qed.

Lemma logsOnly_trans P w1 w2 w3 :
  logsOnly P w1 w2 -> logsOnly P w2 w3 -> logsOnly P w1 w3.
Proof.
  intros [Hr1 (e1 & Ht1 & Hp1)] [Hr2 (e2 & Ht2 & Hp2)].
  split; [congruence |]. exists (e1 ++ e2).
  rewrite Ht2, Ht1, <- app_assoc, forallb_app, Hp1, Hp2. auto.
Qed.

Lemma logsOnly_emit P ev w r w' :
  P ev = true -> emit ev w = (r, w') -> logsOnly P w w' /\ r = Ok tt.
Proof.
  unfold emit. intros HP H. inversion H; subst. split; [| reflexivity].
  split; [reflexivity |]. exists [ev]. simpl. rewrite HP. auto.
Qed.

Lemma newEvents_app w w' evs :
  trace w' = trace w ++ evs -> newEvents w w' = evs.
Proof.
  unfold newEvents. intros ->. rewrite drop_app_length. reflexivity.
Qed.

Section Effects.

Context (crypto : Crypto) (codec : Codec).

(** [checkMIC] never fails as a call: it returns Go's [error] value. *)
Lemma checkMIC_world key raw w r w' :
  checkMIC crypto key raw w = (r, w') ->
  logsOnly notStore w w' /\ exists e, r = Ok e.
Proof.
  unfold checkMIC, bind, ret. intros H.
  destruct (negb (length raw =? 23)%nat).
  { inversion H; subst. split; [apply logsOnly_refl | eauto]. }
  destruct (emit _ w) as [[[] | |] w1] eqn:He;
    apply (logsOnly_emit notStore) in He as [Hl Hr]; try discriminate; auto.
  destruct (ComputeJoinRequestMIC crypto key (take 19 raw)).
  { inversion H; subst. eauto. }
  destruct (forallb _ _); inversion H; subst; eauto.
Qed.

Lemma encryptJoinAccept_world key b mic w r w' :
  encryptJoinAccept crypto key b mic w = (r, w') -> logsOnly notStore w w'.
Proof.
  unfold encryptJoinAccept, bind, ret, lift. intros H.
  destruct b as [| b0 b'].
  { inversion H; subst. apply logsOnly_refl. }
  destruct (emit _ w) as [[[] | |] w1] eqn:He;
    apply (logsOnly_emit notStore) in He as [Hl Hr]; try discriminate; auto.
  destruct (EncryptJoinAccept crypto key _); inversion H; subst; auto.
Qed.

(** The crypto step leaves the registry alone and never calls [Store]. *)
Lemma issue_world ver req dev appKey pld raw jn b w r w' :
  issue crypto ver req dev appKey pld raw jn b w = (r, w') ->
  logsOnly notStore w w'.
Proof.
  assert (Hlegacy :
    forall w r w',
      (err <- checkMIC crypto appKey raw ;;
       match err with
       | Some e => lift (Err (ErrMICCheckFailed e))
       | None =>
           _ <- emit (EvComputeLegacyJoinAcceptMIC appKey b) ;;
           match ComputeLegacyJoinAcceptMIC crypto appKey b with
           | inl e => lift (Err (ErrComputeMIC e))
           | inr mic =>
               raw <- encryptJoinAccept crypto appKey b mic ;;
               ret {| Resp_RawPayload := raw;
                      Resp_SessionKeys :=
                        {| SessionKeyID := "";
                           FNwkSIntKey := clearEnvelope
                             (DeriveLegacyNwkSKey crypto appKey jn
                                (Req_NetID req) (JRP_DevNonce pld));
                           SNwkSIntKey := None;
                           NwkSEncKey := None;
                           AppSKey := clearEnvelope
                             (DeriveLegacyAppSKey crypto appKey jn
                                (Req_NetID req) (JRP_DevNonce pld)) |};
                      Lifetime := None |}
           end
       end) w = (r, w') -> logsOnly notStore w w').
  { clear. intros w r w'. unfold bind, ret, lift. intros H.
    destruct (checkMIC crypto appKey raw w) as [r1 w1] eqn:Hc.
    apply checkMIC_world in Hc as [Hl1 [e ->]].
    destruct e as [e |]; [inversion H; subst; auto |].
    destruct (emit _ w1) as [[[] | |] w2] eqn:He;
      apply (logsOnly_emit notStore) in He as [Hl2 Hr]; try discriminate; auto.
    destruct (ComputeLegacyJoinAcceptMIC crypto appKey b).
    { inversion H; subst. eapply logsOnly_trans; eauto. }
    destruct (encryptJoinAccept crypto appKey b m w2) as [r3 w3] eqn:Henc.
    apply encryptJoinAccept_world in Henc.
    assert (logsOnly notStore w w3) by (eapply logsOnly_trans; [| eauto]; eapply logsOnly_trans; eauto).
    destruct r3; inversion H; subst; auto. }
  unfold issue. intros H.
  destruct ver; try (inversion H; subst; apply logsOnly_refl); try (eapply Hlegacy; eauto; fail).
  unfold bind, ret, lift in H.
  destruct (GetNwkKey (RootKeys_ dev)) as [ke |]; [| inversion H; subst; apply logsOnly_refl].
  destruct (Key ke) as [nwkKey |]; [| inversion H; subst; apply logsOnly_refl].
  destruct (AES128Key_IsZero nwkKey); [inversion H; subst; apply logsOnly_refl |].
  destruct (checkMIC crypto nwkKey raw w) as [r1 w1] eqn:Hc.
  apply checkMIC_world in Hc as [Hl1 [e ->]].
  destruct e as [e |]; [inversion H; subst; auto |].
  destruct (emit _ w1) as [[[] | |] w2] eqn:He;
    apply (logsOnly_emit notStore) in He as [Hl2 Hr]; try discriminate; auto.
  destruct (ComputeJoinAcceptMIC crypto _ _ _ _ b).
  { inversion H; subst. eapply logsOnly_trans; eauto. }
  destruct (encryptJoinAccept crypto nwkKey b m w2) as [r3 w3] eqn:Henc.
  apply encryptJoinAccept_world in Henc.
  assert (logsOnly notStore w w3) by (eapply logsOnly_trans; [| eauto]; eapply logsOnly_trans; eauto).
  destruct r3; inversion H; subst; auto.
Qed.

End Effects.

Section Joins.

Context (crypto : Crypto) (codec : Codec) (js : JoinServer).

(** [commit] always hands the response back; the registry changes only
    when [Store] succeeds, and a failure is logged. *)
Lemma commit_spec ora i dev dn devAddr resp w :
  let dev' := with_join dev dn (newSession ora devAddr resp) in
  exists w',
    commit ora i dev dn devAddr resp w = (Ok resp, w') /\
    registry w' = match storeError ora with
                  | None => <[i := dev']> (registry w)
                  | Some _ => registry w
                  end /\
    trace w' = trace w ++ EvStore i dev'
                 :: match storeError ora with
                    | None => []
                    | Some e => [EvLogError "Failed to update device" e]
                    end.
Proof.
  unfold commit, Store, bind, ret, emit.
  destruct (storeError ora) as [e |]; simpl; eexists;
    (split; [reflexivity |]); simpl; split; auto.
  rewrite <- app_assoc. reflexivity.
Qed.

(** The stages a call went through when it returned a response. *)
Lemma HandleJoin_cases ctx ora req w r w' :
  HandleJoin crypto codec js ctx ora req w = (r, w') ->
  (is_Ok r = false /\ logsOnly notStore w w')
  \/ exists ver devAddr msg pld raw i dev appKey jn b dev1 resp w1,
       r = Ok resp
       /\ parseRequest codec req = Ok (ver, devAddr, msg, pld, raw)
       /\ FindByIdentifiers (registry w) (joinIdentifiers pld) = Ok (i, dev)
       /\ authorize js ctx ver pld dev = Ok appKey
       /\ buildJoinAccept codec req msg devAddr dev = Ok (jn, b)
       /\ checkDevNonce ver (LittleEndian_Uint16 (JRP_DevNonce pld)) dev = Ok dev1
       /\ issue crypto ver req dev1 appKey pld raw jn b w = (Ok resp, w1)
       /\ commit ora i dev1 (LittleEndian_Uint16 (JRP_DevNonce pld)) devAddr resp w1
          = (Ok resp, w').
Proof.
  unfold HandleJoin. unfold bind at 1. unfold lift at 1.
  destruct (parseRequest codec req) as [[[[[ver devAddr] msg] pld] raw] | e | m] eqn:Hp;
    try (intros H; inversion H; subst; left; split; [reflexivity | apply logsOnly_refl]).
  unfold bind at 1. unfold getRegistry at 1.
  unfold bind at 1. unfold lift at 1.
  destruct (FindByIdentifiers (registry w) (joinIdentifiers pld)) as [[i dev] | e | m] eqn:Hf;
    try (intros H; inversion H; subst; left; split; [reflexivity | apply logsOnly_refl]).
  unfold bind at 1. unfold lift at 1.
  destruct (authorize js ctx ver pld dev) as [appKey | e | m] eqn:Ha;
    try (intros H; inversion H; subst; left; split; [reflexivity | apply logsOnly_refl]).
  unfold bind at 1. unfold lift at 1.
  destruct (buildJoinAccept codec req msg devAddr dev) as [[jn b] | e | m] eqn:Hb;
    try (intros H; inversion H; subst; left; split; [reflexivity | apply logsOnly_refl]).
  unfold bind at 1. unfold lift at 1.
  destruct (checkDevNonce ver (LittleEndian_Uint16 (JRP_DevNonce pld)) dev)
    as [dev1 | e | m] eqn:Hn;
    try (intros H; inversion H; subst; left; split; [reflexivity | apply logsOnly_refl]).
  unfold bind at 1.
  destruct (issue crypto ver req dev1 appKey pld raw jn b w) as [[resp | e | m] w1] eqn:Hi;
    try (intros H; inversion H; subst; left; split;
         [reflexivity | eapply issue_world; eauto]).
  intros H.
  destruct (commit_spec ora i dev1 (LittleEndian_Uint16 (JRP_DevNonce pld))
              devAddr resp w1) as (w2 & Hc & _).
  rewrite Hc in H. inversion H; subst.
  right. do 13 eexists. repeat split; eauto.
Qed.

Lemma parseRequest_Ok req ver devAddr msg pld raw :
  parseRequest codec req = Ok (ver, devAddr, msg, pld, raw) ->
  ver = SelectedMacVersion req
  /\ Ids_DevAddr (Req_Ids req) = Some devAddr
  /\ In ver supportedMACVersions.
Proof.
  unfold parseRequest. intros H.
  destruct (existsb _ supportedMACVersions) eqn:Hs; simpl in H; [| discriminate].
  destruct (Ids_DevAddr (Req_Ids req)) as [a |]; [| discriminate].
  unfold obind in H.
  destruct (match Message_Payload_ (Payload req) with
            | Some _ => _ | None => _ end) as [m | |]; try discriminate.
  destruct (negb (bool_decide (GetMajor m = LORAWAN_R1))); [discriminate |].
  destruct (negb (bool_decide (GetMType m = JOIN_REQUEST))); [discriminate |].
  destruct (GetJoinRequestPayload m) as [p |]; [| discriminate].
  destruct (EUI64_IsZero (JRP_DevEUI p)); [discriminate |].
  destruct (EUI64_IsZero (JRP_JoinEUI p)); [discriminate |].
  destruct (match RawPayload req with Some _ => _ | None => _ end); try discriminate.
  inversion H; subst. repeat split.
  apply existsb_exists in Hs as (v & Hin & Hv).
  apply bool_decide_eq_true in Hv. subst. exact Hin.
Qed.

(** The replay check returns the device as it was, or, on the 1.1 path
    with the check enabled, with the counter set past the DevNonce. *)
Lemma checkDevNonce_Ok ver dn dev dev1 :
  checkDevNonce ver dn dev = Ok dev1 ->
  (dev1 = dev /\ (DisableJoinNonceCheck dev = true \/ ver <> MAC_V1_1))
  \/ (dev1 = with_NextDevNonce dev (uint16 (dn + 1))
      /\ ver = MAC_V1_1 /\ DisableJoinNonceCheck dev = false
      /\ NextDevNonce dev <= dn).
Proof.
  unfold checkDevNonce. intros H.
  destruct (DisableJoinNonceCheck dev); simpl in H.
  { inversion H; auto. }
  destruct ver; try discriminate;
    try (destruct (existsb _ _); [discriminate |]; inversion H; left; split; auto; right; discriminate).
  destruct (dn <? NextDevNonce dev) eqn:Hlt; [discriminate |].
  destruct (NextDevNonce dev =? MaxUint32); [discriminate |].
  inversion H. right. repeat split. apply Z.ltb_ge in Hlt. exact Hlt.
Qed.

(** What a call that returned a response did: the slot it addressed, the
    device it read there, the device after the replay check, and the
    registry it left. *)
Lemma HandleJoin_joined ctx ora req w resp w' :
  HandleJoin crypto codec js ctx ora req w = (Ok resp, w') ->
  exists devAddr i dn dev dev1,
    Ids_DevAddr (Req_Ids req) = Some devAddr
    /\ joinTarget codec (registry w) req = Some (i, dn)
    /\ registry w !! i = Some dev
    /\ checkDevNonce (SelectedMacVersion req) dn dev = Ok dev1
    /\ registry w' =
         match storeError ora with
         | None => <[i := with_join dev1 dn (newSession ora devAddr resp)]> (registry w)
         | Some _ => registry w
         end.
Proof.
  intros H. apply HandleJoin_cases in H as [[Hno _] | H]; [discriminate |].
  destruct H as (ver & devAddr & msg & pld & raw & i & dev & appKey & jn & b
                 & dev1 & resp' & w1 & Hr & Hp & Hf & Ha & Hb & Hn & Hi & Hc).
  inversion Hr; subst resp'.
  destruct (parseRequest_Ok _ _ _ _ _ _ Hp) as (-> & Hd & _).
  exists devAddr, i, (LittleEndian_Uint16 (JRP_DevNonce pld)), dev, dev1.
  split; [exact Hd |]. split.
  { unfold joinTarget. rewrite Hp, Hf. reflexivity. }
  split; [eapply FindByIdentifiers_lookup; eauto |].
  split; [exact Hn |].
  destruct (commit_spec ora i dev1 (LittleEndian_Uint16 (JRP_DevNonce pld))
              devAddr resp w1) as (w2 & Hc' & Hreg & _).
  rewrite Hc in Hc'. inversion Hc'; subst w2.
  rewrite Hreg. apply issue_world in Hi as [-> _]. reflexivity.
Qed.

(** The same, read at the slot, when [Store] succeeded. *)
Lemma HandleJoin_stored ctx ora req w resp w' :
  HandleJoin crypto codec js ctx ora req w = (Ok resp, w') ->
  storeError ora = None ->
  exists devAddr i dn dev dev1,
    Ids_DevAddr (Req_Ids req) = Some devAddr
    /\ joinTarget codec (registry w) req = Some (i, dn)
    /\ registry w !! i = Some dev
    /\ checkDevNonce (SelectedMacVersion req) dn dev = Ok dev1
    /\ registry w' !! i = Some (with_join dev1 dn (newSession ora devAddr resp))
    /\ forall j, j <> i -> registry w' !! j = registry w !! j.
Proof.
  intros H Hs. apply HandleJoin_joined in H.
  destruct H as (devAddr & i & dn & dev & dev1 & Hd & Ht & Hl & Hn & Hreg).
  rewrite Hs in Hreg.
  exists devAddr, i, dn, dev, dev1. repeat split; auto.
  - rewrite Hreg. apply list_lookup_insert_eq. eapply lookup_lt_Some; eauto.
  - intros j Hj. rewrite Hreg. apply list_lookup_insert_ne. auto.
Qed.

Lemma checkDevNonce_keeps ver dn dev dev1 :
  checkDevNonce ver dn dev = Ok dev1 ->
  UsedDevNonces dev1 = UsedDevNonces dev
  /\ SessionFallback dev1 = SessionFallback dev
  /\ Session_ dev1 = Session_ dev
  /\ DisableJoinNonceCheck dev1 = DisableJoinNonceCheck dev.
Proof.
  intros H. apply checkDevNonce_Ok in H as [[-> _] | [-> _]]; auto.
Qed.

(** C3, as amended: a successful join whose [Store] succeeds installs the
    new session (started now, with the request's DevAddr and the keys of the
    response) and leaves [session_fallback] as it was; the previous session
    is not moved into it. *)
Theorem HandleJoin_installs_session_keeps_fallback ctx ora req w resp w' :
  HandleJoin crypto codec js ctx ora req w = (Ok resp, w') ->
  storeError ora = None ->
  exists devAddr i dn dev dev',
    Ids_DevAddr (Req_Ids req) = Some devAddr
    /\ joinTarget codec (registry w) req = Some (i, dn)
    /\ registry w !! i = Some dev
    /\ registry w' !! i = Some dev'
    /\ Session_ dev' = Some {| StartedAt := now ora;
                               Session_DevAddr := devAddr;
                               Session_Keys := Resp_SessionKeys resp |}
    /\ SessionFallback dev' = SessionFallback dev.
Proof.
  intros H Hs.
  destruct (HandleJoin_stored _ _ _ _ _ _ H Hs)
    as (devAddr & i & dn & dev & dev1 & Hd & Ht & Hl & Hn & Hl' & _).
  exists devAddr, i, dn, dev, (with_join dev1 dn (newSession ora devAddr resp)).
  repeat split; auto.
  simpl. apply checkDevNonce_keeps in Hn. tauto.
Qed.

(** C4, as amended: a successful join whose [Store] succeeds appends the
    request's DevNonce to [used_dev_nonces] whatever the selected version,
    1.1 included. *)
Theorem HandleJoin_appends_DevNonce ctx ora req w resp w' :
  HandleJoin crypto codec js ctx ora req w = (Ok resp, w') ->
  storeError ora = None ->
  exists i dn dev dev',
    joinTarget codec (registry w) req = Some (i, dn)
    /\ registry w !! i = Some dev
    /\ registry w' !! i = Some dev'
    /\ UsedDevNonces dev' = UsedDevNonces dev ++ [dn].
Proof.
  intros H Hs.
  destruct (HandleJoin_stored _ _ _ _ _ _ H Hs)
    as (devAddr & i & dn & dev & dev1 & Hd & Ht & Hl & Hn & Hl' & _).
  exists i, dn, dev, (with_join dev1 dn (newSession ora devAddr resp)).
  repeat split; auto.
  simpl. apply checkDevNonce_keeps in Hn as [-> _]. reflexivity.
Qed.

(** C10: a successful join with selected version 1.1 on a device whose
    [disable_join_nonce_check] is set leaves [next_dev_nonce] of the
    persisted record as it was. *)
Theorem HandleJoin_disabled_check_keeps_NextDevNonce ctx ora req w resp w' i dn dev :
  HandleJoin crypto codec js ctx ora req w = (Ok resp, w') ->
  SelectedMacVersion req = MAC_V1_1 ->
  joinTarget codec (registry w) req = Some (i, dn) ->
  registry w !! i = Some dev ->
  DisableJoinNonceCheck dev = true ->
  exists dev',
    registry w' !! i = Some dev' /\ NextDevNonce dev' = NextDevNonce dev.
Proof.
  intros H Hv Ht Hl Hflag. apply HandleJoin_joined in H.
  destruct H as (devAddr & i' & dn' & dev0 & dev1 & Hd & Ht' & Hl0 & Hn & Hreg).
  rewrite Ht in Ht'. inversion Ht'; subst i' dn'.
  rewrite Hl in Hl0. inversion Hl0; subst dev0.
  unfold checkDevNonce in Hn. rewrite Hflag in Hn. simpl in Hn.
  inversion Hn; subst dev1.
  destruct (storeError ora).
  - exists dev. rewrite Hreg. auto.
  - eexists. rewrite Hreg. split.
    + apply list_lookup_insert_eq. eapply lookup_lt_Some; eauto.
    + reflexivity.
Qed.

(** C5: a call that does not return a response leaves the registry as it
    was and never calls [Store]. *)
Theorem HandleJoin_error_keeps_registry ctx ora req w r w' :
  HandleJoin crypto codec js ctx ora req w = (r, w') ->
  is_Ok r = false ->
  registry w' = registry w /\ forallb notStore (newEvents w w') = true.
Proof.
  intros H Hr. apply HandleJoin_cases in H as [[_ [Hreg (evs & Ht & Hp)]] | H].
  - split; [exact Hreg |]. rewrite (newEvents_app _ _ _ Ht). exact Hp.
  - destruct H as (? & ? & ? & ? & ? & ? & ? & ? & ? & ? & ? & resp & ? & -> & _).
    discriminate.
Qed.

End Joins.

Section Order.

Context (crypto : Crypto) (codec : Codec) (js : JoinServer).

(** C6: when the device is found and the caller's address is not its
    [network_server_address], the call returns AddressMismatch for the
    Network Server, and no MIC has been computed (nor anything else done)
    by then. *)
Theorem HandleJoin_address_mismatch_before_MIC
    ctx ora req w ver devAddr msg pld raw i dev :
  parseRequest codec req = Ok (ver, devAddr, msg, pld, raw) ->
  FindByIdentifiers (registry w) (joinIdentifiers pld) = Ok (i, dev) ->
  NetAddress ctx <> NetworkServerAddress dev ->
  exists w',
    HandleJoin crypto codec js ctx ora req w
    = (Err (ErrAddressMismatch "Network Server"), w')
    /\ forallb notMICComputation (newEvents w w') = true
    /\ registry w' = registry w.
Proof.
  intros Hp Hf Hne. exists w.
  unfold HandleJoin, bind, lift, getRegistry. rewrite Hp, Hf.
  unfold authorize. rewrite bool_decide_eq_false_2 by exact Hne. simpl.
  repeat split. unfold newEvents. rewrite drop_all. reflexivity.
Qed.

(** Every MIC computation of a call comes after the caller's address was
    found equal to the device's [network_server_address]. *)
Lemma HandleJoin_MIC_after_address_check ctx ora req w r w' :
  HandleJoin crypto codec js ctx ora req w = (r, w') ->
  forallb notMICComputation (newEvents w w') = false ->
  exists i dn dev,
    joinTarget codec (registry w) req = Some (i, dn)
    /\ registry w !! i = Some dev
    /\ NetAddress ctx = NetworkServerAddress dev.
Proof.
  unfold HandleJoin. unfold bind at 1. unfold lift at 1.
  destruct (parseRequest codec req) as [[[[[ver devAddr] msg] pld] raw] | e | m] eqn:Hp;
    try (intros H Hev; inversion H; subst; unfold newEvents in Hev;
         rewrite drop_all in Hev; discriminate).
  unfold bind at 1. unfold getRegistry at 1.
  unfold bind at 1. unfold lift at 1.
  destruct (FindByIdentifiers (registry w) (joinIdentifiers pld)) as [[i dev] | e | m] eqn:Hf;
    try (intros H Hev; inversion H; subst; unfold newEvents in Hev;
         rewrite drop_all in Hev; discriminate).
  unfold bind at 1. unfold lift at 1.
  destruct (authorize js ctx ver pld dev) as [appKey | e | m] eqn:Ha;
    try (intros H Hev; inversion H; subst; unfold newEvents in Hev;
         rewrite drop_all in Hev; discriminate).
  intros _ _. exists i, (LittleEndian_Uint16 (JRP_DevNonce pld)), dev.
  split; [unfold joinTarget; rewrite Hp, Hf; reflexivity |].
  split; [eapply FindByIdentifiers_lookup; eauto |].
  unfold authorize in Ha.
  destruct (bool_decide (NetAddress ctx = NetworkServerAddress dev)) eqn:Hb;
    [apply bool_decide_eq_true in Hb; exact Hb | discriminate].
Qed.

(** C7: when the call would return a response with a registry that
    stores, it returns the same response, and no error, with a registry
    whose [Store] fails; the failure is logged and the registry is left as
    it was. *)
Theorem HandleJoin_store_failure_logged ctx t req w resp w1 e :
  HandleJoin crypto codec js ctx {| storeError := None; now := t |} req w
  = (Ok resp, w1) ->
  exists w2 i dev' evs,
    HandleJoin crypto codec js ctx {| storeError := Some e; now := t |} req w
    = (Ok resp, w2)
    /\ registry w2 = registry w
    /\ trace w2 = trace w ++ evs
                  ++ [EvStore i dev'; EvLogError "Failed to update device" e]
    /\ forallb notStore evs = true.
Proof.
  intros H. apply HandleJoin_cases in H as [[Hno _] | H]; [discriminate |].
  destruct H as (ver & devAddr & msg & pld & raw & i & dev & appKey & jn & b
                 & dev1 & resp' & w' & Hr & Hp & Hf & Ha & Hb & Hn & Hi & Hc).
  inversion Hr; subst resp'.
  set (ora := {| storeError := Some e; now := t |}).
  destruct (commit_spec ora i dev1 (LittleEndian_Uint16 (JRP_DevNonce pld))
              devAddr resp w') as (w2 & Hc2 & Hreg & Htr).
  destruct (issue_world _ _ _ _ _ _ _ _ _ _ _ _ Hi) as [Hreg' (evs & Htr' & Hev)].
  exists w2, i, (with_join dev1 (LittleEndian_Uint16 (JRP_DevNonce pld))
                   (newSession ora devAddr resp)), evs.
  split.
  { unfold HandleJoin, bind, lift, getRegistry. rewrite Hp, Hf, Ha, Hb, Hn, Hi.
    exact Hc2. }
  split; [simpl in Hreg; congruence |].
  split; [| exact Hev].
  rewrite Htr, Htr'. simpl. rewrite <- app_assoc. reflexivity.
Qed.

End Order.

Section Lengths.

Context (crypto : Crypto) (codec : Codec) (js : JoinServer).
Hypothesis wire : WireLengths crypto codec.

Lemma buildJoinAccept_length req msg devAddr dev jn b :
  buildJoinAccept codec req msg devAddr dev = Ok (jn, b) ->
  length b = match Req_CFList req with None => 13%nat | Some _ => 29%nat end.
Proof.
  unfold buildJoinAccept. intros H.
  destruct (MHDR_AppendLoRaWAN codec _ []) as [| b1] eqn:H1; [discriminate |].
  destruct (JoinAcceptPayload_AppendLoRaWAN codec _ b1) as [| b2] eqn:H2; [discriminate |].
  inversion H; subst.
  apply (MHDR_length _ _ wire) in H1.
  apply (JoinAcceptPayload_length _ _ wire) in H2.
  simpl in H1, H2. rewrite H2, H1.
  destruct (Req_CFList req); reflexivity.
Qed.

Lemma encryptJoinAccept_length key b mic w raw w' :
  encryptJoinAccept crypto key b mic w = (Ok raw, w') ->
  length raw = (length b + 4)%nat.
Proof.
  unfold encryptJoinAccept, bind, lift, ret, emit. intros H.
  destruct b as [| b0 b']; [discriminate |].
  destruct (EncryptJoinAccept crypto key _) as [| enc] eqn:He; [discriminate |].
  inversion H; subst.
  apply (EncryptJoinAccept_length _ _ wire) in He.
  destruct mic as [[[m0 m1] m2] m3].
  simpl in *. rewrite length_app in He. simpl in He.
  rewrite drop_0 in He. lia.
Qed.

Lemma issue_length ver req dev appKey pld raw jn b w resp w' :
  issue crypto ver req dev appKey pld raw jn b w = (Ok resp, w') ->
  length (Resp_RawPayload resp) = (length b + 4)%nat.
Proof.
  unfold issue, bind, lift, ret. intros H.
  destruct ver; try discriminate.
  1-3: destruct (checkMIC crypto appKey raw w) as [[[e |] | |] w1]; try discriminate;
       destruct (emit _ w1) as [[[] | |] w2]; try discriminate;
       destruct (ComputeLegacyJoinAcceptMIC crypto appKey b) as [| mic]; try discriminate;
       destruct (encryptJoinAccept crypto appKey b mic w2) as [[p | |] w3] eqn:He;
       try discriminate; inversion H; subst; simpl;
       eapply encryptJoinAccept_length; eauto.
  destruct (GetNwkKey (RootKeys_ dev)) as [ke |]; [| discriminate].
  destruct (Key ke) as [nwkKey |]; [| discriminate].
  destruct (AES128Key_IsZero nwkKey); [discriminate |].
  destruct (checkMIC crypto nwkKey raw w) as [[[e |] | |] w1]; try discriminate.
  destruct (emit _ w1) as [[[] | |] w2]; try discriminate.
  destruct (ComputeJoinAcceptMIC crypto _ _ _ _ b) as [| mic]; try discriminate.
  destruct (encryptJoinAccept crypto nwkKey b mic w2) as [[p | |] w3] eqn:He;
    try discriminate.
  inversion H; subst; simpl. eapply encryptJoinAccept_length; eauto.
Qed.

(** C9: with the wire lengths of the spec, the raw Join-Accept of a
    successful join is 17 bytes when the request has no CFList and 33 when
    it has one. *)
Theorem HandleJoin_raw_payload_length ctx ora req w resp w' :
  HandleJoin crypto codec js ctx ora req w = (Ok resp, w') ->
  length (Resp_RawPayload resp)
  = match Req_CFList req with None => 17%nat | Some _ => 33%nat end.
Proof.
  intros H. apply HandleJoin_cases in H as [[Hno _] | H]; [discriminate |].
  destruct H as (ver & devAddr & msg & pld & raw & i & dev & appKey & jn & b
                 & dev1 & resp' & w1 & Hr & Hp & Hf & Ha & Hb & Hn & Hi & Hc).
  inversion Hr; subst resp'.
  apply issue_length in Hi. apply buildJoinAccept_length in Hb.
  rewrite Hi, Hb. destruct (Req_CFList req); reflexivity.
Qed.

End Lengths.

(** ** The DevNonce counter of version 1.1 *)

(** With the counter at [2^32 - 1] every 16-bit DevNonce is below it: the
    first test of the 1.1 branch answers, and it answers TooSmall. *)
Lemma checkDevNonce_saturated n dev :
  DisableJoinNonceCheck dev = false ->
  NextDevNonce dev = MaxUint32 ->
  checkDevNonce MAC_V1_1 (LittleEndian_Uint16 n) dev = Err ErrDevNonceTooSmall.
Proof.
  intros Hflag Hmax. unfold checkDevNonce. rewrite Hflag, Hmax. simpl.
  pose proof (LittleEndian_Uint16_range n) as Hr.
  destruct (LittleEndian_Uint16 n <? MaxUint32) eqn:Hlt; [reflexivity |].
  apply Z.ltb_ge in Hlt. unfold MaxUint32 in Hlt. lia.
Qed.

(** The replay check never answers TooHigh. *)
Lemma checkDevNonce_never_TooHigh ver n dev :
  checkDevNonce ver (LittleEndian_Uint16 n) dev <> Err ErrDevNonceTooHigh.
Proof.
  unfold checkDevNonce.
  pose proof (LittleEndian_Uint16_range n) as Hr.
  destruct (negb (DisableJoinNonceCheck dev)); [| discriminate].
  destruct ver; try discriminate;
    try (destruct (existsb _ _); discriminate).
  destruct (LittleEndian_Uint16 n <? NextDevNonce dev) eqn:Hlt; [discriminate |].
  destruct (NextDevNonce dev =? MaxUint32) eqn:Hmax; [| discriminate].
  apply Z.ltb_ge in Hlt. apply Z.eqb_eq in Hmax. unfold MaxUint32 in Hmax. lia.
Qed.

(** Below [0xFFFF] the sixteen-bit [dn + 1] is the successor. *)
Lemma uint16_succ dn : 0 <= dn < 65535 -> uint16 (dn + 1) = dn + 1.
Proof. intros H. unfold uint16. apply Z.mod_small. lia. Qed.

Section Monotone.

Context (crypto : Crypto) (codec : Codec) (js : JoinServer).

Lemma joinTarget_range reg req i dn :
  joinTarget codec reg req = Some (i, dn) -> 0 <= dn < 65536.
Proof.
  unfold joinTarget. intros H.
  destruct (parseRequest codec req) as [[[[[ver devAddr] msg] pld] raw] | |];
    try discriminate.
  destruct (FindByIdentifiers reg (joinIdentifiers pld)) as [[j d] | |];
    try discriminate.
  inversion H; subst. apply LittleEndian_Uint16_range.
Qed.

(** One call, seen from slot [i] of a registry that stores: either it got
    a DevNonce accepted there on the 1.1 path, and the counter is now the
    sixteen-bit successor of that DevNonce, or the counter is as before. *)
Lemma runCall_slot i c w dev :
  registry w !! i = Some dev ->
  DisableJoinNonceCheck dev = false ->
  storeError (call_oracle c) = None ->
  (exists dn dev',
      acceptedBy crypto codec js i c w = [dn]
      /\ 0 <= dn < 65536
      /\ NextDevNonce dev <= dn
      /\ registry (snd (runCall crypto codec js c w)) !! i = Some dev'
      /\ NextDevNonce dev' = uint16 (dn + 1)
      /\ DisableJoinNonceCheck dev' = false)
  \/ (acceptedBy crypto codec js i c w = []
      /\ exists dev',
           registry (snd (runCall crypto codec js c w)) !! i = Some dev'
           /\ NextDevNonce dev' = NextDevNonce dev
           /\ DisableJoinNonceCheck dev' = false).
Proof.
  intros Hl Hflag Hs. unfold acceptedBy.
  destruct (runCall crypto codec js c w) as [r w'] eqn:Hrun. simpl.
  unfold runCall in Hrun.
  destruct r as [resp | e | m].
  2,3: right; split; [reflexivity |];
       apply HandleJoin_cases in Hrun as [[_ [Hreg _]] | Hrun];
       [ exists dev; rewrite Hreg; auto
       | destruct Hrun as (? & ? & ? & ? & ? & ? & ? & ? & ? & ? & ? & ? & ? & Hr & _);
         discriminate ].
  destruct (HandleJoin_stored _ _ _ _ _ _ _ _ _ Hrun Hs)
    as (devAddr & j & dn & dev0 & dev1 & Hd & Ht & Hl0 & Hn & Hl' & Hother).
  rewrite Ht.
  destruct (decide (j = i)) as [-> | Hne].
  2: { rewrite bool_decide_eq_false_2 by exact Hne. simpl.
       right. split; [reflexivity |]. exists dev.
       rewrite Hother by auto. auto. }
  rewrite bool_decide_eq_true_2 by reflexivity. simpl.
  rewrite Hl in Hl0. inversion Hl0; subst dev0.
  apply checkDevNonce_Ok in Hn as [[-> [Hc | Hv]] | (-> & Hv & _ & Hle)].
  - congruence.
  - rewrite bool_decide_eq_false_2 by exact Hv.
    right. split; [reflexivity |]. eexists. split; [exact Hl' |]. auto.
  - rewrite bool_decide_eq_true_2 by exact Hv.
    left. exists dn. eexists. split; [reflexivity |].
    split; [eapply joinTarget_range; eauto |].
    split; [exact Hle |]. split; [exact Hl' |]. auto.
Qed.

(** The invariant behind C1: over calls that store, the DevNonces
    accepted for a slot on the 1.1 path grow, stay at or above the counter
    they started from and below the counter they end with. *)
Lemma accepted_DevNonces_bounds i calls : forall w dev,
  registry w !! i = Some dev ->
  DisableJoinNonceCheck dev = false ->
  Forall (fun c => storeError (call_oracle c) = None) calls ->
  Forall (fun dn => dn < 65535) (acceptedDevNonces crypto codec js i w calls) ->
  StronglySorted Z.lt (acceptedDevNonces crypto codec js i w calls)
  /\ Forall (fun dn => NextDevNonce dev <= dn)
            (acceptedDevNonces crypto codec js i w calls)
  /\ exists dev',
       registry (runCalls crypto codec js w calls) !! i = Some dev'
       /\ NextDevNonce dev <= NextDevNonce dev'
       /\ Forall (fun dn => dn < NextDevNonce dev')
                 (acceptedDevNonces crypto codec js i w calls).
Proof.
  induction calls as [| c cs IH]; intros w dev Hl Hflag Hstore Hsmall; simpl in *.
  { split; [constructor |]. split; [constructor |].
    exists dev. split; [exact Hl |]. split; [lia | constructor]. }
  inversion Hstore as [| ? ? Hs Hstore']; subst.
  apply Forall_app in Hsmall as [Hsmall1 Hsmall2].
  destruct (runCall_slot i c w dev Hl Hflag Hs)
    as [(dn & dev1 & Hacc & Hrange & Hle & Hl1 & Hnext & Hflag1)
       | (Hacc & dev1 & Hl1 & Hnext & Hflag1)];
    rewrite Hacc in *; simpl.
  - inversion Hsmall1 as [| ? ? Hdn _]; subst.
    rewrite uint16_succ in Hnext by lia.
    destruct (IH _ _ Hl1 Hflag1 Hstore' Hsmall2) as (Hsorted & Hlow & dev' & Hl' & Hmono & Hup).
    rewrite Hnext in Hlow, Hmono.
    split.
    { constructor; [exact Hsorted |].
      eapply Forall_impl; [exact Hlow |]. simpl. intros; lia. }
    split.
    { constructor; [exact Hle |].
      eapply Forall_impl; [exact Hlow |]. simpl. intros; lia. }
    exists dev'. split; [exact Hl' |]. split; [lia |].
    constructor; [lia | exact Hup].
  - destruct (IH _ _ Hl1 Hflag1 Hstore' Hsmall2) as (Hsorted & Hlow & dev' & Hl' & Hmono & Hup).
    rewrite Hnext in Hlow, Hmono.
    split; [exact Hsorted |]. split; [exact Hlow |].
    exists dev'. auto.
Qed.

(** C1, as amended: for a device with the join-nonce check enabled, over
    any sequence of calls in which every [Store] succeeds and every DevNonce
    accepted with selected version 1.1 is below [0xFFFF] (none of them is
    [0xFFFF]), the DevNonces accepted with selected version 1.1 are strictly
    increasing, and the persisted [next_dev_nonce] ends strictly above each
    of them. *)
Theorem accepted_DevNonces_increase i calls w dev :
  registry w !! i = Some dev ->
  DisableJoinNonceCheck dev = false ->
  Forall (fun c => storeError (call_oracle c) = None) calls ->
  Forall (fun dn => dn < 65535) (acceptedDevNonces crypto codec js i w calls) ->
  StronglySorted Z.lt (acceptedDevNonces crypto codec js i w calls)
  /\ exists dev',
       registry (runCalls crypto codec js w calls) !! i = Some dev'
       /\ Forall (fun dn => dn < NextDevNonce dev')
                 (acceptedDevNonces crypto codec js i w calls).
Proof.
  intros Hl Hflag Hstore Hsmall.
  destruct (accepted_DevNonces_bounds i calls w dev Hl Hflag Hstore Hsmall)
    as (Hsorted & _ & dev' & Hl' & _ & Hup).
  split; [exact Hsorted |]. exists dev'. auto.
Qed.

End Monotone.

Section Saturation.

Context (crypto : Crypto) (codec : Codec) (js : JoinServer).

(** A 1.1 join that reaches the replay check with the counter at
    [2^32 - 1] is refused with DevNonceTooSmall. *)
Lemma HandleJoin_saturated ctx ora req w devAddr msg pld raw i dev appKey jn b :
  parseRequest codec req = Ok (MAC_V1_1, devAddr, msg, pld, raw) ->
  FindByIdentifiers (registry w) (joinIdentifiers pld) = Ok (i, dev) ->
  authorize js ctx MAC_V1_1 pld dev = Ok appKey ->
  buildJoinAccept codec req msg devAddr dev = Ok (jn, b) ->
  DisableJoinNonceCheck dev = false ->
  NextDevNonce dev = MaxUint32 ->
  HandleJoin crypto codec js ctx ora req w = (Err ErrDevNonceTooSmall, w).
Proof.
  intros Hp Hf Ha Hb Hflag Hmax.
  unfold HandleJoin, bind, lift, getRegistry.
  rewrite Hp, Hf, Ha, Hb, (checkDevNonce_saturated _ _ Hflag Hmax). reflexivity.
Qed.

Lemma parseRequest_not_TooHigh req :
  parseRequest codec req <> Err ErrDevNonceTooHigh.
Proof.
  unfold parseRequest.
  destruct (negb _); [discriminate |].
  destruct (Ids_DevAddr (Req_Ids req)) as [a |]; [| discriminate].
  unfold obind.
  destruct (match Message_Payload_ (Payload req) with
            | Some _ => _ | None => _ end) as [m | e | s] eqn:Hm.
  - destruct (negb (bool_decide (GetMajor m = LORAWAN_R1))); [discriminate |].
    destruct (negb (bool_decide (GetMType m = JOIN_REQUEST))); [discriminate |].
    destruct (GetJoinRequestPayload m) as [p |]; [| discriminate].
    destruct (EUI64_IsZero (JRP_DevEUI p)); [discriminate |].
    destruct (EUI64_IsZero (JRP_JoinEUI p)); [discriminate |].
    destruct (RawPayload req); [discriminate |].
    destruct (MarshalLoRaWAN codec m); discriminate.
  - destruct (Message_Payload_ (Payload req)); [discriminate |].
    destruct (RawPayload req) as [raw |]; [| inversion Hm; discriminate].
    destruct (UnmarshalLoRaWAN codec raw); inversion Hm; discriminate.
  - discriminate.
Qed.

Lemma encryptJoinAccept_not_TooHigh key b mic w w' :
  encryptJoinAccept crypto key b mic w <> (Err ErrDevNonceTooHigh, w').
Proof.
  unfold encryptJoinAccept, bind, lift, ret, emit.
  destruct b as [| b0 b']; [discriminate |].
  destruct (EncryptJoinAccept crypto key _); discriminate.
Qed.

Lemma issue_not_TooHigh ver req dev appKey pld raw jn b w w' :
  issue crypto ver req dev appKey pld raw jn b w <> (Err ErrDevNonceTooHigh, w').
Proof.
  unfold issue, bind, lift, ret. intros H.
  destruct ver; try discriminate.
  1-3: destruct (checkMIC crypto appKey raw w) as [r1 w1] eqn:Hc;
       apply checkMIC_world in Hc as [_ [e ->]];
       destruct e as [e |]; [discriminate |];
       destruct (emit _ w1) as [[[] | |] w2] eqn:He; try (unfold emit in He; discriminate);
       destruct (ComputeLegacyJoinAcceptMIC crypto appKey b) as [| mic]; [discriminate |];
       destruct (encryptJoinAccept crypto appKey b mic w2) as [[p | e |] w3] eqn:Henc;
       try discriminate; inversion H; subst;
       eapply encryptJoinAccept_not_TooHigh; eauto.
  destruct (GetNwkKey (RootKeys_ dev)) as [ke |]; [| discriminate].
  destruct (Key ke) as [nwkKey |]; [| discriminate].
  destruct (AES128Key_IsZero nwkKey); [discriminate |].
  destruct (checkMIC crypto nwkKey raw w) as [r1 w1] eqn:Hc.
  apply checkMIC_world in Hc as [_ [e ->]].
  destruct e as [e |]; [discriminate |].
  destruct (emit _ w1) as [[[] | |] w2] eqn:He; try (unfold emit in He; discriminate).
  destruct (ComputeJoinAcceptMIC crypto _ _ _ _ b) as [| mic]; [discriminate |].
  destruct (encryptJoinAccept crypto nwkKey b mic w2) as [[p | e |] w3] eqn:Henc;
    try discriminate.
  inversion H; subst. eapply encryptJoinAccept_not_TooHigh; eauto.
Qed.

(** [HandleJoin] never returns DevNonceTooHigh: lines 250-252 are dead. *)
Lemma HandleJoin_never_TooHigh ctx ora req w w' :
  HandleJoin crypto codec js ctx ora req w <> (Err ErrDevNonceTooHigh, w').
Proof.
  unfold HandleJoin. unfold bind at 1. unfold lift at 1.
  pose proof (parseRequest_not_TooHigh req) as Hp.
  destruct (parseRequest codec req) as [[[[[ver devAddr] msg] pld] raw] | e | m];
    [| intros H; inversion H; subst; congruence | discriminate].
  unfold bind at 1. unfold getRegistry at 1.
  unfold bind at 1. unfold lift at 1.
  destruct (FindByIdentifiers (registry w) (joinIdentifiers pld)) as [[i dev] | e | m] eqn:Hf;
    [| | discriminate].
  2: { unfold FindByIdentifiers in Hf.
       destruct (findFrom 0 _ _) as [| ? [| ? ?]]; inversion Hf; discriminate. }
  unfold bind at 1. unfold lift at 1.
  destruct (authorize js ctx ver pld dev) as [appKey | e | m] eqn:Ha;
    [| | discriminate].
  2: { unfold authorize in Ha.
       repeat match type of Ha with
              | context [match ?x with _ => _ end] => destruct x
              end; inversion Ha; discriminate. }
  unfold bind at 1. unfold lift at 1.
  destruct (buildJoinAccept codec req msg devAddr dev) as [[jn b] | e | m] eqn:Hb;
    [| | discriminate].
  2: { unfold buildJoinAccept in Hb.
       repeat match type of Hb with
              | context [match ?x with _ => _ end] => destruct x
              end; discriminate. }
  unfold bind at 1. unfold lift at 1.
  pose proof (checkDevNonce_never_TooHigh ver (JRP_DevNonce pld) dev) as Hn.
  destruct (checkDevNonce ver (LittleEndian_Uint16 (JRP_DevNonce pld)) dev)
    as [dev1 | e | m];
    [| intros H; inversion H; subst; congruence | discriminate].
  unfold bind at 1.
  destruct (issue crypto ver req dev1 appKey pld raw jn b w) as [[resp | e | m] w1] eqn:Hi;
    [| | discriminate].
  2: { intros H. inversion H; subst. eapply issue_not_TooHigh; eauto. }
  destruct (commit_spec ora i dev1 (LittleEndian_Uint16 (JRP_DevNonce pld))
              devAddr resp w1) as (w2 & Hc & _).
  rewrite Hc. discriminate.
Qed.

End Saturation.

Section KeyRequests.

Context (crypto : Crypto) (codec : Codec).

(** C8: a well-formed [GetAppSKey] request from the device's Application
    Server fails with NoSession without a session, with
    SessionKeyIDMismatch when neither the session nor the fallback has the
    requested identifier, with AppSKeyEnvelopeNotFound when the session it
    is answered from has no AppSKey envelope, and returns that envelope
    otherwise. *)
Theorem GetAppSKey_selects_session ctx req w i dev :
  SKR_DevEUI req <> 0 ->
  SKR_SessionKeyID req <> "" ->
  FindByIdentifiers (registry w) (sessionKeyIdentifiers req) = Ok (i, dev) ->
  NetAddress ctx = ApplicationServerAddress dev ->
  (Session_ dev = None ->
   GetAppSKey ctx req w = (Err ErrNoSession, w))
  /\ (forall cur,
        Session_ dev = Some cur ->
        SessionKeyID (Session_Keys cur) <> SKR_SessionKeyID req ->
        SessionFallback dev = None
        \/ (exists f, SessionFallback dev = Some f
                      /\ SessionKeyID (Session_Keys f) <> SKR_SessionKeyID req) ->
        GetAppSKey ctx req w = (Err ErrSessionKeyIDMismatch, w))
  /\ (forall s,
        answersFrom dev (SKR_SessionKeyID req) s ->
        AppSKey (Session_Keys s) = None ->
        GetAppSKey ctx req w = (Err ErrAppSKeyEnvelopeNotFound, w))
  /\ (forall s envelope,
        answersFrom dev (SKR_SessionKeyID req) s ->
        AppSKey (Session_Keys s) = Some envelope ->
        GetAppSKey ctx req w = (Ok {| AppSKeyResponse_AppSKey := envelope |}, w)).
Proof.
  intros Heui Hid Hf Haddr.
  assert (Hsel : forall s, answersFrom dev (SKR_SessionKeyID req) s ->
                           selectSession dev (SKR_SessionKeyID req) = Ok s).
  { intros s [[Hs Hk] | (cur & Hs & Hne & Hfb & Hk)]; unfold selectSession; rewrite Hs.
    - rewrite bool_decide_eq_true_2 by exact Hk. reflexivity.
    - rewrite bool_decide_eq_false_2 by exact Hne. simpl. rewrite Hfb.
      rewrite bool_decide_eq_true_2 by exact Hk. reflexivity. }
  assert (Hrun : GetAppSKey ctx req w =
                 (s <- lift (selectSession dev (SKR_SessionKeyID req)) ;;
                  match AppSKey (Session_Keys s) with
                  | None => lift (Err ErrAppSKeyEnvelopeNotFound)
                  | Some appSKey => ret {| AppSKeyResponse_AppSKey := appSKey |}
                  end) w).
  { unfold GetAppSKey, EUI64_IsZero.
    rewrite bool_decide_eq_false_2 by exact Heui.
    rewrite bool_decide_eq_false_2 by exact Hid.
    unfold bind at 1. unfold getRegistry at 1.
    unfold bind at 1. unfold lift at 1. rewrite Hf. simpl.
    rewrite bool_decide_eq_true_2 by exact Haddr. reflexivity. }
  rewrite Hrun. unfold bind, lift, ret.
  split; [| split; [| split]].
  - intros Hs. unfold selectSession. rewrite Hs. reflexivity.
  - intros cur Hs Hne Hfb. unfold selectSession. rewrite Hs.
    rewrite bool_decide_eq_false_2 by exact Hne. simpl.
    destruct Hfb as [-> | (f & -> & Hnf)]; [reflexivity |].
    rewrite bool_decide_eq_false_2 by exact Hnf. reflexivity.
  - intros s Hs Hk. rewrite (Hsel s Hs), Hk. reflexivity.
  - intros s k Hs Hk. rewrite (Hsel s Hs), Hk. reflexivity.
Qed.

End KeyRequests.

(** ** The model on concrete joins *)

Lemma le_bytes_length n : forall v, length (Test.le_bytes n v) = n.
Proof. induction n as [| n IH]; intros v; simpl; [| rewrite IH]; reflexivity. Qed.

Lemma xor_key_length p : forall key, length (Test.xor_key key p) = length p.
Proof.
  induction p as [| b p IH]; intros key; [destruct key; reflexivity |].
  destruct key; simpl; rewrite IH; reflexivity.
Qed.

Lemma cflist_bytes_length c : length (Test.cflist_bytes c) = 16%nat.
Proof.
  unfold Test.cflist_bytes.
  rewrite length_app, length_take, length_app, repeat_length.
  rewrite Nat.min_l by lia. reflexivity.
Qed.

(** The stand-in codec and cipher have the wire lengths of the spec. *)
Lemma Test_wire : WireLengths Test.crypto Test.codec.
Proof.
  constructor.
  - intros h dst b H. simpl in H. inversion H; subst.
    rewrite length_app. reflexivity.
  - intros p dst b H. simpl in H. unfold Test.append_join_accept in H.
    destruct (JAP_JoinNonce p) as [[j0 j1] j2]. inversion H; subst.
    repeat rewrite length_app. repeat rewrite le_bytes_length. simpl.
    destruct (JAP_CFList p) as [c |]; [rewrite cflist_bytes_length |]; simpl; lia.
  - intros k p c H. simpl in H. unfold Test.encrypt in H.
    destruct (_ || _); [| discriminate]. inversion H; subst.
    apply xor_key_length.
Qed.

(** Splits a goal [exists resp w', run = (Ok resp, w') /\ _] on a concrete
    run that returns a response. *)
Ltac returns_response H :=
  match goal with
  | |- exists resp w', ?run = (Ok resp, w') /\ _ =>
      let r := fresh "r" in
      let w' := fresh "w'" in
      let Hok := fresh "Hok" in
      destruct run as [r w'] eqn:H;
      assert (Hok : is_Ok r = true)
        by (change r with (fst (r, w')); rewrite <- H; vm_compute; reflexivity);
      destruct r as [? | ? | ?]; try discriminate Hok;
      do 2 eexists; split; [reflexivity |]
  end.

(** C1, a run the amended claim applies to: DevNonces 5 and 7 in turn. *)
Lemma accepted_DevNonces_increase_witness :
  acceptedDevNonces Test.crypto Test.codec Test.js 0
    (Test.world [Test.device MAC_V1_1])
    [Test.call (Test.storing 1) (Test.join11 (x05, x00));
     Test.call (Test.storing 2) (Test.join11 (x07, x00))] = [5; 7]
  /\ StronglySorted Z.lt
       (acceptedDevNonces Test.crypto Test.codec Test.js 0
          (Test.world [Test.device MAC_V1_1])
          [Test.call (Test.storing 1) (Test.join11 (x05, x00));
           Test.call (Test.storing 2) (Test.join11 (x07, x00))])
  /\ exists dev',
       registry (runCalls Test.crypto Test.codec Test.js
                   (Test.world [Test.device MAC_V1_1])
                   [Test.call (Test.storing 1) (Test.join11 (x05, x00));
                    Test.call (Test.storing 2) (Test.join11 (x07, x00))])
         !! 0%nat = Some dev'
       /\ Forall (fun dn => dn < NextDevNonce dev')
            (acceptedDevNonces Test.crypto Test.codec Test.js 0
               (Test.world [Test.device MAC_V1_1])
               [Test.call (Test.storing 1) (Test.join11 (x05, x00));
                Test.call (Test.storing 2) (Test.join11 (x07, x00))]).
Proof.
  assert (E : acceptedDevNonces Test.crypto Test.codec Test.js 0
                (Test.world [Test.device MAC_V1_1])
                [Test.call (Test.storing 1) (Test.join11 (x05, x00));
                 Test.call (Test.storing 2) (Test.join11 (x07, x00))] = [5; 7])
    by (vm_compute; reflexivity).
  split; [exact E |].
  apply (accepted_DevNonces_increase Test.crypto Test.codec Test.js 0%nat _ _
           (Test.device MAC_V1_1)).
  - reflexivity.
  - reflexivity.
  - repeat constructor.
  - rewrite E. repeat constructor.
Defined.

(** C1 as stated fails: when [Store] fails after the first join, the same
    DevNonce is accepted again, so the accepted DevNonces are 5 and 5. *)
Lemma accepted_DevNonces_repeat_after_failed_store :
  ~ StronglySorted Z.lt
      (acceptedDevNonces Test.crypto Test.codec Test.js 0
         (Test.world [Test.device MAC_V1_1])
         [Test.call (Test.failing 1) (Test.join11 (x05, x00));
          Test.call (Test.storing 2) (Test.join11 (x05, x00))]).
Proof.
  assert (E : acceptedDevNonces Test.crypto Test.codec Test.js 0
                (Test.world [Test.device MAC_V1_1])
                [Test.call (Test.failing 1) (Test.join11 (x05, x00));
                 Test.call (Test.storing 2) (Test.join11 (x05, x00))] = [5; 5])
    by (vm_compute; reflexivity).
  rewrite E. intros H. inversion H as [| ? ? _ Hall]; subst.
  inversion Hall; subst. lia.
Qed.

(** The sixteen-bit [dn + 1]: after DevNonce [0xFFFF] is accepted the
    stored counter is 0, and DevNonce 0 is accepted next. *)
Lemma accepted_DevNonces_after_0xFFFF :
  acceptedDevNonces Test.crypto Test.codec Test.js 0
    (Test.world [Test.device MAC_V1_1])
    [Test.call (Test.storing 1) (Test.join11 (xff, xff));
     Test.call (Test.storing 2) (Test.join11 (x00, x00))] = [65535; 0]
  /\ NextDevNonce
       <$> registry (snd (Test.handleJoin Test.ns (Test.storing 1)
                            (Test.join11 (xff, xff))
                            (Test.world [Test.device MAC_V1_1]))) !! 0%nat
     = Some 0.
Proof. split; vm_compute; reflexivity. Qed.

(** C2 on the code: with the counter at [2^32 - 1] a 1.1 join is refused
    with DevNonceTooSmall, not DevNonceTooHigh. *)
Lemma HandleJoin_saturated_counter_TooSmall :
  fst (Test.handleJoin Test.ns (Test.storing 1) (Test.join11 (xff, xff))
         (Test.world [Test.deviceWith MAC_V1_1 MaxUint32 [] false None None]))
  = Err ErrDevNonceTooSmall.
Proof. vm_compute. reflexivity. Qed.

(** C3 as stated fails: the device had a session, the join succeeded and
    was stored, and the fallback of the stored record is not the previous
    session. *)
Lemma HandleJoin_drops_previous_session :
  Session_ Test.joined = Some (Test.session "first" 10 (Some (Test.envelope x11)))
  /\ exists resp w' dev',
       Test.handleJoin Test.ns (Test.storing 100) (Test.join11 (x05, x00))
         (Test.world [Test.joined]) = (Ok resp, w')
       /\ registry w' !! 0%nat = Some dev'
       /\ SessionFallback dev'
          <> Some (Test.session "first" 10 (Some (Test.envelope x11))).
Proof.
  split; [reflexivity |].
  do 3 eexists. split; [vm_compute; reflexivity |].
  split; [reflexivity |]. discriminate.
Qed.

Lemma HandleJoin_installs_session_keeps_fallback_witness :
  exists resp w',
    Test.handleJoin Test.ns (Test.storing 100) (Test.join11 (x05, x00))
      (Test.world [Test.joined]) = (Ok resp, w')
    /\ exists devAddr i dn dev dev',
         Ids_DevAddr (Req_Ids (Test.join11 (x05, x00))) = Some devAddr
         /\ joinTarget Test.codec (registry (Test.world [Test.joined]))
              (Test.join11 (x05, x00)) = Some (i, dn)
         /\ registry (Test.world [Test.joined]) !! i = Some dev
         /\ registry w' !! i = Some dev'
         /\ Session_ dev' = Some {| StartedAt := now (Test.storing 100);
                                    Session_DevAddr := devAddr;
                                    Session_Keys := Resp_SessionKeys resp |}
         /\ SessionFallback dev' = SessionFallback dev.
Proof.
  returns_response H.
  exact (HandleJoin_installs_session_keeps_fallback Test.crypto Test.codec Test.js
           _ _ _ _ _ _ H eq_refl).
Defined.

(** C4 as stated fails: after a stored 1.1 join [used_dev_nonces] holds
    the DevNonce. *)
Lemma HandleJoin_v1_1_appends_DevNonce :
  exists resp w' dev',
    Test.handleJoin Test.ns (Test.storing 100) (Test.join11 (x05, x00))
      (Test.world [Test.device MAC_V1_1]) = (Ok resp, w')
    /\ registry w' !! 0%nat = Some dev'
    /\ UsedDevNonces dev' <> UsedDevNonces (Test.device MAC_V1_1).
Proof.
  do 3 eexists. split; [vm_compute; reflexivity |].
  split; [reflexivity |]. discriminate.
Qed.

Lemma HandleJoin_appends_DevNonce_witness :
  exists resp w',
    Test.handleJoin Test.ns (Test.storing 100) (Test.join11 (x05, x00))
      (Test.world [Test.device MAC_V1_1]) = (Ok resp, w')
    /\ exists i dn dev dev',
         joinTarget Test.codec (registry (Test.world [Test.device MAC_V1_1]))
           (Test.join11 (x05, x00)) = Some (i, dn)
         /\ registry (Test.world [Test.device MAC_V1_1]) !! i = Some dev
         /\ registry w' !! i = Some dev'
         /\ UsedDevNonces dev' = UsedDevNonces dev ++ [dn].
Proof.
  returns_response H.
  exact (HandleJoin_appends_DevNonce Test.crypto Test.codec Test.js
           _ _ _ _ _ _ H eq_refl).
Defined.

Lemma HandleJoin_error_keeps_registry_witness :
  is_Ok (fst (Test.handleJoin Test.ns (Test.storing 100)
                (Test.request MAC_V1_1 (Test.key16 x0a) (x05, x00) None)
                (Test.world [Test.device MAC_V1_1]))) = false
  /\ registry (snd (Test.handleJoin Test.ns (Test.storing 100)
                      (Test.request MAC_V1_1 (Test.key16 x0a) (x05, x00) None)
                      (Test.world [Test.device MAC_V1_1])))
     = registry (Test.world [Test.device MAC_V1_1])
  /\ forallb notStore
       (newEvents (Test.world [Test.device MAC_V1_1])
          (snd (Test.handleJoin Test.ns (Test.storing 100)
                  (Test.request MAC_V1_1 (Test.key16 x0a) (x05, x00) None)
                  (Test.world [Test.device MAC_V1_1])))) = true.
Proof.
  split; [vm_compute; reflexivity |].
  apply (HandleJoin_error_keeps_registry Test.crypto Test.codec Test.js
           Test.ns (Test.storing 100)
           (Test.request MAC_V1_1 (Test.key16 x0a) (x05, x00) None)
           (Test.world [Test.device MAC_V1_1])
           (fst (Test.handleJoin Test.ns (Test.storing 100)
                   (Test.request MAC_V1_1 (Test.key16 x0a) (x05, x00) None)
                   (Test.world [Test.device MAC_V1_1])))).
  - apply surjective_pairing.
  - vm_compute. reflexivity.
Defined.

Lemma HandleJoin_address_mismatch_before_MIC_witness :
  NetAddress Test.stranger <> NetworkServerAddress (Test.device MAC_V1_1)
  /\ exists w',
       HandleJoin Test.crypto Test.codec Test.js Test.stranger (Test.storing 100)
         (Test.join11 (x05, x00)) (Test.world [Test.device MAC_V1_1])
       = (Err (ErrAddressMismatch "Network Server"), w')
       /\ forallb notMICComputation
            (newEvents (Test.world [Test.device MAC_V1_1]) w') = true
       /\ registry w' = registry (Test.world [Test.device MAC_V1_1]).
Proof.
  split; [discriminate |].
  eapply (HandleJoin_address_mismatch_before_MIC Test.crypto Test.codec Test.js
            Test.stranger (Test.storing 100) (Test.join11 (x05, x00))
            (Test.world [Test.device MAC_V1_1])).
  - vm_compute. reflexivity.
  - vm_compute. reflexivity.
  - discriminate.
Defined.

Lemma HandleJoin_store_failure_logged_witness :
  exists resp w1,
    Test.handleJoin Test.ns (Test.storing 100) (Test.join11 (x05, x00))
      (Test.world [Test.device MAC_V1_1]) = (Ok resp, w1)
    /\ exists w2 i dev' evs,
         HandleJoin Test.crypto Test.codec Test.js Test.ns
           {| storeError := Some (ErrExternal "conflict"); now := 100 |}
           (Test.join11 (x05, x00)) (Test.world [Test.device MAC_V1_1])
         = (Ok resp, w2)
         /\ registry w2 = registry (Test.world [Test.device MAC_V1_1])
         /\ trace w2 = trace (Test.world [Test.device MAC_V1_1]) ++ evs
                       ++ [EvStore i dev';
                           EvLogError "Failed to update device"
                             (ErrExternal "conflict")]
         /\ forallb notStore evs = true.
Proof.
  returns_response H.
  exact (HandleJoin_store_failure_logged Test.crypto Test.codec Test.js
           _ _ _ _ _ _ (ErrExternal "conflict") H).
Defined.

Lemma GetAppSKey_selects_session_witness :
  answersFrom Test.rejoined "first"
    (Test.session "first" 10 (Some (Test.envelope x11)))
  /\ GetAppSKey Test.as_ (Test.keyRequest "first") (Test.world [Test.rejoined])
     = (Ok {| AppSKeyResponse_AppSKey := Test.envelope x11 |},
        Test.world [Test.rejoined]).
Proof.
  assert (A : answersFrom Test.rejoined "first"
                (Test.session "first" 10 (Some (Test.envelope x11)))).
  { right. eexists. split; [reflexivity |]. split; [discriminate |].
    split; reflexivity. }
  split; [exact A |].
  destruct (GetAppSKey_selects_session Test.as_ (Test.keyRequest "first")
              (Test.world [Test.rejoined]) 0%nat Test.rejoined)
    as (_ & _ & _ & Hreturns).
  - discriminate.
  - discriminate.
  - vm_compute. reflexivity.
  - reflexivity.
  - apply (Hreturns _ _ A). reflexivity.
Defined.

Lemma HandleJoin_raw_payload_length_witness :
  exists resp w',
    Test.handleJoin Test.ns (Test.storing 100)
      (Test.request MAC_V1_0_2 (Test.key16 x0a) (x05, x00) (Some Test.cflist))
      (Test.world [Test.device MAC_V1_0_2]) = (Ok resp, w')
    /\ length (Resp_RawPayload resp) = 33%nat.
Proof.
  returns_response H.
  exact (HandleJoin_raw_payload_length Test.crypto Test.codec Test.js Test_wire
           _ _ _ _ _ _ H).
Defined.

(** Without a CFList the same join answers with 17 bytes. *)
Lemma HandleJoin_raw_payload_length_17 :
  exists resp w',
    Test.handleJoin Test.ns (Test.storing 100) (Test.join102 (x05, x00))
      (Test.world [Test.device MAC_V1_0_2]) = (Ok resp, w')
    /\ length (Resp_RawPayload resp) = 17%nat.
Proof. do 2 eexists. split; vm_compute; reflexivity. Qed.

Lemma HandleJoin_disabled_check_keeps_NextDevNonce_witness :
  exists resp w',
    Test.handleJoin Test.ns (Test.storing 100) (Test.join11 (x05, x00))
      (Test.world [Test.deviceWith MAC_V1_1 7 [] true None None]) = (Ok resp, w')
    /\ exists dev', registry w' !! 0%nat = Some dev' /\ NextDevNonce dev' = 7.
Proof.
  returns_response H.
  eapply (HandleJoin_disabled_check_keeps_NextDevNonce Test.crypto Test.codec Test.js
            _ _ _ _ _ _ 0%nat 5 (Test.deviceWith MAC_V1_1 7 [] true None None)).
  - exact H.
  - reflexivity.
  - vm_compute. reflexivity.
  - reflexivity.
  - reflexivity.
Defined.

(** ** The JoinNonce counter and the DevNonces of the 1.0.x path *)

Section Legacy.

Context (crypto : Crypto) (codec : Codec) (js : JoinServer).

(** A stored join advances [next_join_nonce] by one, in 32 bits. *)
Theorem HandleJoin_advances_NextJoinNonce ctx ora req w resp w' :
  HandleJoin crypto codec js ctx ora req w = (Ok resp, w') ->
  storeError ora = None ->
  exists i dn dev dev',
    joinTarget codec (registry w) req = Some (i, dn)
    /\ registry w !! i = Some dev
    /\ registry w' !! i = Some dev'
    /\ NextJoinNonce dev' = (NextJoinNonce dev + 1) mod 2 ^ 32.
Proof.
  intros H Hs.
  destruct (HandleJoin_stored _ _ _ _ _ _ _ _ _ H Hs)
    as (devAddr & i & dn & dev & dev1 & Hd & Ht & Hl & Hn & Hl' & _).
  exists i, dn, dev, (with_join dev1 dn (newSession ora devAddr resp)).
  repeat split; auto. simpl.
  apply checkDevNonce_Ok in Hn as [[-> _] | [-> _]]; reflexivity.
Qed.

(** On the 1.0.x path with the check enabled an accepted DevNonce is none
    of the used ones (each read as [uint16]). *)
Lemma checkDevNonce_legacy ver dn dev dev1 :
  checkDevNonce ver dn dev = Ok dev1 ->
  isLegacy ver = true ->
  DisableJoinNonceCheck dev = false ->
  dev1 = dev /\ ~ In dn (map uint16 (UsedDevNonces dev)).
Proof.
  unfold checkDevNonce. intros H Hv Hflag. rewrite Hflag in H. simpl in H.
  destruct ver; try discriminate Hv;
    (destruct (existsb _ _) eqn:He; [discriminate |]; inversion H; subst;
     split; [reflexivity |]; intros Hin;
     apply in_map_iff in Hin as (used & Hu & Hin);
     assert (existsb (fun used => dn =? uint16 used) (UsedDevNonces dev1) = true)
       by (apply existsb_exists; exists used; split;
           [exact Hin | apply Z.eqb_eq; congruence]);
     congruence).
Qed.

(** One call, seen from slot [i] of a registry that stores, on the 1.0.x
    path. *)
Lemma runCall_slot_legacy i c w dev :
  registry w !! i = Some dev ->
  DisableJoinNonceCheck dev = false ->
  storeError (call_oracle c) = None ->
  exists dev' more,
    registry (snd (runCall crypto codec js c w)) !! i = Some dev'
    /\ DisableJoinNonceCheck dev' = false
    /\ UsedDevNonces dev' = UsedDevNonces dev ++ more
    /\ (acceptedLegacyBy crypto codec js i c w = []
        \/ exists dn,
             acceptedLegacyBy crypto codec js i c w = [dn]
             /\ more = [dn]
             /\ 0 <= dn < 65536
             /\ ~ In dn (map uint16 (UsedDevNonces dev))).
Proof.
  intros Hl Hflag Hs. unfold acceptedLegacyBy.
  destruct (runCall crypto codec js c w) as [r w'] eqn:Hrun. simpl.
  unfold runCall in Hrun.
  destruct r as [resp | e | m].
  2,3: exists dev, []; rewrite app_nil_r;
       apply HandleJoin_cases in Hrun as [[_ [Hreg _]] | Hrun];
       [ rewrite Hreg; auto
       | destruct Hrun as (? & ? & ? & ? & ? & ? & ? & ? & ? & ? & ? & ? & ? & Hr & _);
         discriminate ].
  destruct (HandleJoin_stored _ _ _ _ _ _ _ _ _ Hrun Hs)
    as (devAddr & j & dn & dev0 & dev1 & Hd & Ht & Hl0 & Hn & Hl' & Hother).
  rewrite Ht.
  destruct (decide (j = i)) as [-> | Hne].
  2: { rewrite bool_decide_eq_false_2 by exact Hne. simpl.
       exists dev, []. rewrite app_nil_r, Hother by auto. auto. }
  rewrite bool_decide_eq_true_2 by reflexivity. simpl.
  rewrite Hl in Hl0. inversion Hl0; subst dev0.
  exists (with_join dev1 dn (newSession (call_oracle c) devAddr resp)), [dn].
  pose proof (checkDevNonce_keeps _ _ _ _ Hn) as (Hused & _ & _ & Hflag1).
  split; [exact Hl' |]. split; [simpl; congruence |].
  split; [simpl; congruence |].
  destruct (isLegacy (SelectedMacVersion (call_req c))) eqn:Hv; [| auto].
  right. exists dn. split; [reflexivity |]. split; [reflexivity |].
  split; [eapply joinTarget_range; eauto |].
  eapply checkDevNonce_legacy; eauto.
Qed.

Lemma accepted_legacy_fresh i calls : forall w dev,
  registry w !! i = Some dev ->
  DisableJoinNonceCheck dev = false ->
  Forall (fun c => storeError (call_oracle c) = None) calls ->
  NoDup (acceptedLegacyDevNonces crypto codec js i w calls)
  /\ Forall (fun dn => ~ In dn (map uint16 (UsedDevNonces dev)))
            (acceptedLegacyDevNonces crypto codec js i w calls).
Proof.
  induction calls as [| c cs IH]; intros w dev Hl Hflag Hstore; simpl.
  { split; constructor. }
  inversion Hstore as [| ? ? Hs Hstore']; subst.
  destruct (runCall_slot_legacy i c w dev Hl Hflag Hs)
    as (dev' & more & Hl' & Hflag' & Hused & Hacc).
  destruct (IH _ _ Hl' Hflag' Hstore') as [Hnodup Hfresh].
  assert (Hweak : Forall (fun dn => ~ In dn (map uint16 (UsedDevNonces dev)))
                    (acceptedLegacyDevNonces crypto codec js i
                       (snd (runCall crypto codec js c w)) cs)).
  { eapply Forall_impl; [exact Hfresh |]. simpl. intros x Hx Hin. apply Hx.
    rewrite Hused, map_app. apply in_or_app. auto. }
  destruct Hacc as [-> | (dn & -> & -> & Hrange & Hnew)]; simpl; [auto |].
  split.
  - apply NoDup_cons. split; [| exact Hnodup].
    intros Hin. apply list_elem_of_In in Hin.
    rewrite Forall_forall in Hfresh. apply (Hfresh dn).
    + apply list_elem_of_In. exact Hin.
    + rewrite Hused, map_app. apply in_or_app. right. simpl. left.
      unfold uint16. apply Z.mod_small. lia.
  - constructor; auto.
Qed.

(** For a device with the join-nonce check enabled, over calls whose
    [Store] succeeds, no DevNonce is accepted twice on the 1.0, 1.0.1 and
    1.0.2 path. *)
Theorem accepted_legacy_DevNonces_unique i calls w dev :
  registry w !! i = Some dev ->
  DisableJoinNonceCheck dev = false ->
  Forall (fun c => storeError (call_oracle c) = None) calls ->
  NoDup (acceptedLegacyDevNonces crypto codec js i w calls).
Proof.
  intros Hl Hflag Hstore.
  exact (proj1 (accepted_legacy_fresh i calls w dev Hl Hflag Hstore)).
Qed.

End Legacy.

Lemma HandleJoin_advances_NextJoinNonce_witness :
  exists resp w',
    Test.handleJoin Test.ns (Test.storing 100) (Test.join102 (x05, x00))
      (Test.world [Test.device MAC_V1_0_2]) = (Ok resp, w')
    /\ exists i dn dev dev',
         joinTarget Test.codec (registry (Test.world [Test.device MAC_V1_0_2]))
           (Test.join102 (x05, x00)) = Some (i, dn)
         /\ registry (Test.world [Test.device MAC_V1_0_2]) !! i = Some dev
         /\ registry w' !! i = Some dev'
         /\ NextJoinNonce dev' = (NextJoinNonce dev + 1) mod 2 ^ 32.
Proof.
  returns_response H.
  exact (HandleJoin_advances_NextJoinNonce Test.crypto Test.codec Test.js
           _ _ _ _ _ _ H eq_refl).
Defined.

Lemma accepted_legacy_DevNonces_unique_witness :
  acceptedLegacyDevNonces Test.crypto Test.codec Test.js 0
    (Test.world [Test.device MAC_V1_0_2])
    [Test.call (Test.storing 1) (Test.join102 (x05, x00));
     Test.call (Test.storing 2) (Test.join102 (x05, x00));
     Test.call (Test.storing 3) (Test.join102 (x06, x00))] = [5; 6]
  /\ NoDup (acceptedLegacyDevNonces Test.crypto Test.codec Test.js 0
              (Test.world [Test.device MAC_V1_0_2])
              [Test.call (Test.storing 1) (Test.join102 (x05, x00));
               Test.call (Test.storing 2) (Test.join102 (x05, x00));
               Test.call (Test.storing 3) (Test.join102 (x06, x00))]).
Proof.
  split; [vm_compute; reflexivity |].
  apply (accepted_legacy_DevNonces_unique Test.crypto Test.codec Test.js 0%nat _ _
           (Test.device MAC_V1_0_2)).
  - reflexivity.
  - reflexivity.
  - repeat constructor.
Defined.

(** [GetNwkSKeys]: the caller is checked against the device's
    [network_server_address], the session is selected as for [GetAppSKey],
    and the three network key envelopes are asked for in the order
    NwkSEncKey, FNwkSIntKey, SNwkSIntKey. *)
Theorem GetNwkSKeys_selects_session ctx req w i dev :
  SKR_DevEUI req <> 0 ->
  SKR_SessionKeyID req <> "" ->
  FindByIdentifiers (registry w) (sessionKeyIdentifiers req) = Ok (i, dev) ->
  (NetAddress ctx <> NetworkServerAddress dev ->
   GetNwkSKeys ctx req w = (Err (ErrAddressMismatch "Network Server"), w))
  /\ (NetAddress ctx = NetworkServerAddress dev ->
      (Session_ dev = None -> GetNwkSKeys ctx req w = (Err ErrNoSession, w))
      /\ forall s,
           answersFrom dev (SKR_SessionKeyID req) s ->
           GetNwkSKeys ctx req w =
           (match NwkSEncKey (Session_Keys s), FNwkSIntKey (Session_Keys s),
                  SNwkSIntKey (Session_Keys s) with
            | None, _, _ => Err ErrNwkSEncKeyEnvelopeNotFound
            | Some _, None, _ => Err ErrFNwkSIntKeyEnvelopeNotFound
            | Some _, Some _, None => Err ErrSNwkSIntKeyEnvelopeNotFound
            | Some e, Some f, Some s' =>
                Ok {| NwkSKeysResponse_NwkSEncKey := e;
                      NwkSKeysResponse_FNwkSIntKey := f;
                      NwkSKeysResponse_SNwkSIntKey := s' |}
            end, w)).
Proof.
  intros Heui Hid Hf.
  assert (Hsel : forall s, answersFrom dev (SKR_SessionKeyID req) s ->
                           selectSession dev (SKR_SessionKeyID req) = Ok s).
  { intros s [[Hs Hk] | (cur & Hs & Hne & Hfb & Hk)]; unfold selectSession; rewrite Hs.
    - rewrite bool_decide_eq_true_2 by exact Hk. reflexivity.
    - rewrite bool_decide_eq_false_2 by exact Hne. simpl. rewrite Hfb.
      rewrite bool_decide_eq_true_2 by exact Hk. reflexivity. }
  assert (Hrun : GetNwkSKeys ctx req w =
                 (if negb (bool_decide (NetAddress ctx = NetworkServerAddress dev))
                  then (Err (ErrAddressMismatch "Network Server"), w)
                  else
                    match selectSession dev (SKR_SessionKeyID req) with
                    | Ok s =>
                        (match NwkSEncKey (Session_Keys s),
                               FNwkSIntKey (Session_Keys s),
                               SNwkSIntKey (Session_Keys s) with
                         | None, _, _ => Err ErrNwkSEncKeyEnvelopeNotFound
                         | Some _, None, _ => Err ErrFNwkSIntKeyEnvelopeNotFound
                         | Some _, Some _, None => Err ErrSNwkSIntKeyEnvelopeNotFound
                         | Some e, Some f, Some s' =>
                             Ok {| NwkSKeysResponse_NwkSEncKey := e;
                                   NwkSKeysResponse_FNwkSIntKey := f;
                                   NwkSKeysResponse_SNwkSIntKey := s' |}
                         end, w)
                    | Err e => (Err e, w)
                    | Panic m => (Panic m, w)
                    end)).
  { unfold GetNwkSKeys, EUI64_IsZero.
    rewrite bool_decide_eq_false_2 by exact Heui.
    rewrite bool_decide_eq_false_2 by exact Hid.
    unfold bind at 1. unfold getRegistry at 1.
    unfold bind at 1. unfold lift at 1. rewrite Hf. simpl.
    destruct (negb (bool_decide (NetAddress ctx = NetworkServerAddress dev)));
      [reflexivity |].
    unfold bind, lift, ret.
    destruct (selectSession dev (SKR_SessionKeyID req)) as [s | |]; try reflexivity.
    destruct (NwkSEncKey (Session_Keys s)), (FNwkSIntKey (Session_Keys s)),
      (SNwkSIntKey (Session_Keys s)); reflexivity. }
  rewrite Hrun. split.
  - intros Hne. rewrite bool_decide_eq_false_2 by exact Hne. reflexivity.
  - intros Heq. rewrite bool_decide_eq_true_2 by exact Heq. simpl. split.
    + intros Hs. unfold selectSession. rewrite Hs. reflexivity.
    + intros s Hs. rewrite (Hsel s Hs). reflexivity.
Qed.

Lemma GetNwkSKeys_selects_session_witness :
  NetAddress Test.as_ <> NetworkServerAddress Test.rejoined
  /\ GetNwkSKeys Test.as_ (Test.keyRequest "first") (Test.world [Test.rejoined])
     = (Err (ErrAddressMismatch "Network Server"), Test.world [Test.rejoined]).
Proof.
  split; [discriminate |].
  destruct (GetNwkSKeys_selects_session Test.as_ (Test.keyRequest "first")
              (Test.world [Test.rejoined]) 0%nat Test.rejoined)
    as (Hrefused & _).
  - discriminate.
  - discriminate.
  - vm_compute. reflexivity.
  - apply Hrefused. discriminate.
Defined.

(** * Further properties of the Join Server *)

(** ** The MIC check *)

Section MICCheck.

Context (crypto : Crypto).

(** [checkMIC] returns nil exactly when the raw payload has 23 bytes, the
    MIC of its first 19 bytes can be computed, and that MIC is its last
    four bytes. *)
Theorem checkMIC_accepts_iff key raw w :
  fst (checkMIC crypto key raw w) = Ok None
  <-> length raw = 23%nat
      /\ exists mic,
           ComputeJoinRequestMIC crypto key (take 19 raw) = inr mic
           /\ drop 19 raw = mic_bytes mic.
Proof.
  unfold checkMIC, bind, ret, emit.
  destruct (Nat.eqb_spec (length raw) 23) as [Hlen | Hlen]; simpl.
  2: { split; [discriminate | intros [H _]; contradiction]. }
  do 24 (destruct raw as [| ? raw]; try discriminate Hlen).
  simpl.
  destruct (ComputeJoinRequestMIC crypto key _) as [e | [[[m0 m1] m2] m3]].
  { simpl. split; [discriminate | intros (_ & mic & Hm & _); discriminate]. }
  simpl. split.
  - intros H. split; [reflexivity |]. eexists. split; [reflexivity |].
    repeat case_bool_decide; simpl in H; try discriminate H.
    simpl. congruence.
  - intros (_ & mic & Hm & Hd). inversion Hm; subst. simpl in Hd.
    inversion Hd; subst.
    rewrite !bool_decide_eq_true_2 by reflexivity. reflexivity.
Qed.

(** A raw payload of another length is refused before any MIC is computed:
    the world is left as it was. *)
Lemma checkMIC_wrong_length key raw w :
  length raw <> 23%nat ->
  checkMIC crypto key raw w = (Ok (Some (ErrRawPayloadLength (length raw))), w).
Proof.
  intros Hlen. unfold checkMIC.
  destruct (Nat.eqb_spec (length raw) 23) as [H | H]; [contradiction | reflexivity].
Qed.

Lemma checkMIC_fst key raw w w1 :
  fst (checkMIC crypto key raw w) = fst (checkMIC crypto key raw w1).
Proof.
  unfold checkMIC, bind, ret, emit.
  destruct (negb _); [reflexivity |]. simpl.
  destruct (ComputeJoinRequestMIC crypto key _); [reflexivity |].
  match goal with
  | |- context [if ?c then _ else _] => destruct c
  end; reflexivity.
Qed.

End MICCheck.

Section Admission.

Context (crypto : Crypto) (codec : Codec) (js : JoinServer).

Lemma authorize_Ok ctx ver pld dev appKey :
  authorize js ctx ver pld dev = Ok appKey ->
  NetAddress ctx = NetworkServerAddress dev
  /\ existsb (fun p => EUI64Prefix_Matches p (JRP_JoinEUI pld)) (euiPrefixes js) = true
  /\ MACVersion_Compare (LoRaWANVersion dev) ver <> -1
  /\ (exists ke, GetAppKey (RootKeys_ dev) = Some ke /\ Key ke = Some appKey)
  /\ AES128Key_IsZero appKey = false.
Proof.
  unfold authorize. intros H.
  destruct (bool_decide (NetAddress ctx = NetworkServerAddress dev)) eqn:Ha;
    simpl in H; [| discriminate].
  apply bool_decide_eq_true in Ha.
  destruct (existsb _ (euiPrefixes js)) eqn:Hm; simpl in H.
  2: { destruct (bool_decide (LoRaWANVersion dev = MAC_V1_0)); discriminate. }
  destruct (bool_decide (MACVersion_Compare (LoRaWANVersion dev) ver = -1)) eqn:Hc;
    [discriminate |].
  apply bool_decide_eq_false in Hc.
  destruct (GetAppKey (RootKeys_ dev)) as [ke |]; [| discriminate].
  destruct (Key ke) as [k |] eqn:Hk; [| discriminate].
  destruct (AES128Key_IsZero k) eqn:Hz; [discriminate |].
  inversion H; subst. repeat split; auto. eauto.
Qed.

Lemma parseRequest_raw req ver devAddr msg pld raw :
  parseRequest codec req = Ok (ver, devAddr, msg, pld, raw) ->
  micPayload codec req raw.
Proof.
  unfold parseRequest, micPayload. intros H.
  destruct (negb _); [discriminate |].
  destruct (Ids_DevAddr (Req_Ids req)) as [a |]; [| discriminate].
  unfold obind in H.
  destruct (Message_Payload_ (Payload req)) as [p |] eqn:Hpl.
  - destruct (negb (bool_decide (GetMajor (Payload req) = LORAWAN_R1))); [discriminate |].
    destruct (negb (bool_decide (GetMType (Payload req) = JOIN_REQUEST))); [discriminate |].
    destruct (GetJoinRequestPayload (Payload req)); [| discriminate].
    destruct (EUI64_IsZero _); [discriminate |].
    destruct (EUI64_IsZero _); [discriminate |].
    destruct (RawPayload req) as [r |].
    + inversion H; subst. auto.
    + destruct (MarshalLoRaWAN codec (Payload req)) as [| r] eqn:Hm; [discriminate |].
      inversion H; subst. auto.
  - destruct (RawPayload req) as [r |]; [| discriminate].
    destruct (UnmarshalLoRaWAN codec r) as [| m]; [discriminate |].
    destruct (negb (bool_decide (GetMajor m = LORAWAN_R1))); [discriminate |].
    destruct (negb (bool_decide (GetMType m = JOIN_REQUEST))); [discriminate |].
    destruct (GetJoinRequestPayload m); [| discriminate].
    destruct (EUI64_IsZero _); [discriminate |].
    destruct (EUI64_IsZero _); [discriminate |].
    inversion H; subst. auto.
Qed.

(** A response comes out of the crypto step only after [checkMIC] returned
    nil for the key of the selected version. *)
Lemma issue_Ok ver req dev appKey pld raw jn b w resp w' :
  issue crypto ver req dev appKey pld raw jn b w = (Ok resp, w') ->
  exists key,
    fst (checkMIC crypto key raw w) = Ok None
    /\ ((ver = MAC_V1_1 /\ micKey ver dev = Some key
         /\ AES128Key_IsZero key = false)
        \/ (isLegacy ver = true /\ key = appKey)).
Proof.
  unfold issue, bind, lift, ret. intros H.
  destruct ver; try discriminate.
  1-3: exists appKey;
       destruct (checkMIC crypto appKey raw w) as [[[e |] | |] w1] eqn:Hc;
       try discriminate; split; [reflexivity | right; split; reflexivity].
  unfold micKey.
  destruct (GetNwkKey (RootKeys_ dev)) as [ke |]; [| discriminate].
  destruct (Key ke) as [nwkKey |]; [| discriminate].
  destruct (AES128Key_IsZero nwkKey) eqn:Hz; [discriminate |].
  exists nwkKey.
  destruct (checkMIC crypto nwkKey raw w) as [[[e |] | |] w1] eqn:Hc;
    try discriminate.
  split; [reflexivity | left; auto].
Qed.

Lemma checkDevNonce_RootKeys ver dn dev dev1 :
  checkDevNonce ver dn dev = Ok dev1 -> RootKeys_ dev1 = RootKeys_ dev.
Proof.
  intros H. apply checkDevNonce_Ok in H as [[-> _] | [-> _]]; reflexivity.
Qed.

(** A response is returned only to the device's Network Server, for a
    JoinEUI this Join Server serves, and for a 23-byte Join-Request whose
    MIC is right under the device's root key of the selected version:
    NwkKey for 1.1, AppKey for 1.0, 1.0.1 and 1.0.2. *)
Theorem HandleJoin_response_authenticated ctx ora req w resp w' :
  HandleJoin crypto codec js ctx ora req w = (Ok resp, w') ->
  exists i dn dev key raw mic,
    joinTarget codec (registry w) req = Some (i, dn)
    /\ registry w !! i = Some dev
    /\ NetAddress ctx = NetworkServerAddress dev
    /\ micKey (SelectedMacVersion req) dev = Some key
    /\ AES128Key_IsZero key = false
    /\ micPayload codec req raw
    /\ length raw = 23%nat
    /\ ComputeJoinRequestMIC crypto key (take 19 raw) = inr mic
    /\ drop 19 raw = mic_bytes mic.
Proof.
  intros H. apply HandleJoin_cases in H as [[Hno _] | H]; [discriminate |].
  destruct H as (ver & devAddr & msg & pld & raw & i & dev & appKey & jn & b
                 & dev1 & resp' & w1 & Hr & Hp & Hf & Ha & Hb & Hn & Hi & Hc).
  destruct (parseRequest_Ok _ _ _ _ _ _ _ Hp) as (-> & _ & _).
  apply authorize_Ok in Ha as (Haddr & _ & _ & (ke & Hke & Hkey) & Hz).
  apply issue_Ok in Hi as (key & Hmic & Hwhich).
  apply checkMIC_accepts_iff in Hmic as (Hlen & mic & Hm & Hd).
  exists i, (LittleEndian_Uint16 (JRP_DevNonce pld)), dev, key, raw, mic.
  split; [unfold joinTarget; rewrite Hp, Hf; reflexivity |].
  split; [eapply FindByIdentifiers_lookup; eauto |].
  split; [exact Haddr |].
  assert (Hk : micKey (SelectedMacVersion req) dev = Some key
               /\ AES128Key_IsZero key = false).
  { destruct Hwhich as [(Hv & Hk & Hz') | (Hv & ->)].
    - split; [| exact Hz']. unfold micKey in *. rewrite Hv in *.
      rewrite <- (checkDevNonce_RootKeys _ _ _ _ Hn). exact Hk.
    - split; [| exact Hz]. unfold micKey. rewrite Hke.
      destruct (SelectedMacVersion req); try discriminate Hv; exact Hkey. }
  destruct Hk as [Hk Hz'].
  repeat split; auto.
  eapply parseRequest_raw; eauto.
Qed.

End Admission.

Lemma HandleJoin_response_authenticated_witness :
  exists resp w',
    Test.handleJoin Test.ns (Test.storing 100) (Test.join11 (x05, x00))
      (Test.world [Test.device MAC_V1_1]) = (Ok resp, w')
    /\ exists i dn dev key raw mic,
         joinTarget Test.codec (registry (Test.world [Test.device MAC_V1_1]))
           (Test.join11 (x05, x00)) = Some (i, dn)
         /\ registry (Test.world [Test.device MAC_V1_1]) !! i = Some dev
         /\ NetAddress Test.ns = NetworkServerAddress dev
         /\ micKey (SelectedMacVersion (Test.join11 (x05, x00))) dev = Some key
         /\ AES128Key_IsZero key = false
         /\ micPayload Test.codec (Test.join11 (x05, x00)) raw
         /\ length raw = 23%nat
         /\ ComputeJoinRequestMIC Test.crypto key (take 19 raw) = inr mic
         /\ drop 19 raw = mic_bytes mic.
Proof.
  returns_response H.
  exact (HandleJoin_response_authenticated Test.crypto Test.codec Test.js
           _ _ _ _ _ _ H).
Defined.

(** ** The stages of a join and what each may refuse *)

Section Stages.

Context (crypto : Crypto) (codec : Codec) (js : JoinServer).

(** A call is decided by the first stage that does not return a value;
    every stage before the crypto step leaves the world as it was. *)
Lemma HandleJoin_stages ctx ora req w r w' :
  HandleJoin crypto codec js ctx ora req w = (r, w') ->
  (failed (parseRequest codec req) r /\ w' = w)
  \/ exists ver devAddr msg pld raw,
       parseRequest codec req = Ok (ver, devAddr, msg, pld, raw)
       /\ ((failed (FindByIdentifiers (registry w) (joinIdentifiers pld)) r /\ w' = w)
           \/ exists i dev,
                FindByIdentifiers (registry w) (joinIdentifiers pld) = Ok (i, dev)
                /\ ((failed (authorize js ctx ver pld dev) r /\ w' = w)
                    \/ exists appKey,
                         authorize js ctx ver pld dev = Ok appKey
                         /\ ((failed (buildJoinAccept codec req msg devAddr dev) r
                              /\ w' = w)
                             \/ exists jn b,
                                  buildJoinAccept codec req msg devAddr dev = Ok (jn, b)
                                  /\ ((failed (checkDevNonce ver
                                                 (LittleEndian_Uint16 (JRP_DevNonce pld))
                                                 dev) r
                                       /\ w' = w)
                                      \/ exists dev1,
                                           checkDevNonce ver
                                             (LittleEndian_Uint16 (JRP_DevNonce pld)) dev
                                           = Ok dev1
                                           /\ ((exists ri,
                                                  issue crypto ver req dev1 appKey pld
                                                    raw jn b w = (ri, w')
                                                  /\ failed ri r)
                                               \/ exists resp w1,
                                                    issue crypto ver req dev1 appKey pld
                                                      raw jn b w = (Ok resp, w1)
                                                    /\ commit ora i dev1
                                                         (LittleEndian_Uint16
                                                            (JRP_DevNonce pld))
                                                         devAddr resp w1 = (Ok resp, w')
                                                    /\ r = Ok resp))))).
Proof.
  unfold HandleJoin. unfold bind at 1. unfold lift at 1.
  destruct (parseRequest codec req) as [[[[[ver devAddr] msg] pld] raw] | e | m] eqn:Hp;
    try (intros H; inversion H; subst; left; split; reflexivity).
  intros H. right. exists ver, devAddr, msg, pld, raw. split; [reflexivity |].
  revert H. unfold bind at 1. unfold getRegistry at 1.
  unfold bind at 1. unfold lift at 1.
  destruct (FindByIdentifiers (registry w) (joinIdentifiers pld)) as [[i dev] | e | m] eqn:Hf;
    try (intros H; inversion H; subst; left; split; reflexivity).
  intros H. right. exists i, dev. split; [reflexivity |].
  revert H. unfold bind at 1. unfold lift at 1.
  destruct (authorize js ctx ver pld dev) as [appKey | e | m] eqn:Ha;
    try (intros H; inversion H; subst; left; split; reflexivity).
  intros H. right. exists appKey. split; [reflexivity |].
  revert H. unfold bind at 1. unfold lift at 1.
  destruct (buildJoinAccept codec req msg devAddr dev) as [[jn b] | e | m] eqn:Hb;
    try (intros H; inversion H; subst; left; split; reflexivity).
  intros H. right. exists jn, b. split; [reflexivity |].
  revert H. unfold bind at 1. unfold lift at 1.
  destruct (checkDevNonce ver (LittleEndian_Uint16 (JRP_DevNonce pld)) dev)
    as [dev1 | e | m] eqn:Hn;
    try (intros H; inversion H; subst; left; split; reflexivity).
  intros H. right. exists dev1. split; [reflexivity |].
  revert H. unfold bind at 1.
  destruct (issue crypto ver req dev1 appKey pld raw jn b w) as [[resp | e | m] w1] eqn:Hi;
    try (intros H; inversion H; subst; left; eexists; split; reflexivity).
  intros H. right. exists resp, w1. split; [reflexivity |].
  destruct (commit_spec ora i dev1 (LittleEndian_Uint16 (JRP_DevNonce pld))
              devAddr resp w1) as (w2 & Hc & _).
  rewrite Hc in H. inversion H; subst. auto.
Qed.

Lemma parseRequest_not_replay req e :
  parseRequest codec req = Err e -> isReplayError e = false.
Proof.
  unfold parseRequest. intros H.
  destruct (negb _); [inversion H; reflexivity |].
  destruct (Ids_DevAddr (Req_Ids req)) as [a |]; [| inversion H; reflexivity].
  unfold obind in H.
  destruct (match Message_Payload_ (Payload req) with
            | Some _ => _ | None => _ end) as [m | e' | s] eqn:Hm.
  - destruct (negb (bool_decide (GetMajor m = LORAWAN_R1))); [inversion H; reflexivity |].
    destruct (negb (bool_decide (GetMType m = JOIN_REQUEST))); [inversion H; reflexivity |].
    destruct (GetJoinRequestPayload m) as [p |]; [| inversion H; reflexivity].
    destruct (EUI64_IsZero (JRP_DevEUI p)); [inversion H; reflexivity |].
    destruct (EUI64_IsZero (JRP_JoinEUI p)); [inversion H; reflexivity |].
    destruct (RawPayload req); [discriminate |].
    destruct (MarshalLoRaWAN codec m); discriminate.
  - inversion H; subst e'.
    destruct (Message_Payload_ (Payload req)); [discriminate |].
    destruct (RawPayload req) as [raw |]; [| inversion Hm; reflexivity].
    destruct (UnmarshalLoRaWAN codec raw); inversion Hm; reflexivity.
  - discriminate.
Qed.

Lemma FindByIdentifiers_not_replay r want e :
  FindByIdentifiers r want = Err e -> isReplayError e = false.
Proof.
  unfold FindByIdentifiers.
  destruct (findFrom 0 want r) as [| ? [| ? ?]]; intros H; inversion H; reflexivity.
Qed.

Lemma authorize_not_replay ctx ver pld dev e :
  authorize js ctx ver pld dev = Err e -> isReplayError e = false.
Proof.
  unfold authorize. intros H.
  repeat match type of H with
         | context [match ?x with _ => _ end] => destruct x
         end; inversion H; reflexivity.
Qed.

Lemma buildJoinAccept_not_Err req msg devAddr dev e :
  buildJoinAccept codec req msg devAddr dev <> Err e.
Proof.
  unfold buildJoinAccept.
  destruct (MHDR_AppendLoRaWAN codec _ []); [discriminate |].
  destruct (JoinAcceptPayload_AppendLoRaWAN codec _ _); discriminate.
Qed.

Lemma encryptJoinAccept_not_replay key b mic w e w' :
  encryptJoinAccept crypto key b mic w = (Err e, w') -> isReplayError e = false.
Proof.
  unfold encryptJoinAccept, bind, lift, ret, emit. intros H.
  destruct b as [| b0 b']; [discriminate |].
  destruct (EncryptJoinAccept crypto key _); inversion H; reflexivity.
Qed.

Lemma issue_not_replay ver req dev appKey pld raw jn b w e w' :
  issue crypto ver req dev appKey pld raw jn b w = (Err e, w') ->
  isReplayError e = false.
Proof.
  unfold issue, bind, lift, ret. intros H.
  destruct ver; try discriminate.
  1-3: destruct (checkMIC crypto appKey raw w) as [r1 w1] eqn:Hc;
       apply checkMIC_world in Hc as [_ [e1 ->]];
       destruct e1 as [e1 |]; [inversion H; reflexivity |];
       destruct (emit _ w1) as [[[] | |] w2] eqn:He; try (unfold emit in He; discriminate);
       destruct (ComputeLegacyJoinAcceptMIC crypto appKey b) as [| mic];
       [inversion H; reflexivity |];
       destruct (encryptJoinAccept crypto appKey b mic w2) as [[p | e2 |] w3] eqn:Henc;
       try discriminate; inversion H; subst;
       eapply encryptJoinAccept_not_replay; eauto.
  destruct (GetNwkKey (RootKeys_ dev)) as [ke |]; [| inversion H; reflexivity].
  destruct (Key ke) as [nwkKey |]; [| inversion H; reflexivity].
  destruct (AES128Key_IsZero nwkKey); [inversion H; reflexivity |].
  destruct (checkMIC crypto nwkKey raw w) as [r1 w1] eqn:Hc.
  apply checkMIC_world in Hc as [_ [e1 ->]].
  destruct e1 as [e1 |]; [inversion H; reflexivity |].
  destruct (emit _ w1) as [[[] | |] w2] eqn:He; try (unfold emit in He; discriminate).
  destruct (ComputeJoinAcceptMIC crypto _ _ _ _ b) as [| mic];
    [inversion H; reflexivity |].
  destruct (encryptJoinAccept crypto nwkKey b mic w2) as [[p | e2 |] w3] eqn:Henc;
    try discriminate.
  inversion H; subst. eapply encryptJoinAccept_not_replay; eauto.
Qed.

(** What the replay check refuses, and why. *)
Lemma checkDevNonce_Err ver n dev e :
  checkDevNonce ver (LittleEndian_Uint16 n) dev = Err e ->
  DisableJoinNonceCheck dev = false
  /\ ((e = ErrDevNonceTooSmall /\ ver = MAC_V1_1
       /\ LittleEndian_Uint16 n < NextDevNonce dev)
      \/ (e = ErrDevNonceReused /\ isLegacy ver = true
          /\ In (LittleEndian_Uint16 n) (map uint16 (UsedDevNonces dev)))).
Proof.
  unfold checkDevNonce. intros H.
  pose proof (LittleEndian_Uint16_range n) as Hr.
  destruct (DisableJoinNonceCheck dev); simpl in H; [discriminate |].
  split; [reflexivity |].
  destruct ver; try discriminate.
  1-3: destruct (existsb _ _) eqn:He; [| discriminate]; inversion H; subst;
       right; split; [reflexivity |]; split; [reflexivity |];
       apply existsb_exists in He as (used & Hin & Heq);
       apply Z.eqb_eq in Heq; rewrite Heq; apply in_map; exact Hin.
  destruct (LittleEndian_Uint16 n <? NextDevNonce dev) eqn:Hlt.
  - inversion H; subst. left. apply Z.ltb_lt in Hlt. auto.
  - destruct (NextDevNonce dev =? MaxUint32) eqn:Hmax; [| discriminate].
    apply Z.ltb_ge in Hlt. apply Z.eqb_eq in Hmax. unfold MaxUint32 in Hmax. lia.
Qed.

(** The replay errors are exact: DevNonceTooSmall is returned only for a
    1.1 join whose DevNonce is below the device's counter, DevNonceReused
    only for a 1.0.x join whose DevNonce is among the used ones, both only
    to the device's Network Server and only when the check is enabled. *)
Theorem HandleJoin_replay_errors_exact ctx ora req w e w' :
  HandleJoin crypto codec js ctx ora req w = (Err e, w') ->
  isReplayError e = true ->
  exists i dn dev,
    joinTarget codec (registry w) req = Some (i, dn)
    /\ registry w !! i = Some dev
    /\ NetAddress ctx = NetworkServerAddress dev
    /\ DisableJoinNonceCheck dev = false
    /\ ((e = ErrDevNonceTooSmall /\ SelectedMacVersion req = MAC_V1_1
         /\ dn < NextDevNonce dev)
        \/ (e = ErrDevNonceReused /\ isLegacy (SelectedMacVersion req) = true
            /\ In dn (map uint16 (UsedDevNonces dev)))).
Proof.
  intros H He. apply HandleJoin_stages in H.
  destruct H as [[Hfail _] | (ver & devAddr & msg & pld & raw & Hp & H)].
  { destruct (parseRequest codec req) eqn:Hp; simpl in Hfail; try contradiction.
    subst. apply parseRequest_not_replay in Hp. congruence. }
  destruct H as [[Hfail _] | (i & dev & Hf & H)].
  { destruct (FindByIdentifiers _ _) eqn:Hf; simpl in Hfail; try contradiction.
    subst. apply FindByIdentifiers_not_replay in Hf. congruence. }
  destruct H as [[Hfail _] | (appKey & Ha & H)].
  { destruct (authorize js ctx ver pld dev) eqn:Ha; simpl in Hfail; try contradiction.
    subst. apply authorize_not_replay in Ha. congruence. }
  destruct H as [[Hfail _] | (jn & b & Hb & H)].
  { destruct (buildJoinAccept codec req msg devAddr dev) eqn:Hb;
      simpl in Hfail; try contradiction.
    exfalso. eapply buildJoinAccept_not_Err; eauto. }
  destruct (parseRequest_Ok _ _ _ _ _ _ _ Hp) as (-> & _ & _).
  apply authorize_Ok in Ha as (Haddr & _).
  destruct H as [[Hfail _] | (dev1 & Hn & H)].
  { destruct (checkDevNonce _ _ dev) eqn:Hn; simpl in Hfail; try contradiction.
    subst. apply checkDevNonce_Err in Hn as [Hflag Hwhy].
    exists i, (LittleEndian_Uint16 (JRP_DevNonce pld)), dev.
    split; [unfold joinTarget; rewrite Hp, Hf; reflexivity |].
    split; [eapply FindByIdentifiers_lookup; eauto |]. auto. }
  destruct H as [(ri & Hi & Hfail) | (resp & w1 & _ & _ & Hr)]; [| discriminate].
  destruct ri; simpl in Hfail; try contradiction. subst.
  apply issue_not_replay in Hi. congruence.
Qed.

(** Nothing is computed, stored or logged for a request that the replay
    check or an earlier check refuses: a call that left an event passed the
    caller check and the replay check. *)
Theorem HandleJoin_events_after_replay_check ctx ora req w r w' :
  HandleJoin crypto codec js ctx ora req w = (r, w') ->
  newEvents w w' <> [] ->
  exists i dn dev dev1,
    joinTarget codec (registry w) req = Some (i, dn)
    /\ registry w !! i = Some dev
    /\ NetAddress ctx = NetworkServerAddress dev
    /\ checkDevNonce (SelectedMacVersion req) dn dev = Ok dev1.
Proof.
  intros H Hev.
  assert (Hsame : w' = w -> False).
  { intros ->. apply Hev. unfold newEvents. apply drop_all. }
  apply HandleJoin_stages in H.
  destruct H as [[_ Hw] | (ver & devAddr & msg & pld & raw & Hp & H)]; [tauto |].
  destruct H as [[_ Hw] | (i & dev & Hf & H)]; [tauto |].
  destruct H as [[_ Hw] | (appKey & Ha & H)]; [tauto |].
  destruct H as [[_ Hw] | (jn & b & Hb & H)]; [tauto |].
  destruct H as [[_ Hw] | (dev1 & Hn & _)]; [tauto |].
  destruct (parseRequest_Ok _ _ _ _ _ _ _ Hp) as (-> & _ & _).
  apply authorize_Ok in Ha as (Haddr & _).
  exists i, (LittleEndian_Uint16 (JRP_DevNonce pld)), dev, dev1.
  split; [unfold joinTarget; rewrite Hp, Hf; reflexivity |].
  split; [eapply FindByIdentifiers_lookup; eauto |]. auto.
Qed.

End Stages.

Lemma HandleJoin_replay_errors_exact_witness :
  exists w',
    Test.handleJoin Test.ns (Test.storing 100) (Test.join11 (x05, x00))
      (Test.world [Test.deviceWith MAC_V1_1 7 [] false None None])
    = (Err ErrDevNonceTooSmall, w')
    /\ exists i dn dev,
         joinTarget Test.codec
           (registry (Test.world [Test.deviceWith MAC_V1_1 7 [] false None None]))
           (Test.join11 (x05, x00)) = Some (i, dn)
         /\ registry (Test.world [Test.deviceWith MAC_V1_1 7 [] false None None]) !! i
            = Some dev
         /\ NetAddress Test.ns = NetworkServerAddress dev
         /\ DisableJoinNonceCheck dev = false
         /\ ((ErrDevNonceTooSmall = ErrDevNonceTooSmall
              /\ SelectedMacVersion (Test.join11 (x05, x00)) = MAC_V1_1
              /\ dn < NextDevNonce dev)
             \/ (ErrDevNonceTooSmall = ErrDevNonceReused
                 /\ isLegacy (SelectedMacVersion (Test.join11 (x05, x00))) = true
                 /\ In dn (map uint16 (UsedDevNonces dev)))).
Proof.
  eexists. split; [vm_compute; reflexivity |].
  eapply (HandleJoin_replay_errors_exact Test.crypto Test.codec Test.js Test.ns
            (Test.storing 100) (Test.join11 (x05, x00))
            (Test.world [Test.deviceWith MAC_V1_1 7 [] false None None])
            ErrDevNonceTooSmall).
  - vm_compute. reflexivity.
  - reflexivity.
Defined.

Lemma HandleJoin_events_after_replay_check_witness :
  newEvents (Test.world [Test.device MAC_V1_1])
    (snd (Test.handleJoin Test.ns (Test.storing 100)
            (Test.request MAC_V1_1 (Test.key16 x0a) (x05, x00) None)
            (Test.world [Test.device MAC_V1_1]))) <> []
  /\ exists i dn dev dev1,
       joinTarget Test.codec (registry (Test.world [Test.device MAC_V1_1]))
         (Test.request MAC_V1_1 (Test.key16 x0a) (x05, x00) None) = Some (i, dn)
       /\ registry (Test.world [Test.device MAC_V1_1]) !! i = Some dev
       /\ NetAddress Test.ns = NetworkServerAddress dev
       /\ checkDevNonce
            (SelectedMacVersion (Test.request MAC_V1_1 (Test.key16 x0a) (x05, x00) None))
            dn dev = Ok dev1.
Proof.
  assert (Hev : newEvents (Test.world [Test.device MAC_V1_1])
                  (snd (Test.handleJoin Test.ns (Test.storing 100)
                          (Test.request MAC_V1_1 (Test.key16 x0a) (x05, x00) None)
                          (Test.world [Test.device MAC_V1_1]))) <> [])
    by (vm_compute; discriminate).
  split; [exact Hev |].
  eapply (HandleJoin_events_after_replay_check Test.crypto Test.codec Test.js
            Test.ns (Test.storing 100)
            (Test.request MAC_V1_1 (Test.key16 x0a) (x05, x00) None)
            (Test.world [Test.device MAC_V1_1])).
  - apply surjective_pairing.
  - exact Hev.
Defined.

(** ** What a call writes *)

Section Writes.

Context (crypto : Crypto) (codec : Codec) (js : JoinServer).

Lemma filter_notStore evs :
  forallb notStore evs = true -> List.filter isStore evs = [].
Proof.
  induction evs as [| ev evs IH]; simpl; [reflexivity |].
  unfold notStore at 1. destruct (isStore ev); simpl; [discriminate | exact IH].
Qed.

(** [Store] is called exactly once by a call that returns a response and
    never by one that does not. *)
Theorem HandleJoin_stores_once ctx ora req w r w' :
  HandleJoin crypto codec js ctx ora req w = (r, w') ->
  length (List.filter isStore (newEvents w w'))
  = if is_Ok r then 1%nat else 0%nat.
Proof.
  intros H. apply HandleJoin_cases in H as [[Hno [_ (evs & Ht & Hp)]] | H].
  - rewrite Hno, (newEvents_app _ _ _ Ht), (filter_notStore _ Hp). reflexivity.
  - destruct H as (ver & devAddr & msg & pld & raw & i & dev & appKey & jn & b
                   & dev1 & resp & w1 & -> & _ & _ & _ & _ & _ & Hi & Hc).
    apply issue_world in Hi as [_ (evs & Ht & Hp)].
    destruct (commit_spec ora i dev1 (LittleEndian_Uint16 (JRP_DevNonce pld))
                devAddr resp w1) as (w2 & Hc' & _ & Htr).
    rewrite Hc in Hc'. inversion Hc'; subst w2.
    rewrite Ht, <- app_assoc in Htr.
    rewrite (newEvents_app _ _ _ Htr), List.filter_app, (filter_notStore _ Hp).
    simpl. destruct (storeError ora); reflexivity.
Qed.

Lemma sameProvisioning_refl dev : sameProvisioning dev dev.
Proof. repeat split. Qed.

Lemma checkDevNonce_sameProvisioning ver dn dev dev1 s :
  checkDevNonce ver dn dev = Ok dev1 ->
  sameProvisioning dev (with_join dev1 dn s).
Proof.
  intros H. apply checkDevNonce_Ok in H as [[-> _] | [-> _]]; repeat split.
Qed.

(** Whatever a call returns, the registry keeps its length, and every
    record keeps its identifiers, LoRaWAN version, server addresses, root
    keys, [disable_join_nonce_check] and [session_fallback]. *)
Theorem HandleJoin_keeps_provisioning ctx ora req w r w' :
  HandleJoin crypto codec js ctx ora req w = (r, w') ->
  length (registry w') = length (registry w)
  /\ forall j dev,
       registry w !! j = Some dev ->
       exists dev', registry w' !! j = Some dev' /\ sameProvisioning dev dev'.
Proof.
  intros H. destruct r as [resp | e | m].
  2,3: apply HandleJoin_cases in H as [[_ [Hreg _]] | H];
       [ rewrite Hreg; split; [reflexivity |]; intros j dev Hl; exists dev;
         split; [exact Hl | apply sameProvisioning_refl]
       | destruct H as (? & ? & ? & ? & ? & ? & ? & ? & ? & ? & ? & ? & ? & Hr & _);
         discriminate ].
  apply HandleJoin_joined in H.
  destruct H as (devAddr & i & dn & dev0 & dev1 & Hd & Ht & Hl0 & Hn & Hreg).
  destruct (storeError ora).
  { rewrite Hreg. split; [reflexivity |]. intros j dev Hl. exists dev.
    split; [exact Hl | apply sameProvisioning_refl]. }
  rewrite Hreg. split; [apply length_insert |].
  intros j dev Hl. destruct (decide (j = i)) as [-> | Hne].
  - rewrite Hl in Hl0. inversion Hl0; subst dev0.
    eexists. split.
    + apply list_lookup_insert_eq. eapply lookup_lt_Some; eauto.
    + eapply checkDevNonce_sameProvisioning; eauto.
  - exists dev. split; [| apply sameProvisioning_refl].
    rewrite <- Hl. apply list_lookup_insert_ne. congruence.
Qed.

(** When no configured prefix matches the JoinEUI, a request that passed
    the caller check is refused with UnknownAppEUI for a device registered
    as 1.0 and with ForwardJoinRequest (cause DeviceNotFound) for any other,
    and nothing else happens. *)
Theorem HandleJoin_unserved_JoinEUI ctx ora req w ver devAddr msg pld raw i dev :
  parseRequest codec req = Ok (ver, devAddr, msg, pld, raw) ->
  FindByIdentifiers (registry w) (joinIdentifiers pld) = Ok (i, dev) ->
  NetAddress ctx = NetworkServerAddress dev ->
  existsb (fun p => EUI64Prefix_Matches p (JRP_JoinEUI pld)) (euiPrefixes js) = false ->
  HandleJoin crypto codec js ctx ora req w
  = (Err (if bool_decide (LoRaWANVersion dev = MAC_V1_0)
          then ErrUnknownAppEUI
          else ErrForwardJoinRequest ErrDeviceNotFound), w).
Proof.
  intros Hp Hf Ha Hm.
  unfold HandleJoin, bind, lift, getRegistry. rewrite Hp, Hf.
  unfold authorize. rewrite bool_decide_eq_true_2 by exact Ha. simpl.
  rewrite Hm. simpl.
  destruct (bool_decide (LoRaWANVersion dev = MAC_V1_0)); reflexivity.
Qed.

(** A Join Server configured with no JoinEUI prefix answers no join. *)
Theorem HandleJoin_without_prefixes ctx ora req w :
  euiPrefixes js = [] ->
  is_Ok (fst (HandleJoin crypto codec js ctx ora req w)) = false.
Proof.
  intros Hnone.
  destruct (HandleJoin crypto codec js ctx ora req w) as [r w'] eqn:H. simpl.
  destruct r as [resp | |]; try reflexivity.
  apply HandleJoin_cases in H as [[Hno _] | H]; [exact Hno |].
  destruct H as (ver & devAddr & msg & pld & raw & i & dev & appKey & jn & b
                 & dev1 & resp' & w1 & _ & _ & _ & Ha & _).
  apply authorize_Ok in Ha as (_ & Hm & _). rewrite Hnone in Hm. discriminate.
Qed.

Lemma issue_wrong_length ver req dev appKey pld raw jn b w r w' :
  length raw <> 23%nat ->
  issue crypto ver req dev appKey pld raw jn b w = (r, w') ->
  is_Ok r = false /\ w' = w.
Proof.
  intros Hlen. unfold issue, bind, lift, ret. cbv beta.
  destruct ver; try (intros H; inversion H; split; reflexivity).
  1-3: rewrite (checkMIC_wrong_length crypto _ raw w Hlen);
       intros H; inversion H; split; reflexivity.
  destruct (GetNwkKey (RootKeys_ dev)) as [ke |];
    [| intros H; inversion H; split; reflexivity].
  destruct (Key ke) as [nwkKey |]; [| intros H; inversion H; split; reflexivity].
  destruct (AES128Key_IsZero nwkKey); [intros H; inversion H; split; reflexivity |].
  rewrite (checkMIC_wrong_length crypto _ raw w Hlen).
  intros H; inversion H; split; reflexivity.
Qed.

(** A request whose raw payload is not 23 bytes long is never answered,
    and the call leaves the world as it was: no MIC is computed for it. *)
Theorem HandleJoin_wrong_raw_length ctx ora req w raw r w' :
  RawPayload req = Some raw ->
  length raw <> 23%nat ->
  HandleJoin crypto codec js ctx ora req w = (r, w') ->
  is_Ok r = false /\ w' = w.
Proof.
  intros Hraw Hlen H. apply HandleJoin_stages in H.
  assert (Hf : forall A (o : Outcome A), failed o r -> is_Ok r = false).
  { intros A o. destruct o, r; simpl; try contradiction; reflexivity. }
  destruct H as [[Hfail Hw] | (ver & devAddr & msg & pld & raw' & Hp & H)]; [eauto |].
  destruct H as [[Hfail Hw] | (i & dev & _ & H)]; [eauto |].
  destruct H as [[Hfail Hw] | (appKey & _ & H)]; [eauto |].
  destruct H as [[Hfail Hw] | (jn & b & _ & H)]; [eauto |].
  destruct H as [[Hfail Hw] | (dev1 & _ & H)]; [eauto |].
  assert (raw' = raw) as ->.
  { apply parseRequest_raw in Hp as [Hp | [Hp _]]; congruence. }
  destruct H as [(ri & Hi & Hfail) | (resp & w1 & Hi & _)].
  - apply (issue_wrong_length _ _ _ _ _ _ _ _ _ _ _ Hlen) in Hi as [_ ->]. eauto.
  - apply (issue_wrong_length _ _ _ _ _ _ _ _ _ _ _ Hlen) in Hi as [Hi _].
    discriminate.
Qed.

End Writes.

Lemma HandleJoin_stores_once_witness :
  length (List.filter isStore
            (newEvents (Test.world [Test.device MAC_V1_1])
               (snd (Test.handleJoin Test.ns (Test.failing 100)
                       (Test.join11 (x05, x00))
                       (Test.world [Test.device MAC_V1_1])))))
  = if is_Ok (fst (Test.handleJoin Test.ns (Test.failing 100)
                     (Test.join11 (x05, x00))
                     (Test.world [Test.device MAC_V1_1])))
    then 1%nat else 0%nat.
Proof.
  apply (HandleJoin_stores_once Test.crypto Test.codec Test.js Test.ns
           (Test.failing 100) (Test.join11 (x05, x00))
           (Test.world [Test.device MAC_V1_1])).
  apply surjective_pairing.
Defined.

Lemma HandleJoin_keeps_provisioning_witness :
  length (registry (snd (Test.handleJoin Test.ns (Test.storing 100)
                           (Test.join11 (x05, x00))
                           (Test.world [Test.joined]))))
  = length (registry (Test.world [Test.joined]))
  /\ forall j dev,
       registry (Test.world [Test.joined]) !! j = Some dev ->
       exists dev',
         registry (snd (Test.handleJoin Test.ns (Test.storing 100)
                          (Test.join11 (x05, x00))
                          (Test.world [Test.joined]))) !! j = Some dev'
         /\ sameProvisioning dev dev'.
Proof.
  apply (HandleJoin_keeps_provisioning Test.crypto Test.codec Test.js Test.ns
           (Test.storing 100) (Test.join11 (x05, x00)) (Test.world [Test.joined])
           (fst (Test.handleJoin Test.ns (Test.storing 100)
                   (Test.join11 (x05, x00)) (Test.world [Test.joined])))).
  apply surjective_pairing.
Defined.

Lemma HandleJoin_unserved_JoinEUI_witness :
  HandleJoin Test.crypto Test.codec Test.elsewhere Test.ns (Test.storing 100)
    (Test.join11 (x05, x00)) (Test.world [Test.device MAC_V1_0])
  = (Err ErrUnknownAppEUI, Test.world [Test.device MAC_V1_0])
  /\ HandleJoin Test.crypto Test.codec Test.elsewhere Test.ns (Test.storing 100)
       (Test.join11 (x05, x00)) (Test.world [Test.device MAC_V1_1])
     = (Err (ErrForwardJoinRequest ErrDeviceNotFound),
        Test.world [Test.device MAC_V1_1]).
Proof.
  split.
  - eapply (HandleJoin_unserved_JoinEUI Test.crypto Test.codec Test.elsewhere
              Test.ns (Test.storing 100) (Test.join11 (x05, x00))
              (Test.world [Test.device MAC_V1_0]))
      with (i := 0%nat) (dev := Test.device MAC_V1_0).
    + vm_compute. reflexivity.
    + vm_compute. reflexivity.
    + reflexivity.
    + vm_compute. reflexivity.
  - eapply (HandleJoin_unserved_JoinEUI Test.crypto Test.codec Test.elsewhere
              Test.ns (Test.storing 100) (Test.join11 (x05, x00))
              (Test.world [Test.device MAC_V1_1]))
      with (i := 0%nat) (dev := Test.device MAC_V1_1).
    + vm_compute. reflexivity.
    + vm_compute. reflexivity.
    + reflexivity.
    + vm_compute. reflexivity.
Defined.

Lemma HandleJoin_without_prefixes_witness :
  is_Ok (fst (HandleJoin Test.crypto Test.codec Test.unconfigured Test.ns
                (Test.storing 100) (Test.join11 (x05, x00))
                (Test.world [Test.device MAC_V1_1]))) = false.
Proof.
  apply (HandleJoin_without_prefixes Test.crypto Test.codec Test.unconfigured).
  reflexivity.
Defined.

Lemma HandleJoin_wrong_raw_length_witness :
  length (take 22 (Test.rawJoinRequest (Test.key16 x0b) (x05, x00))) <> 23%nat
  /\ is_Ok (fst (Test.handleJoin Test.ns (Test.storing 100) Test.truncated
                   (Test.world [Test.device MAC_V1_1]))) = false
  /\ snd (Test.handleJoin Test.ns (Test.storing 100) Test.truncated
            (Test.world [Test.device MAC_V1_1]))
     = Test.world [Test.device MAC_V1_1].
Proof.
  assert (Hlen : length (take 22 (Test.rawJoinRequest (Test.key16 x0b) (x05, x00)))
                 <> 23%nat) by (vm_compute; discriminate).
  split; [exact Hlen |].
  apply (HandleJoin_wrong_raw_length Test.crypto Test.codec Test.js Test.ns
           (Test.storing 100) Test.truncated (Test.world [Test.device MAC_V1_1])
           (take 22 (Test.rawJoinRequest (Test.key16 x0b) (x05, x00)))).
  - reflexivity.
  - exact Hlen.
  - apply surjective_pairing.
Defined.

(** ** The response and the JoinNonce *)

Lemma byte_to_Z_to_byte z : byte_to_Z (Z_to_byte z) = z mod 256.
Proof.
  unfold byte_to_Z, Z_to_byte.
  pose proof (Z.mod_pos_bound z 256 ltac:(lia)) as Hr.
  destruct (Byte.of_N (Z.to_N (z mod 256))) as [b |] eqn:Hb.
  - apply Byte.to_of_N in Hb. rewrite Hb. lia.
  - apply Byte.of_N_None_iff in Hb. lia.
Qed.

(** The JoinNonce taken from a counter is the counter modulo 2^24: the
    fourth byte of the 32-bit counter is dropped. *)
Lemma JoinNonce_of_counter v :
  JoinNonce_value (copy_JoinNonce (LittleEndian_PutUint32 v)) = v mod 2 ^ 24.
Proof.
  unfold JoinNonce_value, copy_JoinNonce, LittleEndian_PutUint32. simpl.
  rewrite !byte_to_Z_to_byte, !Z.shiftr_div_pow2 by lia.
  change (2 ^ 8) with 256. change (2 ^ 16) with 65536. change (2 ^ 24) with 16777216.
  Z.div_mod_to_equations. lia.
Qed.

Section Response.

Context (crypto : Crypto) (codec : Codec) (js : JoinServer).

(** The JoinNonce computed at lines 226-229 is [next_join_nonce] modulo
    2^24, although the counter has 32 bits. *)
Theorem buildJoinAccept_JoinNonce req msg devAddr dev jn b :
  buildJoinAccept codec req msg devAddr dev = Ok (jn, b) ->
  JoinNonce_value jn = NextJoinNonce dev mod 2 ^ 24.
Proof.
  unfold buildJoinAccept. intros H.
  destruct (MHDR_AppendLoRaWAN codec _ []); [discriminate |].
  destruct (JoinAcceptPayload_AppendLoRaWAN codec _ _); [discriminate |].
  inversion H; subst. apply JoinNonce_of_counter.
Qed.

Lemma issue_shape ver req dev appKey pld raw jn b w resp w' :
  issue crypto ver req dev appKey pld raw jn b w = (Ok resp, w') ->
  Lifetime resp = None
  /\ SessionKeyID (Resp_SessionKeys resp) = ""
  /\ (forall ke, In (Some ke) (envelopes (Resp_SessionKeys resp)) ->
                 KEKLabel ke = "" /\ Key ke <> None)
  /\ FNwkSIntKey (Resp_SessionKeys resp) <> None
  /\ AppSKey (Resp_SessionKeys resp) <> None
  /\ (ver = MAC_V1_1 ->
      SNwkSIntKey (Resp_SessionKeys resp) <> None
      /\ NwkSEncKey (Resp_SessionKeys resp) <> None)
  /\ (ver <> MAC_V1_1 ->
      SNwkSIntKey (Resp_SessionKeys resp) = None
      /\ NwkSEncKey (Resp_SessionKeys resp) = None).
Proof.
  assert (Hin : forall a b c d ke,
            In (Some ke) [clearEnvelope a; b; c; clearEnvelope d] ->
            (b = None \/ exists x, b = clearEnvelope x) ->
            (c = None \/ exists x, c = clearEnvelope x) ->
            KEKLabel ke = "" /\ Key ke <> None).
  { intros a b0 c d ke Hin Hb Hc. simpl in Hin. unfold clearEnvelope in *.
    destruct Hin as [H | [H | [H | [H | []]]]].
    - inversion H; subst. split; [reflexivity | discriminate].
    - destruct Hb as [-> | [x ->]]; [discriminate |].
      inversion H; subst. split; [reflexivity | discriminate].
    - destruct Hc as [-> | [x ->]]; [discriminate |].
      inversion H; subst. split; [reflexivity | discriminate].
    - inversion H; subst. split; [reflexivity | discriminate]. }
  unfold issue, bind, lift, ret. intros H.
  destruct ver; try discriminate.
  1-3: destruct (checkMIC crypto appKey raw w) as [[[e |] | |] w1]; try discriminate;
       destruct (emit _ w1) as [[[] | |] w2]; try discriminate;
       destruct (ComputeLegacyJoinAcceptMIC crypto appKey b) as [| mic]; try discriminate;
       destruct (encryptJoinAccept crypto appKey b mic w2) as [[p | |] w3];
       try discriminate; inversion H; subst; simpl;
       (split; [reflexivity |]); (split; [reflexivity |]);
       (split; [intros ke Hke; eapply Hin; [exact Hke | auto | auto] |]);
       (split; [discriminate |]); (split; [discriminate |]);
       (split; [discriminate | auto]).
  destruct (GetNwkKey (RootKeys_ dev)) as [ke |]; [| discriminate].
  destruct (Key ke) as [nwkKey |]; [| discriminate].
  destruct (AES128Key_IsZero nwkKey); [discriminate |].
  destruct (checkMIC crypto nwkKey raw w) as [[[e |] | |] w1]; try discriminate.
  destruct (emit _ w1) as [[[] | |] w2]; try discriminate.
  destruct (ComputeJoinAcceptMIC crypto _ _ _ _ b) as [| mic]; try discriminate.
  destruct (encryptJoinAccept crypto nwkKey b mic w2) as [[p | |] w3];
    try discriminate.
  inversion H; subst; simpl.
  split; [reflexivity |]. split; [reflexivity |].
  split; [intros ke' Hke; eapply Hin; [exact Hke | eauto | eauto] |].
  split; [discriminate |]. split; [discriminate |].
  split; [intros _; split; discriminate | congruence].
Qed.

(** The session keys of a response: no lifetime, no SessionKeyID, every
    envelope in clear (empty KEK label) with a key; FNwkSIntKey and AppSKey
    always, SNwkSIntKey and NwkSEncKey exactly for selected version 1.1. *)
Theorem HandleJoin_session_keys_shape ctx ora req w resp w' :
  HandleJoin crypto codec js ctx ora req w = (Ok resp, w') ->
  Lifetime resp = None
  /\ SessionKeyID (Resp_SessionKeys resp) = ""
  /\ (forall ke, In (Some ke) (envelopes (Resp_SessionKeys resp)) ->
                 KEKLabel ke = "" /\ Key ke <> None)
  /\ FNwkSIntKey (Resp_SessionKeys resp) <> None
  /\ AppSKey (Resp_SessionKeys resp) <> None
  /\ (SelectedMacVersion req = MAC_V1_1 ->
      SNwkSIntKey (Resp_SessionKeys resp) <> None
      /\ NwkSEncKey (Resp_SessionKeys resp) <> None)
  /\ (SelectedMacVersion req <> MAC_V1_1 ->
      SNwkSIntKey (Resp_SessionKeys resp) = None
      /\ NwkSEncKey (Resp_SessionKeys resp) = None).
Proof.
  intros H. apply HandleJoin_cases in H as [[Hno _] | H]; [discriminate |].
  destruct H as (ver & devAddr & msg & pld & raw & i & dev & appKey & jn & b
                 & dev1 & resp' & w1 & Hr & Hp & _ & _ & _ & _ & Hi & _).
  inversion Hr; subst resp'.
  destruct (parseRequest_Ok _ _ _ _ _ _ _ Hp) as (-> & _ & _).
  eapply issue_shape; eauto.
Qed.

End Response.

Lemma buildJoinAccept_JoinNonce_witness :
  exists jn b,
    buildJoinAccept Test.codec (Test.join11 (x05, x00))
      (Test.joinRequestMessage (x05, x00)) 0x01020304 Test.veteran = Ok (jn, b)
    /\ JoinNonce_value jn = 5.
Proof.
  do 2 eexists. split; [vm_compute; reflexivity |].
  eapply (buildJoinAccept_JoinNonce Test.codec (Test.join11 (x05, x00))
            (Test.joinRequestMessage (x05, x00)) 0x01020304 Test.veteran).
  vm_compute. reflexivity.
Defined.

Lemma HandleJoin_session_keys_shape_witness :
  exists resp w',
    Test.handleJoin Test.ns (Test.storing 100) (Test.join102 (x05, x00))
      (Test.world [Test.device MAC_V1_0_2]) = (Ok resp, w')
    /\ Lifetime resp = None
    /\ SessionKeyID (Resp_SessionKeys resp) = ""
    /\ (forall ke, In (Some ke) (envelopes (Resp_SessionKeys resp)) ->
                   KEKLabel ke = "" /\ Key ke <> None)
    /\ FNwkSIntKey (Resp_SessionKeys resp) <> None
    /\ AppSKey (Resp_SessionKeys resp) <> None
    /\ (SelectedMacVersion (Test.join102 (x05, x00)) = MAC_V1_1 ->
        SNwkSIntKey (Resp_SessionKeys resp) <> None
        /\ NwkSEncKey (Resp_SessionKeys resp) <> None)
    /\ (SelectedMacVersion (Test.join102 (x05, x00)) <> MAC_V1_1 ->
        SNwkSIntKey (Resp_SessionKeys resp) = None
        /\ NwkSEncKey (Resp_SessionKeys resp) = None).
Proof.
  returns_response H.
  exact (HandleJoin_session_keys_shape Test.crypto Test.codec Test.js
           _ _ _ _ _ _ H).
Defined.

(** ** The request checks *)

Section RequestChecks.

Context (crypto : Crypto) (codec : Codec) (js : JoinServer).

(** The checks on the request come first and in this order, and a request
    they refuse is refused whatever the registry holds and whoever calls:
    the selected version must be 1.0, 1.0.1, 1.0.2 or 1.1 (so 1.0.3 is
    refused), a DevAddr and a payload must be there, a raw payload that does
    not parse is refused with the parser's error as the cause, and the
    message must be a LoRaWAN R1 Join-Request with non-zero DevEUI and
    JoinEUI. *)
Theorem HandleJoin_request_checks ctx ora req w :
  (~ In (SelectedMacVersion req) supportedMACVersions ->
   HandleJoin crypto codec js ctx ora req w
   = (Err (ErrUnsupportedLoRaWANMACVersion (SelectedMacVersion req)), w))
  /\ (In (SelectedMacVersion req) supportedMACVersions ->
      (Ids_DevAddr (Req_Ids req) = None ->
       HandleJoin crypto codec js ctx ora req w = (Err ErrMissingDevAddr, w))
      /\ (Ids_DevAddr (Req_Ids req) <> None ->
          (Message_Payload_ (Payload req) = None -> RawPayload req = None ->
           HandleJoin crypto codec js ctx ora req w = (Err ErrMissingPayload, w))
          /\ (forall raw e,
                Message_Payload_ (Payload req) = None ->
                RawPayload req = Some raw ->
                UnmarshalLoRaWAN codec raw = inl e ->
                HandleJoin crypto codec js ctx ora req w
                = (Err (ErrUnmarshalPayloadFailed e), w))
          /\ (forall msg,
                requestMessage codec req msg ->
                (GetMajor msg <> LORAWAN_R1 ->
                 HandleJoin crypto codec js ctx ora req w
                 = (Err (ErrUnsupportedLoRaWANVersion (GetMajor msg)), w))
                /\ (GetMajor msg = LORAWAN_R1 ->
                    (GetMType msg <> JOIN_REQUEST ->
                     HandleJoin crypto codec js ctx ora req w
                     = (Err (ErrWrongPayloadType (GetMType msg)), w))
                    /\ (GetMType msg = JOIN_REQUEST ->
                        (GetJoinRequestPayload msg = None ->
                         HandleJoin crypto codec js ctx ora req w
                         = (Err ErrMissingJoinRequest, w))
                        /\ (forall pld,
                              GetJoinRequestPayload msg = Some pld ->
                              (JRP_DevEUI pld = 0 ->
                               HandleJoin crypto codec js ctx ora req w
                               = (Err ErrMissingDevEUI, w))
                              /\ (JRP_DevEUI pld <> 0 -> JRP_JoinEUI pld = 0 ->
                                  HandleJoin crypto codec js ctx ora req w
                                  = (Err ErrMissingJoinEUI, w)))))))).
Proof.
  assert (Hrun : forall e, parseRequest codec req = Err e ->
                           HandleJoin crypto codec js ctx ora req w = (Err e, w)).
  { intros e He. unfold HandleJoin, bind, lift. rewrite He. reflexivity. }
  assert (Hsup : In (SelectedMacVersion req) supportedMACVersions ->
                 existsb (fun v => bool_decide (v = SelectedMacVersion req))
                   supportedMACVersions = true).
  { intros Hin. apply existsb_exists. eexists. split; [exact Hin |].
    apply bool_decide_eq_true_2. reflexivity. }
  split.
  { intros Hno. apply Hrun. unfold parseRequest.
    destruct (existsb _ supportedMACVersions) eqn:Hs; [| reflexivity].
    apply existsb_exists in Hs as (v & Hin & Hv).
    apply bool_decide_eq_true in Hv. subst. contradiction. }
  intros Hin. specialize (Hsup Hin). split.
  { intros Hd. apply Hrun. unfold parseRequest. rewrite Hsup, Hd. reflexivity. }
  intros Hd. destruct (Ids_DevAddr (Req_Ids req)) as [devAddr |] eqn:Hda;
    [clear Hd | contradiction].
  split; [| split].
  - intros Hm Hr. apply Hrun. unfold parseRequest. rewrite Hsup, Hda, Hm, Hr.
    reflexivity.
  - intros raw e Hm Hr Hu. apply Hrun. unfold parseRequest.
    rewrite Hsup, Hda, Hm, Hr, Hu. reflexivity.
  - intros msg Hmsg.
    assert (Hparse : parseRequest codec req =
              if negb (bool_decide (GetMajor msg = LORAWAN_R1))
              then Err (ErrUnsupportedLoRaWANVersion (GetMajor msg))
              else if negb (bool_decide (GetMType msg = JOIN_REQUEST))
              then Err (ErrWrongPayloadType (GetMType msg))
              else
                match GetJoinRequestPayload msg with
                | None => Err ErrMissingJoinRequest
                | Some pld =>
                    if EUI64_IsZero (JRP_DevEUI pld) then Err ErrMissingDevEUI
                    else if EUI64_IsZero (JRP_JoinEUI pld) then Err ErrMissingJoinEUI
                    else
                      let! raw :=
                        match RawPayload req with
                        | Some raw => Ok raw
                        | None =>
                            match MarshalLoRaWAN codec msg with
                            | inl _ => Panic "Failed to marshal join request payload"
                            | inr raw => Ok raw
                            end
                        end in
                      Ok (SelectedMacVersion req, devAddr, msg, pld, raw)
                end).
    { unfold parseRequest. rewrite Hsup, Hda. simpl.
      destruct Hmsg as [[Hsome ->] | (Hnone & raw & Hr & Hu)].
      - destruct (Message_Payload_ (Payload req)); [reflexivity | contradiction].
      - rewrite Hnone, Hr, Hu. reflexivity. }
    split.
    { intros Hmaj. apply Hrun. rewrite Hparse.
      rewrite bool_decide_eq_false_2 by exact Hmaj. reflexivity. }
    intros Hmaj. rewrite bool_decide_eq_true_2 in Hparse by exact Hmaj.
    simpl in Hparse. split.
    { intros Hty. apply Hrun. rewrite Hparse.
      rewrite bool_decide_eq_false_2 by exact Hty. reflexivity. }
    intros Hty. rewrite bool_decide_eq_true_2 in Hparse by exact Hty.
    simpl in Hparse. split.
    { intros Hp. apply Hrun. rewrite Hparse, Hp. reflexivity. }
    intros pld Hp. rewrite Hp in Hparse. unfold EUI64_IsZero in Hparse. split.
    { intros Hz. apply Hrun. rewrite Hparse.
      rewrite bool_decide_eq_true_2 by exact Hz. reflexivity. }
    intros Hnz Hz. apply Hrun. rewrite Hparse.
    rewrite bool_decide_eq_false_2 by exact Hnz.
    rewrite bool_decide_eq_true_2 by exact Hz. reflexivity.
Qed.

End RequestChecks.

Lemma HandleJoin_request_checks_witness :
  ~ In MAC_V1_0_3 supportedMACVersions
  /\ HandleJoin Test.crypto Test.codec Test.js Test.ns (Test.storing 100)
       (Test.request MAC_V1_0_3 (Test.key16 x0a) (x05, x00) None)
       (Test.world [Test.device MAC_V1_1])
     = (Err (ErrUnsupportedLoRaWANMACVersion MAC_V1_0_3),
        Test.world [Test.device MAC_V1_1]).
Proof.
  assert (Hno : ~ In MAC_V1_0_3 supportedMACVersions).
  { simpl. intros [H | [H | [H | [H | []]]]]; discriminate. }
  split; [exact Hno |].
  exact (proj1 (HandleJoin_request_checks Test.crypto Test.codec Test.js Test.ns
                  (Test.storing 100)
                  (Test.request MAC_V1_0_3 (Test.key16 x0a) (x05, x00) None)
                  (Test.world [Test.device MAC_V1_1])) Hno).
Defined.

(** ** The key requests *)

(** [GetAppSKey] and [GetNwkSKeys] only read: whatever they return, the
    registry and the trace are as before. *)
Theorem key_requests_read_only ctx req w :
  snd (GetAppSKey ctx req w) = w /\ snd (GetNwkSKeys ctx req w) = w.
Proof.
  split.
  - unfold GetAppSKey, bind, lift, ret, getRegistry.
    destruct (EUI64_IsZero _); [reflexivity |].
    destruct (bool_decide (SKR_SessionKeyID req = "")); [reflexivity |].
    destruct (FindByIdentifiers _ _) as [[i dev] | |]; try reflexivity. simpl.
    destruct (negb _); [reflexivity |].
    destruct (selectSession dev _) as [s | |]; try reflexivity.
    destruct (AppSKey (Session_Keys s)); reflexivity.
  - unfold GetNwkSKeys, bind, lift, ret, getRegistry.
    destruct (EUI64_IsZero _); [reflexivity |].
    destruct (bool_decide (SKR_SessionKeyID req = "")); [reflexivity |].
    destruct (FindByIdentifiers _ _) as [[i dev] | |]; try reflexivity. simpl.
    destruct (negb _); [reflexivity |].
    destruct (selectSession dev _) as [s | |]; try reflexivity.
    destruct (NwkSEncKey (Session_Keys s)), (FNwkSIntKey (Session_Keys s)),
      (SNwkSIntKey (Session_Keys s)); reflexivity.
Qed.

(** What [GetAppSKey] refuses before it looks at a session, in order: a
    zero DevEUI, an empty SessionKeyID, a device the registry does not
    return (the registry's error is handed on), and a caller that is not
    the device's Application Server, whatever sessions the device has. *)
Theorem GetAppSKey_refuses ctx req w :
  (SKR_DevEUI req = 0 ->
   GetAppSKey ctx req w = (Err ErrMissingDevEUI, w))
  /\ (SKR_DevEUI req <> 0 ->
      (SKR_SessionKeyID req = "" ->
       GetAppSKey ctx req w = (Err ErrMissingSessionKeyID, w))
      /\ (SKR_SessionKeyID req <> "" ->
          (forall e,
             FindByIdentifiers (registry w) (sessionKeyIdentifiers req) = Err e ->
             GetAppSKey ctx req w = (Err e, w))
          /\ (forall i dev,
                FindByIdentifiers (registry w) (sessionKeyIdentifiers req)
                = Ok (i, dev) ->
                NetAddress ctx <> ApplicationServerAddress dev ->
                GetAppSKey ctx req w
                = (Err (ErrAddressMismatch "Application Server"), w)))).
Proof.
  unfold GetAppSKey, EUI64_IsZero. split.
  { intros Hz. rewrite bool_decide_eq_true_2 by exact Hz. reflexivity. }
  intros Hnz. rewrite bool_decide_eq_false_2 by exact Hnz. split.
  { intros Hid. rewrite bool_decide_eq_true_2 by exact Hid. reflexivity. }
  intros Hid. rewrite bool_decide_eq_false_2 by exact Hid.
  unfold bind, lift, getRegistry. cbv beta. split.
  { intros e He. rewrite He. reflexivity. }
  intros i dev Hf Hne. rewrite Hf. simpl.
  rewrite bool_decide_eq_false_2 by exact Hne. reflexivity.
Qed.

Lemma GetAppSKey_refuses_witness :
  SKR_DevEUI (Test.keyRequest "first") <> 0
  /\ SKR_SessionKeyID (Test.keyRequest "first") <> ""
  /\ NetAddress Test.ns <> ApplicationServerAddress Test.rejoined
  /\ GetAppSKey Test.ns (Test.keyRequest "first") (Test.world [Test.rejoined])
     = (Err (ErrAddressMismatch "Application Server"), Test.world [Test.rejoined]).
Proof.
  assert (H1 : SKR_DevEUI (Test.keyRequest "first") <> 0) by discriminate.
  assert (H2 : SKR_SessionKeyID (Test.keyRequest "first") <> "") by discriminate.
  assert (H3 : NetAddress Test.ns <> ApplicationServerAddress Test.rejoined)
    by discriminate.
  split; [exact H1 |]. split; [exact H2 |]. split; [exact H3 |].
  destruct (GetAppSKey_refuses Test.ns (Test.keyRequest "first")
              (Test.world [Test.rejoined])) as [_ Hrest].
  destruct (Hrest H1) as [_ Hrest'].
  destruct (Hrest' H2) as [_ Hcaller].
  apply (Hcaller 0%nat Test.rejoined); [vm_compute; reflexivity | exact H3].
Defined.

(** ** A join followed by a key request *)

Section Composition.

Context (crypto : Crypto) (codec : Codec) (js : JoinServer).

(** The session a stored join installs carries the session keys of the
    response and an empty SessionKeyID.  A [GetAppSKey] request, whose
    SessionKeyID cannot be empty, is therefore never answered from it: it is
    answered from the fallback session, or refused with
    SessionKeyIDMismatch when the fallback does not have the identifier. *)
Theorem GetAppSKey_after_join ctx ora req w resp w' i dn kctx kreq dev' :
  HandleJoin crypto codec js ctx ora req w = (Ok resp, w') ->
  storeError ora = None ->
  joinTarget codec (registry w) req = Some (i, dn) ->
  SKR_DevEUI kreq <> 0 ->
  SKR_SessionKeyID kreq <> "" ->
  FindByIdentifiers (registry w') (sessionKeyIdentifiers kreq) = Ok (i, dev') ->
  NetAddress kctx = ApplicationServerAddress dev' ->
  (exists s, Session_ dev' = Some s
             /\ Session_Keys s = Resp_SessionKeys resp
             /\ SessionKeyID (Session_Keys s) = "")
  /\ (forall s, answersFrom dev' (SKR_SessionKeyID kreq) s ->
                SessionFallback dev' = Some s)
  /\ ((forall f, SessionFallback dev' = Some f ->
                 SessionKeyID (Session_Keys f) <> SKR_SessionKeyID kreq) ->
      GetAppSKey kctx kreq w' = (Err ErrSessionKeyIDMismatch, w')).
Proof.
  intros H Hs Ht Heui Hid Hf Haddr.
  assert (Hempty : SessionKeyID (Resp_SessionKeys resp) = "").
  { pose proof H as H'. apply HandleJoin_cases in H' as [[Hno _] | H']; [discriminate |].
    destruct H' as (? & ? & ? & ? & ? & ? & ? & ? & ? & ? & ? & resp' & ? & Hr
                    & _ & _ & _ & _ & _ & Hi & _).
    inversion Hr; subst resp'. apply issue_shape in Hi. tauto. }
  destruct (HandleJoin_stored _ _ _ _ _ _ _ _ _ H Hs)
    as (devAddr & i' & dn' & dev & dev1 & _ & Ht' & _ & _ & Hl' & _).
  rewrite Ht in Ht'. inversion Ht'; subst i' dn'.
  pose proof (FindByIdentifiers_lookup _ _ _ _ Hf) as Hl.
  rewrite Hl' in Hl. injection Hl as Hdev. subst dev'.
  set (dev' := with_join dev1 dn (newSession ora devAddr resp)) in *.
  assert (Hcur : Session_ dev' = Some (newSession ora devAddr resp)) by reflexivity.
  split; [| split].
  - exists (newSession ora devAddr resp). repeat split; auto.
  - intros s [[Hcs Hk] | (cur & _ & _ & Hfb & _)]; [| exact Hfb].
    rewrite Hcur in Hcs. inversion Hcs; subst s. simpl in Hk. congruence.
  - intros Hfb. unfold GetAppSKey, EUI64_IsZero.
    rewrite bool_decide_eq_false_2 by exact Heui.
    rewrite bool_decide_eq_false_2 by exact Hid.
    unfold bind, lift, getRegistry. cbv beta. rewrite Hf. cbn [snd].
    rewrite bool_decide_eq_true_2 by exact Haddr. cbn [negb].
    unfold selectSession. rewrite Hcur.
    change (SessionKeyID (Session_Keys (newSession ora devAddr resp)))
      with (SessionKeyID (Resp_SessionKeys resp)).
    rewrite Hempty.
    rewrite bool_decide_eq_false_2 by congruence. cbn [negb].
    destruct (SessionFallback dev') as [f |] eqn:Hsf; [| reflexivity].
    rewrite bool_decide_eq_false_2 by (apply Hfb; reflexivity). reflexivity.
Qed.

End Composition.

Lemma GetAppSKey_after_join_witness :
  exists resp w',
    Test.handleJoin Test.ns (Test.storing 100) (Test.join11 (x05, x00))
      (Test.world [Test.joined]) = (Ok resp, w')
    /\ GetAppSKey Test.as_ (Test.keyRequest "first") w'
       = (Err ErrSessionKeyIDMismatch, w').
Proof.
  do 2 eexists. split; [vm_compute; reflexivity |].
  eapply (GetAppSKey_after_join Test.crypto Test.codec Test.js Test.ns
            (Test.storing 100) (Test.join11 (x05, x00)) (Test.world [Test.joined])
            _ _ 0%nat 5 Test.as_ (Test.keyRequest "first")).
  - vm_compute. reflexivity.
  - reflexivity.
  - vm_compute. reflexivity.
  - discriminate.
  - discriminate.
  - vm_compute. reflexivity.
  - reflexivity.
  - intros f Hf. vm_compute in Hf. discriminate.
Defined.

(** ** The caller's result and the registry's answer *)

Section Oracle.

Context (crypto : Crypto) (codec : Codec) (js : JoinServer).

(** What a call returns to its caller depends neither on whether [Store]
    succeeds nor on the time: the response, or the error, is the same
    under any two oracles. *)
Theorem HandleJoin_result_ignores_oracle ctx ora ora' req w :
  fst (HandleJoin crypto codec js ctx ora req w)
  = fst (HandleJoin crypto codec js ctx ora' req w).
Proof.
  unfold HandleJoin, bind, lift, getRegistry. cbv beta.
  destruct (parseRequest codec req) as [[[[[ver devAddr] msg] pld] raw] | e | m];
    try reflexivity.
  destruct (FindByIdentifiers (registry w) (joinIdentifiers pld)) as [[i dev] | e | m];
    try reflexivity.
  destruct (authorize js ctx ver pld dev) as [appKey | e | m]; try reflexivity.
  destruct (buildJoinAccept codec req msg devAddr dev) as [[jn b] | e | m];
    try reflexivity.
  destruct (checkDevNonce ver (LittleEndian_Uint16 (JRP_DevNonce pld)) dev)
    as [dev1 | e | m]; try reflexivity.
  destruct (issue crypto ver req dev1 appKey pld raw jn b w) as [[resp | e | m] w1];
    try reflexivity.
  destruct (commit_spec ora i dev1 (LittleEndian_Uint16 (JRP_DevNonce pld))
              devAddr resp w1) as (w2 & Hc & _).
  destruct (commit_spec ora' i dev1 (LittleEndian_Uint16 (JRP_DevNonce pld))
              devAddr resp w1) as (w3 & Hc' & _).
  rewrite Hc, Hc'. reflexivity.
Qed.

End Oracle.

(** ** The JoinNonce of a response *)

Section IssuedJoinNonce.

Context (crypto : Crypto) (codec : Codec) (js : JoinServer).

Lemma buildJoinAccept_Ok req msg devAddr dev jn b :
  buildJoinAccept codec req msg devAddr dev = Ok (jn, b) ->
  jn = copy_JoinNonce (LittleEndian_PutUint32 (NextJoinNonce dev))
  /\ exists b0,
       MHDR_AppendLoRaWAN codec
         {| MHDR_MType := JOIN_ACCEPT; MHDR_Major := GetMajor msg |} [] = inr b0
       /\ JoinAcceptPayload_AppendLoRaWAN codec (joinAcceptPayload req devAddr jn) b0
          = inr b.
Proof.
  unfold buildJoinAccept, joinAcceptPayload. intros H.
  destruct (MHDR_AppendLoRaWAN codec _ []) as [| b0] eqn:H0; [discriminate |].
  destruct (JoinAcceptPayload_AppendLoRaWAN codec _ b0) as [| b1] eqn:H1;
    [discriminate |].
  inversion H; subst. split; [reflexivity |]. exists b0. auto.
Qed.

Lemma encryptJoinAccept_Ok key b mic w raw w' :
  encryptJoinAccept crypto key b mic w = (Ok raw, w') ->
  exists enc,
    EncryptJoinAccept crypto key (drop 1 b ++ mic_bytes mic) = inr enc
    /\ raw = take 1 b ++ enc.
Proof.
  unfold encryptJoinAccept, bind, lift, ret, emit. intros H.
  destruct b as [| b0 b']; [discriminate |].
  destruct (EncryptJoinAccept crypto key _) as [| enc] eqn:He; [discriminate |].
  inversion H; subst. exists enc. auto.
Qed.

(** What the crypto step makes a response of: the MIC and the encryption
    are over the plaintext [b], and every session key is derived with the
    JoinNonce [jn] it was given. *)
Lemma issue_response ver req dev appKey pld raw jn b w resp w' :
  issue crypto ver req dev appKey pld raw jn b w = (Ok resp, w') ->
  exists key mic enc,
    ((ver = MAC_V1_1 /\ micKey ver dev = Some key)
     \/ (isLegacy ver = true /\ key = appKey))
    /\ joinAcceptMIC crypto ver key pld b = inr mic
    /\ EncryptJoinAccept crypto key (drop 1 b ++ mic_bytes mic) = inr enc
    /\ Resp_RawPayload resp = take 1 b ++ enc
    /\ Resp_SessionKeys resp = issuedSessionKeys crypto ver key appKey jn req pld.
Proof.
  unfold issue, bind, lift, ret. intros H.
  destruct ver; try discriminate.
  1-3: destruct (checkMIC crypto appKey raw w) as [[[e |] | |] w1]; try discriminate;
       destruct (emit _ w1) as [[[] | |] w2]; try discriminate;
       destruct (ComputeLegacyJoinAcceptMIC crypto appKey b) as [| mic] eqn:Hm;
       try discriminate;
       destruct (encryptJoinAccept crypto appKey b mic w2) as [[p | |] w3] eqn:He;
       try discriminate; inversion H; subst; simpl;
       apply encryptJoinAccept_Ok in He as (enc & He & ->);
       exists appKey, mic, enc; repeat split; auto.
  unfold micKey.
  destruct (GetNwkKey (RootKeys_ dev)) as [ke |]; [| discriminate].
  destruct (Key ke) as [nwkKey |]; [| discriminate].
  destruct (AES128Key_IsZero nwkKey); [discriminate |].
  destruct (checkMIC crypto nwkKey raw w) as [[[e |] | |] w1]; try discriminate.
  destruct (emit _ w1) as [[[] | |] w2]; try discriminate.
  destruct (ComputeJoinAcceptMIC crypto _ _ _ _ b) as [| mic] eqn:Hm;
    try discriminate.
  destruct (encryptJoinAccept crypto nwkKey b mic w2) as [[p | |] w3] eqn:He;
    try discriminate.
  inversion H; subst; simpl.
  apply encryptJoinAccept_Ok in He as (enc & He & ->).
  exists nwkKey, mic, enc. repeat split; auto.
Qed.

Lemma parseRequest_message req ver devAddr msg pld raw :
  parseRequest codec req = Ok (ver, devAddr, msg, pld, raw) ->
  requestMessage codec req msg /\ GetJoinRequestPayload msg = Some pld.
Proof.
  unfold parseRequest, requestMessage. intros H.
  destruct (negb _); [discriminate |].
  destruct (Ids_DevAddr (Req_Ids req)) as [a |]; [| discriminate].
  unfold obind in H.
  destruct (Message_Payload_ (Payload req)) as [p |] eqn:Hpl.
  - destruct (negb (bool_decide (GetMajor (Payload req) = LORAWAN_R1))); [discriminate |].
    destruct (negb (bool_decide (GetMType (Payload req) = JOIN_REQUEST))); [discriminate |].
    destruct (GetJoinRequestPayload (Payload req)) as [q |] eqn:Hq; [| discriminate].
    destruct (EUI64_IsZero _); [discriminate |].
    destruct (EUI64_IsZero _); [discriminate |].
    destruct (RawPayload req) as [r |].
    + inversion H; subst. split; [left; split; [discriminate | reflexivity] | exact Hq].
    + destruct (MarshalLoRaWAN codec (Payload req)) as [| r]; [discriminate |].
      inversion H; subst. split; [left; split; [discriminate | reflexivity] | exact Hq].
  - destruct (RawPayload req) as [r |]; [| discriminate].
    destruct (UnmarshalLoRaWAN codec r) as [| m] eqn:Hu; [discriminate |].
    destruct (negb (bool_decide (GetMajor m = LORAWAN_R1))); [discriminate |].
    destruct (negb (bool_decide (GetMType m = JOIN_REQUEST))); [discriminate |].
    destruct (GetJoinRequestPayload m) as [q |] eqn:Hq; [| discriminate].
    destruct (EUI64_IsZero _); [discriminate |].
    destruct (EUI64_IsZero _); [discriminate |].
    inversion H; subst. split; [right; split; [reflexivity | eauto] | exact Hq].
Qed.

(** A response is built with one JoinNonce, which is the found device's
    [next_join_nonce] modulo 2^24 although the counter has 32 bits: the
    Join-Accept plaintext is the codec's encoding, after the MHDR, of the
    payload that carries this JoinNonce, the raw payload of the response is
    the first byte of that plaintext followed by the encryption of the rest
    and the MIC, and every session key of the response is derived with this
    JoinNonce. *)
Theorem HandleJoin_JoinNonce ctx ora req w resp w' :
  HandleJoin crypto codec js ctx ora req w = (Ok resp, w') ->
  exists i dn dev devAddr msg pld jn b0 b key ke appKey mic enc,
    joinTarget codec (registry w) req = Some (i, dn)
    /\ registry w !! i = Some dev
    /\ JoinNonce_value jn = NextJoinNonce dev mod 2 ^ 24
    /\ Ids_DevAddr (Req_Ids req) = Some devAddr
    /\ requestMessage codec req msg
    /\ GetJoinRequestPayload msg = Some pld
    /\ MHDR_AppendLoRaWAN codec
         {| MHDR_MType := JOIN_ACCEPT; MHDR_Major := GetMajor msg |} [] = inr b0
    /\ JoinAcceptPayload_AppendLoRaWAN codec (joinAcceptPayload req devAddr jn) b0
       = inr b
    /\ micKey (SelectedMacVersion req) dev = Some key
    /\ GetAppKey (RootKeys_ dev) = Some ke
    /\ Key ke = Some appKey
    /\ joinAcceptMIC crypto (SelectedMacVersion req) key pld b = inr mic
    /\ EncryptJoinAccept crypto key (drop 1 b ++ mic_bytes mic) = inr enc
    /\ Resp_RawPayload resp = take 1 b ++ enc
    /\ Resp_SessionKeys resp
       = issuedSessionKeys crypto (SelectedMacVersion req) key appKey jn req pld.
Proof.
  intros H. apply HandleJoin_cases in H as [[Hno _] | H]; [discriminate |].
  destruct H as (ver & devAddr & msg & pld & raw & i & dev & appKey & jn & b
                 & dev1 & resp' & w1 & Hr & Hp & Hf & Ha & Hb & Hn & Hi & Hc).
  inversion Hr; subst resp'.
  destruct (parseRequest_Ok _ _ _ _ _ _ _ Hp) as (-> & Hd & _).
  destruct (parseRequest_message _ _ _ _ _ _ Hp) as (Hmsg & Hpld).
  apply authorize_Ok in Ha as (_ & _ & _ & (ke & Hke & Hkey) & _).
  apply buildJoinAccept_Ok in Hb as (Hjn & b0 & Hb0 & Hb1).
  apply issue_response in Hi as (key & mic & enc & Hwhich & Hmic & Henc & Hraw & Hkeys).
  assert (Hk : micKey (SelectedMacVersion req) dev = Some key).
  { destruct Hwhich as [(Hv & Hk) | (Hv & ->)].
    - unfold micKey in *. rewrite Hv in *.
      rewrite <- (checkDevNonce_RootKeys _ _ _ _ Hn). exact Hk.
    - unfold micKey. rewrite Hke.
      destruct (SelectedMacVersion req); try discriminate Hv; exact Hkey. }
  exists i, (LittleEndian_Uint16 (JRP_DevNonce pld)), dev, devAddr, msg, pld, jn,
    b0, b, key, ke, appKey, mic, enc.
  split; [unfold joinTarget; rewrite Hp, Hf; reflexivity |].
  split; [eapply FindByIdentifiers_lookup; eauto |].
  split; [rewrite Hjn; apply JoinNonce_of_counter |].
  repeat split; auto.
Qed.

End IssuedJoinNonce.

Lemma HandleJoin_JoinNonce_witness :
  exists resp w',
    Test.handleJoin Test.ns (Test.storing 100) (Test.join11 (x05, x00))
      (Test.world [Test.veteran]) = (Ok resp, w')
    /\ exists i dn dev devAddr msg pld jn b0 b key ke appKey mic enc,
         joinTarget Test.codec (registry (Test.world [Test.veteran]))
           (Test.join11 (x05, x00)) = Some (i, dn)
         /\ registry (Test.world [Test.veteran]) !! i = Some dev
         /\ JoinNonce_value jn = NextJoinNonce dev mod 2 ^ 24
         /\ Ids_DevAddr (Req_Ids (Test.join11 (x05, x00))) = Some devAddr
         /\ requestMessage Test.codec (Test.join11 (x05, x00)) msg
         /\ GetJoinRequestPayload msg = Some pld
         /\ MHDR_AppendLoRaWAN Test.codec
              {| MHDR_MType := JOIN_ACCEPT; MHDR_Major := GetMajor msg |} [] = inr b0
         /\ JoinAcceptPayload_AppendLoRaWAN Test.codec
              (joinAcceptPayload (Test.join11 (x05, x00)) devAddr jn) b0 = inr b
         /\ micKey (SelectedMacVersion (Test.join11 (x05, x00))) dev = Some key
         /\ GetAppKey (RootKeys_ dev) = Some ke
         /\ Key ke = Some appKey
         /\ joinAcceptMIC Test.crypto (SelectedMacVersion (Test.join11 (x05, x00)))
              key pld b = inr mic
         /\ EncryptJoinAccept Test.crypto key (drop 1 b ++ mic_bytes mic) = inr enc
         /\ Resp_RawPayload resp = take 1 b ++ enc
         /\ Resp_SessionKeys resp
            = issuedSessionKeys Test.crypto
                (SelectedMacVersion (Test.join11 (x05, x00))) key appKey jn
                (Test.join11 (x05, x00)) pld.
Proof.
  returns_response H.
  exact (HandleJoin_JoinNonce Test.crypto Test.codec Test.js _ _ _ _ _ _ H).
Defined.

(** On the device whose counter is 2^24 + 5 the JoinNonce issued is 5: the
    plaintext carries the bytes 05 00 00 after the MHDR. *)
Lemma HandleJoin_JoinNonce_wraps :
  JoinNonce_value
    (copy_JoinNonce (LittleEndian_PutUint32 (NextJoinNonce Test.veteran))) = 5
  /\ exists resp w' b,
       Test.handleJoin Test.ns (Test.storing 100) (Test.join11 (x05, x00))
         (Test.world [Test.veteran]) = (Ok resp, w')
       /\ buildJoinAccept Test.codec (Test.join11 (x05, x00))
            (Test.joinRequestMessage (x05, x00)) 0x01020304 Test.veteran
          = Ok ((x05, x00, x00), b)
       /\ take 4 b = [x20; x05; x00; x00].
Proof.
  split; [vm_compute; reflexivity |].
  do 3 eexists. split; [vm_compute; reflexivity |].
  split; vm_compute; reflexivity.
Qed.
